(** * Floor-plan geometry, hit-testing, calibration and 2D-to-3D projection

A shallow embedding of the floor-plan library
([floorplan-utils], [floorplan-types], [floorplan-3d-converter]) and of
the event handlers of the 2D editor component that decide selection,
deletion, measurement display and scale calibration.

JavaScript numbers are kept abstract behind the interface [JSNumber];
the code of the repository is written once against that interface.  Two
structures implement it:

- [Float64]: IEEE-754 binary64 on Rocq's primitive floats, the arithmetic
  a JavaScript engine runs;
- [XReal]: the real numbers extended by [NaN] and the two infinities,
  with exact arithmetic on the reals and the IEEE rules for the special
  values.  This is the "real-valued" reading of the data model.

Statements that only depend on the shape of the code are proved for every
structure; statements about arithmetic identities are proved in [XReal];
concrete runs are evaluated in [Float64]. *)

From Stdlib Require Import ZArith QArith String Ascii List Bool Lia.
From Stdlib Require Import DecimalString Floats Reals Lra.
Import ListNotations.

Set Implicit Arguments.
Local Open Scope nat_scope.

(* ================================================================== *)
(** * Text helpers shared by the number structures *)
(* ================================================================== *)

Module Text.

Local Open Scope string_scope.

(** Template-literal rendering of a loop index: [`${i}`]. *)
Definition of_nat (n : nat) : string :=
  NilZero.string_of_uint (Nat.to_uint n).

(** Decimal digits of a non-negative integer. *)
Definition of_Z (n : Z) : string :=
  NilZero.string_of_uint (N.to_uint (Z.to_N n)).

Fixpoint zeros (k : nat) : string :=
  match k with
  | O => EmptyString
  | S k' => String "0" (zeros k')
  end.

(** The first [k] characters of [s] and the rest. *)
Fixpoint split_at (k : nat) (s : string) : string * string :=
  match k, s with
  | O, _ => (EmptyString, s)
  | S _, EmptyString => (EmptyString, EmptyString)
  | S k', String c s' =>
      let (a, b) := split_at k' s' in (String c a, b)
  end.

(** Fixed-point rendering used by [Number.prototype.toFixed]: [n] is the
    integer nearest to [|x| * 10^f]; the digits are left-padded with
    zeros to [f + 1] places and the point is put before the last [f]. *)
Definition fixed (negative : bool) (n : Z) (f : nat) : string :=
  let m := of_Z n in
  let m := zeros (S f - String.length m) ++ m in
  let (a, b) := split_at (String.length m - f) m in
  (if negative then "-" else EmptyString) ++
  (match f with O => a | S _ => a ++ "." ++ b end).

(** The characters of [s] without its trailing zeros. *)
Fixpoint strip_zeros (s : string) : string :=
  match s with
  | EmptyString => EmptyString
  | String c s' =>
      match strip_zeros s' with
      | EmptyString =>
          if Ascii.eqb c "0" then EmptyString else String c EmptyString
      | t => String c t
      end
  end.

(** Exponent notation, as [Number::toString] prints a number of [10^21]
    and above: [m] holds the decimal digits of the integer printed. *)
Definition exponential (m : string) : string :=
  let e := "e+" ++ of_nat (String.length m - 1) in
  match strip_zeros m with
  | EmptyString => "0"
  | String d EmptyString => String d e
  | String d rest => String d ("." ++ rest ++ e)
  end.

(** ** The prefix grammar of [parseFloat] *)

Inductive parsed : Type :=
| PNaN
| PInfinity (negative : bool)
| PNumber (negative : bool) (q : Q).

Definition is_space (c : ascii) : bool :=
  let n := nat_of_ascii c in
  ((9 <=? n) && (n <=? 13))%nat || (n =? 32)%nat.

Definition digit_of (c : ascii) : option Z :=
  let n := nat_of_ascii c in
  if ((48 <=? n) && (n <=? 57))%nat then Some (Z.of_nat (n - 48)) else None.

Fixpoint skip_space (s : string) : string :=
  match s with
  | String c s' => if is_space c then skip_space s' else s
  | EmptyString => s
  end.

(** Reads a run of decimal digits: the value so far, the number of digits
    read and the remaining text. *)
Fixpoint digits (s : string) (acc : Z) (cnt : nat) : Z * nat * string :=
  match s with
  | String c s' =>
      match digit_of c with
      | Some d => digits s' (10 * acc + d)%Z (S cnt)
      | None => (acc, cnt, s)
      end
  | EmptyString => (acc, cnt, s)
  end.

(** An exponent part is taken only when at least one digit follows the
    [e] and its optional sign. *)
Definition exponent (s : string) : Z :=
  match s with
  | String c s' =>
      if (Ascii.eqb c "e" || Ascii.eqb c "E")%bool then
        let (neg, s'') :=
          match s' with
          | String "-" t => (true, t)
          | String "+" t => (false, t)
          | _ => (false, s')
          end in
        let '(e, cnt, _) := digits s'' 0%Z 0%nat in
        match cnt with
        | O => 0%Z
        | S _ => if neg then (- e)%Z else e
        end
      else 0%Z
  | EmptyString => 0%Z
  end.

Definition scale10 (m : Z) (e : Z) : Q :=
  match e with
  | Zneg p => Qmake m (Pos.pow 10 p)
  | _ => Qmake (m * 10 ^ e) 1
  end.

Definition unsigned (negative : bool) (s : string) : parsed :=
  if String.prefix "Infinity" s then PInfinity negative
  else
    let '(ip, ni, s1) := digits s 0%Z 0%nat in
    let '(fp, nf, s2) :=
      match s1 with
      | String "." t => digits t ip 0%nat
      | _ => (ip, 0%nat, s1)
      end in
    match (ni + nf)%nat with
    | O => PNaN
    | S _ => PNumber negative (scale10 fp (exponent s2 - Z.of_nat nf))
    end.

Definition parse (s : string) : parsed :=
  match skip_space s with
  | String "-" t => unsigned true t
  | String "+" t => unsigned false t
  | t => unsigned false t
  end.

End Text.

(* ================================================================== *)
(** * JavaScript numbers *)
(* ================================================================== *)

(** The operations the code performs on values of type [number].
    [lit q] is the numeric literal that denotes the rational [q];
    [pow2 x] is [x ** 2]; [min2]/[max2] are the binary steps of the
    variadic [Math.min]/[Math.max]; [ltb]/[leb] are [<] and [<=], [eqb]
    is [===]. *)
Class JSNumber (num : Type) : Type := {
  lit : Q -> num;
  Infinity : num;
  Math_PI : num;
  neg : num -> num;
  add : num -> num -> num;
  sub : num -> num -> num;
  mul : num -> num -> num;
  div : num -> num -> num;
  pow2 : num -> num;
  Math_sqrt : num -> num;
  Math_abs : num -> num;
  Math_atan2 : num -> num -> num;
  Math_round : num -> num;
  min2 : num -> num -> num;
  max2 : num -> num -> num;
  ltb : num -> num -> bool;
  leb : num -> num -> bool;
  eqb : num -> num -> bool;
  isNaN : num -> bool;
  toFixed : num -> nat -> string;
  parseFloat : string -> num
}.

Arguments lit {num _} _%_Q.

Declare Scope js_scope.
Delimit Scope js_scope with js.
Notation "a + b" := (add a b) : js_scope.
Notation "a - b" := (sub a b) : js_scope.
Notation "a * b" := (mul a b) : js_scope.
Notation "a / b" := (div a b) : js_scope.
Notation "- a" := (neg a) : js_scope.
Notation "a <? b" := (ltb a b) : js_scope.
Notation "a <=? b" := (leb a b) : js_scope.
Notation "a >? b" := (ltb b a) (at level 70) : js_scope.
Notation "a >=? b" := (leb b a) (at level 70) : js_scope.
Notation "a === b" := (eqb a b) (at level 70) : js_scope.
Notation "a !== b" := (negb (eqb a b)) (at level 70) : js_scope.

Section Builtins.

Context {num : Type} `{JSNumber num}.
Local Open Scope js_scope.

(** [ToBoolean] on a number: [0], [-0] and [NaN] are falsy. *)
Definition truthy (a : num) : bool := negb ((a === lit 0) || isNaN a).

(** [a || b] on numbers. *)
Definition or_else (a b : num) : num := if truthy a then a else b.

(** [Math.min(a1, ..., an)] and [Math.max(a1, ..., an)]. *)
Definition Math_min (l : list num) : num := fold_left min2 l Infinity.
Definition Math_max (l : list num) : num := fold_left max2 l (- Infinity).

End Builtins.

(** [ToBoolean] on an optional string ([undefined] and the empty string are falsy). *)
Definition truthy_str (s : option string) : option string :=
  match s with
  | Some EmptyString => None
  | _ => s
  end.

(* ================================================================== *)
(** * floorplan-types *)
(* ================================================================== *)

Inductive Unit_ : Type := meters | feet | inches.

Inductive CabinetType : Type := base | wall | tall | corner | island.

Inductive ToolType : Type :=
| tool_select | tool_wall | tool_room | tool_door | tool_window
| tool_cabinet | tool_delete | tool_measure | tool_model3d | tool_photo.

Definition CabinetType_eqb (a b : CabinetType) : bool :=
  match a, b with
  | base, base | wall, wall | tall, tall | corner, corner | island, island => true
  | _, _ => false
  end.

Section Types.

Variable num : Type.

Record Point : Type := { x : num; y : num }.

Record Wall : Type := {
  wall_id : string;
  wall_start : Point;
  wall_end : Point;
  wall_thickness : num;
  wall_height : num;
  wall_texture : option string
}.

Record Room : Type := {
  room_id : string;
  room_name : string;
  room_points : list Point;
  room_color : string;
  room_floorTexture : option string;
  room_wallTexture : option string
}.

Record Door : Type := {
  door_id : string;
  door_position : Point;
  door_angle : num;
  door_width : num;
  door_wallId : option string
}.

Record Window : Type := {
  window_id : string;
  window_position : Point;
  window_angle : num;
  window_width : num;
  window_height : num;
  window_wallId : option string
}.

Record Cabinet : Type := {
  cabinet_id : string;
  cabinet_type : CabinetType;
  cabinet_position : Point;
  cabinet_angle : num;
  cabinet_width : num;
  cabinet_depth : num;
  cabinet_height : num;
  cabinet_color : string
}.

Record Model3D : Type := {
  model_id : string;
  model_name : string;
  model_position : Point;
  model_angle : num;
  model_scale : num;
  model_height : num;
  model_modelUrl : string
}.

Record PhotoReference : Type := {
  photo_id : string;
  photo_name : string;
  photo_url : string;
  photo_position : Point;
  photo_width : num;
  photo_height : num;
  photo_opacity : num;
  photo_locked : bool
}.

Record ScaleCalibration : Type := {
  point1 : Point;
  point2 : Point;
  realWorldDistance : num;
  calibration_unit : Unit_
}.

Record Measurement : Type := {
  measurement_id : string;
  measurement_start : Point;
  measurement_end : Point;
  measurement_label : option string;
  measurement_visible : bool
}.

Record Metadata : Type := {
  createdAt : string;
  updatedAt : string;
  scale : num;
  unit : Unit_;
  showMeasurements : bool
}.

Record FloorPlan : Type := {
  id : string;
  name : string;
  walls : list Wall;
  rooms : list Room;
  doors : list Door;
  windows : list Window;
  cabinets : list Cabinet;
  models3D : list Model3D;
  photos : list PhotoReference;
  measurements : list Measurement;
  scaleCalibration : option ScaleCalibration;
  metadata : option Metadata
}.

End Types.

Arguments Build_Point {num}.

(* ================================================================== *)
(** * floorplan-utils *)
(* ================================================================== *)

Section Utils.

Context {num : Type} `{JSNumber num}.
Local Open Scope string_scope.
Local Open Scope js_scope.

Definition distance (p1 p2 : Point num) : num :=
  Math_sqrt (pow2 (x p2 - x p1) + pow2 (y p2 - y p1)).

Definition pointToLineDistance (point lineStart lineEnd : Point num) : num :=
  let A := x point - x lineStart in
  let B := y point - y lineStart in
  let C := x lineEnd - x lineStart in
  let D := y lineEnd - y lineStart in
  let dot := A * C + B * D in
  let lenSq := C * C + D * D in
  let param := if lenSq !== lit 0 then dot / lenSq else - lit 1 in
  let (xx, yy) :=
    if param <? lit 0 then (x lineStart, y lineStart)
    else if param >? lit 1 then (x lineEnd, y lineEnd)
    else (x lineStart + param * C, y lineStart + param * D) in
  let dx := x point - xx in
  let dy := y point - yy in
  Math_sqrt (dx * dx + dy * dy).

Definition snapToGrid (point : Point num) (gridSize : num) : Point num :=
  {| x := Math_round (x point / gridSize) * gridSize;
     y := Math_round (y point / gridSize) * gridSize |}.

(** The loop state is the pair [(nearest, minDist)]. *)
Definition findNearestPoint (point : Point num) (points : list (Point num))
    (threshold : num) : option (Point num) :=
  fst (fold_left
         (fun (st : option (Point num) * num) p =>
            let dist := distance point p in
            if dist <? snd st then (Some p, dist) else st)
         points (None, threshold)).

(** One iteration of the ray-casting loop at index [i] with trailing
    index [j]; the loop never reads outside the array, so the lookups
    always succeed. *)
Definition crossing (point : Point num) (polygon : list (Point num))
    (st : nat * bool) (i : nat) : nat * bool :=
  let (j, inside) := st in
  match nth_error polygon i, nth_error polygon j with
  | Some pi, Some pj =>
      let xi := x pi in let yi := y pi in
      let xj := x pj in let yj := y pj in
      let intersect :=
        xorb (yi >? y point) (yj >? y point)
        && (x point <? (xj - xi) * (y point - yi) / (yj - yi) + xi) in
      (i, if intersect then negb inside else inside)
  | _, _ => (i, inside)
  end.

(** [for (let i = 0, j = polygon.length - 1; i < polygon.length; j = i++)] *)
Definition isPointInPolygon (point : Point num) (polygon : list (Point num))
    : bool :=
  let n := length polygon in
  snd (fold_left (crossing point polygon) (seq 0 n) ((n - 1)%nat, false)).

(** [Date.now()] and [new Date().toISOString()] are inputs. *)
Definition createDefaultFloorPlan (now iso : string) : FloorPlan num :=
  {| id := "floorplan-" ++ now;
     name := "New Floor Plan";
     walls := [];
     rooms := [];
     doors := [];
     windows := [];
     cabinets := [];
     models3D := [];
     photos := [];
     measurements := [];
     scaleCalibration := None;
     metadata := Some {| createdAt := iso;
                         updatedAt := iso;
                         scale := lit 20;
                         unit := meters;
                         showMeasurements := true |} |}.

Definition getWallAngle (w : Wall num) : num :=
  Math_atan2 (y (wall_end w) - y (wall_start w))
             (x (wall_end w) - x (wall_start w)).

(** The preset table of [createCabinet]: width, depth, height, colour. *)
Definition presets (t : CabinetType) : num * num * num * string :=
  match t with
  | base => (lit 0.6, lit 0.6, lit 0.9, "#8B4513")
  | wall => (lit 0.6, lit 0.35, lit 0.7, "#A0522D")
  | tall => (lit 0.6, lit 0.6, lit 2.2, "#654321")
  | corner => (lit 0.9, lit 0.9, lit 0.9, "#8B4513")
  | island => (lit 1.2, lit 0.9, lit 0.9, "#A0522D")
  end.

(** [suffix] stands for [`${Date.now()}-${Math.random()}`]. *)
Definition createCabinet (suffix : string) (type : CabinetType)
    (position : Point num) (angle : num) : Cabinet num :=
  let '(width, depth, height, color) := presets type in
  let scale := lit 20 in
  {| cabinet_id := "cabinet-" ++ suffix;
     cabinet_type := type;
     cabinet_position := position;
     cabinet_angle := angle;
     cabinet_width := width * scale;
     cabinet_depth := depth * scale;
     cabinet_height := height;
     cabinet_color := color |}.

Definition convertPixelsToRealWorld (pixels scale : num) (unit : Unit_) : num :=
  let meters := pixels / scale in
  match unit with
  | feet => meters * lit 3.28084
  | inches => meters * lit 39.3701
  | meters => meters
  end.

Definition convertRealWorldToPixels (realWorld scale : num) (unit : Unit_)
    : num :=
  let meters :=
    match unit with
    | feet => realWorld / lit 3.28084
    | inches => realWorld / lit 39.3701
    | meters => realWorld
    end in
  meters * scale.

Definition formatMeasurement (pixels scale : num) (unit : Unit_) : string :=
  let value := convertPixelsToRealWorld pixels scale unit in
  match unit with
  | feet => toFixed value 2 ++ " ft"
  | inches => toFixed value 1 ++ " in"
  | meters => toFixed value 2 ++ " m"
  end.

(** [floorPlan.metadata?.scale || 20] and
    [floorPlan.metadata?.unit || 'meters']. *)
Definition plan_scale (floorPlan : FloorPlan num) : num :=
  match metadata floorPlan with
  | Some md => or_else (scale md) (lit 20)
  | None => lit 20
  end.

Definition plan_unit (floorPlan : FloorPlan num) : Unit_ :=
  match metadata floorPlan with
  | Some md => unit md
  | None => meters
  end.

(** The body of [floorPlan.walls.forEach] in [calculateAutoMeasurements]. *)
Definition wall_measurement (scale : num) (unit : Unit_) (w : Wall num)
    : Measurement num :=
  let dist := distance (wall_start w) (wall_end w) in
  {| measurement_id := "measure-wall-" ++ wall_id w;
     measurement_start := wall_start w;
     measurement_end := wall_end w;
     measurement_label := Some (formatMeasurement dist scale unit);
     measurement_visible := true |}.

(** The body of the inner [for] loop at index [i]: it pushes one
    measurement; both array reads are in range for every [i] the loop
    visits. *)
Definition room_edge (scale : num) (unit : Unit_) (room : Room num) (i : nat)
    : list (Measurement num) :=
  let points := room_points room in
  match nth_error points i,
        nth_error points ((i + 1) mod length points) with
  | Some start, Some end_ =>
      let dist := distance start end_ in
      [ {| measurement_id :=
             "measure-room-" ++ room_id room ++ "-" ++ Text.of_nat i;
           measurement_start := start;
           measurement_end := end_;
           measurement_label := Some (formatMeasurement dist scale unit);
           measurement_visible := true |} ]
  | _, _ => []
  end.

(** [for (let i = 0; i < room.points.length; i++)] *)
Definition room_measurements (scale : num) (unit : Unit_) (room : Room num)
    : list (Measurement num) :=
  flat_map (room_edge scale unit room) (seq 0 (length (room_points room))).

Definition calculateAutoMeasurements (floorPlan : FloorPlan num)
    : list (Measurement num) :=
  let scale := plan_scale floorPlan in
  let unit := plan_unit floorPlan in
  (map (wall_measurement scale unit) (walls floorPlan)
   ++ flat_map (room_measurements scale unit) (rooms floorPlan))%list.

Inductive RoomKind : Type := living | bedroom | kitchen | bathroom.

(** The table of [generateRoomTemplate]: width, height, name, colour. *)
Definition templates (kind : RoomKind) : num * num * string * string :=
  match kind with
  | living => (lit 5, lit 6, "Living Room", "#e3f2fd")
  | bedroom => (lit 4, lit 4, "Bedroom", "#fff3e0")
  | kitchen => (lit 4, lit 3, "Kitchen", "#f3e5f5")
  | bathroom => (lit 2, lit 2.5, "Bathroom", "#e0f2f1")
  end.

(** [suffix] stands for [`${Date.now()}-${Math.random()}`]; the caller
    passes [scale], 20 when it leaves it out. *)
Definition generateRoomTemplate (suffix : string) (kind : RoomKind)
    (centerX centerY scale : num) : Room num :=
  let '(width, height, name, color) := templates kind in
  let w := width * scale in
  let h := height * scale in
  {| room_id := "room-" ++ suffix;
     room_name := name;
     room_points :=
       [ {| x := centerX - w / lit 2; y := centerY - h / lit 2 |};
         {| x := centerX + w / lit 2; y := centerY - h / lit 2 |};
         {| x := centerX + w / lit 2; y := centerY + h / lit 2 |};
         {| x := centerX - w / lit 2; y := centerY + h / lit 2 |} ];
     room_color := color;
     room_floorTexture := None;
     room_wallTexture := None |}.

End Utils.

(* ================================================================== *)
(** * floorplan-3d-converter *)
(* ================================================================== *)

(** The declarative part of the three.js objects the converter builds:
    constructor arguments only. *)

Inductive MeshType : Type :=
| mesh_wall | mesh_floor | mesh_door | mesh_window
| mesh_ceiling | mesh_cabinet | mesh_model3d.

Definition MeshType_eqb (a b : MeshType) : bool :=
  match a, b with
  | mesh_wall, mesh_wall | mesh_floor, mesh_floor | mesh_door, mesh_door
  | mesh_window, mesh_window | mesh_ceiling, mesh_ceiling
  | mesh_cabinet, mesh_cabinet | mesh_model3d, mesh_model3d => true
  | _, _ => false
  end.

Inductive Side : Type := FrontSide | DoubleSide.

Inductive Color : Type :=
| ColorHex (rgb : N)
| ColorName (css : string).

Section Three.

Variable num : Type.

Inductive PathCommand : Type :=
| moveTo (px pz : num)
| lineTo (px pz : num)
| closePath.

Inductive Geometry : Type :=
| BoxGeometry (width height depth : num)
| ShapeGeometry (shape : list PathCommand)
| CylinderGeometry (radiusTop radiusBottom height : num) (radialSegments : nat).

(** A texture loaded from [url] with [RepeatWrapping] on both axes. *)
Record Texture : Type := {
  texture_url : string;
  texture_repeat : num * num
}.

(** [MeshStandardMaterial] parameters. *)
Record Material : Type := {
  mat_color : option Color;
  mat_map : option Texture;
  mat_roughness : num;
  mat_metalness : num;
  mat_side : Side;
  mat_transparent : bool;
  mat_opacity : option num
}.

Record Mesh : Type := {
  geometry : Geometry;
  material : Material;
  position : num * num * num;
  rotation : option (num * num * num);
  mesh_type : MeshType;
  mesh_id : string;
  modelUrl : option string
}.

Record Bounds : Type := {
  minX : num;
  maxX : num;
  minY : num;
  maxY : num
}.

Record FloorPlan3DData : Type := {
  meshes : list Mesh;
  bounds : Bounds
}.

End Three.

Arguments closePath {num}.

(** The handle of a cabinet is the only cylinder the converter emits. *)
Definition is_cylinder {num : Type} (m : Mesh num) : bool :=
  match geometry m with
  | CylinderGeometry _ _ _ _ => true
  | _ => false
  end.

Definition is_wall_mesh {num : Type} (m : Mesh num) : bool :=
  MeshType_eqb (mesh_type m) mesh_wall.

Section Converter.

Context {num : Type} `{JSNumber num}.
Local Open Scope string_scope.
Local Open Scope js_scope.

(** The two [forEach] loops that accumulate the bounds. *)
Definition bounds_wall (b : Bounds num) (w : Wall num) : Bounds num :=
  {| minX := Math_min [minX b; x (wall_start w); x (wall_end w)];
     maxX := Math_max [maxX b; x (wall_start w); x (wall_end w)];
     minY := Math_min [minY b; y (wall_start w); y (wall_end w)];
     maxY := Math_max [maxY b; y (wall_start w); y (wall_end w)] |}.

Definition bounds_point (b : Bounds num) (point : Point num) : Bounds num :=
  {| minX := Math_min [minX b; x point];
     maxX := Math_max [maxX b; x point];
     minY := Math_min [minY b; y point];
     maxY := Math_max [maxY b; y point] |}.

Definition bounds_room (b : Bounds num) (room : Room num) : Bounds num :=
  fold_left bounds_point (room_points room) b.

Definition calculate_bounds (floorPlan : FloorPlan num) : Bounds num :=
  let b0 := {| minX := Infinity; maxX := - Infinity;
               minY := Infinity; maxY := - Infinity |} in
  fold_left bounds_room (rooms floorPlan)
    (fold_left bounds_wall (walls floorPlan) b0).

Section Emit.

(** [scale] is the normalised scale and [b] the accumulated bounds. *)
Variable scale : num.
Variable b : Bounds num.

(** [(px - (minX + maxX) / 2) * 0.1 * scale] *)
Definition to3D_x (px : num) : num :=
  (px - (minX b + maxX b) / lit 2) * lit 0.1 * scale.
Definition to3D_z (py : num) : num :=
  (py - (minY b + maxY b) / lit 2) * lit 0.1 * scale.

Definition convert_wall (w : Wall num) : Mesh num :=
  let dx := x (wall_end w) - x (wall_start w) in
  let dy := y (wall_end w) - y (wall_start w) in
  let length := Math_sqrt (dx * dx + dy * dy) in
  let angle := Math_atan2 dy dx in
  let centerX := (x (wall_start w) + x (wall_end w)) / lit 2 in
  let centerY := (y (wall_start w) + y (wall_end w)) / lit 2 in
  let x3 := to3D_x centerX in
  let z3 := to3D_z centerY in
  let wallHeight := or_else (wall_height w) (lit 2.7) in
  let geometry :=
    BoxGeometry (length * lit 0.1 * scale) wallHeight
                (wall_thickness w * lit 0.1 * scale) in
  let material :=
    match truthy_str (wall_texture w) with
    | Some url =>
        {| mat_color := None;
           mat_map := Some {| texture_url := url;
                              texture_repeat :=
                                (length * lit 0.1 * scale / lit 2,
                                 wallHeight / lit 2) |};
           mat_roughness := lit 0.8;
           mat_metalness := lit 0.2;
           mat_side := FrontSide;
           mat_transparent := false;
           mat_opacity := None |}
    | None =>
        {| mat_color := Some (ColorHex 0xf5f5f5);
           mat_map := None;
           mat_roughness := lit 0.8;
           mat_metalness := lit 0.2;
           mat_side := FrontSide;
           mat_transparent := false;
           mat_opacity := None |}
    end in
  {| geometry := geometry;
     material := material;
     position := (x3, wallHeight / lit 2, z3);
     rotation := Some (lit 0, angle, lit 0);
     mesh_type := mesh_wall;
     mesh_id := wall_id w;
     modelUrl := None |}.

(** [moveTo] for index 0, [lineTo] for the others, then [closePath]. *)
Definition room_shape (points : list (Point num)) : list (PathCommand num) :=
  (match points with
   | [] => []
   | p :: rest =>
       moveTo (to3D_x (x p)) (to3D_z (y p))
       :: map (fun q => lineTo (to3D_x (x q)) (to3D_z (y q))) rest
   end ++ [closePath])%list.

Definition convert_room (room : Room num) : list (Mesh num) :=
  if (length (room_points room) <? 3)%nat then []
  else
    let shape := room_shape (room_points room) in
    let floorMaterial :=
      match truthy_str (room_floorTexture room) with
      | Some url =>
          {| mat_color := None;
             mat_map := Some {| texture_url := url;
                                texture_repeat := (lit 4, lit 4) |};
             mat_roughness := lit 0.9;
             mat_metalness := lit 0.1;
             mat_side := DoubleSide;
             mat_transparent := false;
             mat_opacity := None |}
      | None =>
          {| mat_color :=
               Some (match room_color room with
                     | EmptyString => ColorHex 0xe3f2fd
                     | c => ColorName c
                     end);
             mat_map := None;
             mat_roughness := lit 0.9;
             mat_metalness := lit 0.1;
             mat_side := DoubleSide;
             mat_transparent := false;
             mat_opacity := None |}
      end in
    let ceilingMaterial :=
      {| mat_color := Some (ColorHex 0xffffff);
         mat_map := None;
         mat_roughness := lit 0.7;
         mat_metalness := lit 0.1;
         mat_side := DoubleSide;
         mat_transparent := false;
         mat_opacity := None |} in
    [ {| geometry := ShapeGeometry shape;
         material := floorMaterial;
         position := (lit 0, lit 0.01, lit 0);
         rotation := Some (- Math_PI / lit 2, lit 0, lit 0);
         mesh_type := mesh_floor;
         mesh_id := room_id room;
         modelUrl := None |};
      {| geometry := ShapeGeometry shape;
         material := ceilingMaterial;
         position := (lit 0, lit 2.7, lit 0);
         rotation := Some (- Math_PI / lit 2, lit 0, lit 0);
         mesh_type := mesh_ceiling;
         mesh_id := room_id room ++ "-ceiling";
         modelUrl := None |} ].

Definition convert_door (door : Door num) : Mesh num :=
  let x3 := to3D_x (x (door_position door)) in
  let z3 := to3D_z (y (door_position door)) in
  {| geometry := BoxGeometry (door_width door * lit 0.1 * scale)
                             (lit 2.0) (lit 0.05);
     material := {| mat_color := Some (ColorHex 0x8B4513);
                    mat_map := None;
                    mat_roughness := lit 0.7;
                    mat_metalness := lit 0.3;
                    mat_side := FrontSide;
                    mat_transparent := false;
                    mat_opacity := None |};
     position := (x3, lit 1.0, z3);
     rotation := Some (lit 0, door_angle door, lit 0);
     mesh_type := mesh_door;
     mesh_id := door_id door;
     modelUrl := None |}.

Definition convert_window (window : Window num) : Mesh num :=
  let x3 := to3D_x (x (window_position window)) in
  let z3 := to3D_z (y (window_position window)) in
  {| geometry := BoxGeometry (window_width window * lit 0.1 * scale)
                             (or_else (window_height window) (lit 1.5))
                             (lit 0.05);
     material := {| mat_color := Some (ColorHex 0x87CEEB);
                    mat_map := None;
                    mat_roughness := lit 0.1;
                    mat_metalness := lit 0.9;
                    mat_side := FrontSide;
                    mat_transparent := true;
                    mat_opacity := Some (lit 0.6) |};
     position := (x3, lit 1.5, z3);
     rotation := Some (lit 0, window_angle window, lit 0);
     mesh_type := mesh_window;
     mesh_id := window_id window;
     modelUrl := None |}.

(** The cabinet body. *)
Definition cabinet_body (cabinet : Cabinet num) : Mesh num :=
  let x3 := to3D_x (x (cabinet_position cabinet)) in
  let z3 := to3D_z (y (cabinet_position cabinet)) in
  let yPosition :=
    if CabinetType_eqb (cabinet_type cabinet) wall then lit 1.8
    else cabinet_height cabinet / lit 2 in
  {| geometry := BoxGeometry (cabinet_width cabinet * lit 0.1 * scale)
                             (cabinet_height cabinet)
                             (cabinet_depth cabinet * lit 0.1 * scale);
     material := {| mat_color := Some (ColorName (cabinet_color cabinet));
                    mat_map := None;
                    mat_roughness := lit 0.6;
                    mat_metalness := lit 0.4;
                    mat_side := FrontSide;
                    mat_transparent := false;
                    mat_opacity := None |};
     position := (x3, yPosition, z3);
     rotation := Some (lit 0, cabinet_angle cabinet, lit 0);
     mesh_type := mesh_cabinet;
     mesh_id := cabinet_id cabinet;
     modelUrl := None |}.

(** The knob pushed inside [if (cabinet.type !== 'island')]. *)
Definition cabinet_handle (cabinet : Cabinet num) : Mesh num :=
  let x3 := to3D_x (x (cabinet_position cabinet)) in
  let z3 := to3D_z (y (cabinet_position cabinet)) in
  let yPosition :=
    if CabinetType_eqb (cabinet_type cabinet) wall then lit 1.8
    else cabinet_height cabinet / lit 2 in
  let handleOffset :=
    cabinet_depth cabinet * lit 0.1 * scale / lit 2 + lit 0.025 in
  {| geometry := CylinderGeometry (lit 0.02) (lit 0.02) (lit 0.05) 8;
     material := {| mat_color := Some (ColorHex 0x333333);
                    mat_map := None;
                    mat_roughness := lit 0.3;
                    mat_metalness := lit 0.8;
                    mat_side := FrontSide;
                    mat_transparent := false;
                    mat_opacity := None |};
     position := (x3, yPosition, z3 + handleOffset);
     rotation := Some (Math_PI / lit 2, lit 0, cabinet_angle cabinet);
     mesh_type := mesh_cabinet;
     mesh_id := cabinet_id cabinet ++ "-handle";
     modelUrl := None |}.

Definition convert_cabinet (cabinet : Cabinet num) : list (Mesh num) :=
  cabinet_body cabinet
  :: (if negb (CabinetType_eqb (cabinet_type cabinet) island)
      then [cabinet_handle cabinet] else []).

Definition convert_model (model : Model3D num) : Mesh num :=
  let x3 := to3D_x (x (model_position model)) in
  let z3 := to3D_z (y (model_position model)) in
  let size := lit 0.5 * model_scale model in
  {| geometry := BoxGeometry size size size;
     material := {| mat_color := Some (ColorHex 0x9c27b0);
                    mat_map := None;
                    mat_roughness := lit 0.5;
                    mat_metalness := lit 0.5;
                    mat_side := FrontSide;
                    mat_transparent := true;
                    mat_opacity := Some (lit 0.7) |};
     position := (x3, model_height model + size / lit 2, z3);
     rotation := Some (lit 0, model_angle model, lit 0);
     mesh_type := mesh_model3d;
     mesh_id := model_id model;
     modelUrl := Some (model_modelUrl model) |}.

End Emit.

Definition convertFloorPlanTo3D (floorPlan : FloorPlan num)
    : FloorPlan3DData num :=
  let scale := plan_scale floorPlan / lit 20 in
  let b := calculate_bounds floorPlan in
  {| meshes :=
       (map (convert_wall scale b) (walls floorPlan)
        ++ flat_map (convert_room scale b) (rooms floorPlan)
        ++ map (convert_door scale b) (doors floorPlan)
        ++ map (convert_window scale b) (windows floorPlan)
        ++ flat_map (convert_cabinet scale b) (cabinets floorPlan)
        ++ map (convert_model scale b) (models3D floorPlan))%list;
     bounds := b |}.

End Converter.

(* ================================================================== *)
(** * The 2D editor component: selection, deletion, measurements, scale *)
(* ================================================================== *)

Definition ToolType_eqb (a b : ToolType) : bool :=
  match a, b with
  | tool_select, tool_select | tool_wall, tool_wall | tool_room, tool_room
  | tool_door, tool_door | tool_window, tool_window
  | tool_cabinet, tool_cabinet | tool_delete, tool_delete
  | tool_measure, tool_measure | tool_model3d, tool_model3d
  | tool_photo, tool_photo => true
  | _, _ => false
  end.

Section Editor.

Context {num : Type} `{JSNumber num}.
Local Open Scope string_scope.
Local Open Scope js_scope.

(** The [useState] cells the handlers below read or write. *)
Record EditorState : Type := {
  tool : ToolType;
  isDragging : bool;
  dragStart : option (Point num);
  currentPoint : option (Point num);
  selectedId : option string;
  showGrid : bool;
  gridSize : num;
  panOffset : Point num;
  isPanning : bool;
  showMeasurementsState : bool;
  scaleDistance : string;
  scaleUnit : Unit_
}.

(** A mouse event with the canvas rectangle's corner it is read against. *)
Record MouseEvent : Type := {
  clientX : num;
  clientY : num;
  rect_left : num;
  rect_top : num;
  button : nat
}.

Inductive Toast : Type :=
| toast_error (message : string)
| toast_scale_set (realWorld : num) (scaleUnit : Unit_).

(** The canvas is mounted, so its rectangle is read. *)
Definition getCanvasPoint (st : EditorState) (e : MouseEvent) : Point num :=
  let point := {| x := clientX e - rect_left e - x (panOffset st);
                  y := clientY e - rect_top e - y (panOffset st) |} in
  if showGrid st then snapToGrid point (gridSize st) else point.

(** ** The conditions tested in the select branch *)

Definition photo_hit (point : Point num) (photo : PhotoReference num) : bool :=
  (x point >=? x (photo_position photo))
  && (x point <=? x (photo_position photo) + photo_width photo)
  && (y point >=? y (photo_position photo))
  && (y point <=? y (photo_position photo) + photo_height photo).

Definition model_hit (point : Point num) (model : Model3D num) : bool :=
  let size := lit 40 * model_scale model in
  let dx := Math_abs (x point - x (model_position model)) in
  let dy := Math_abs (y point - y (model_position model)) in
  (dx <? size / lit 2) && (dy <? size / lit 2).

Definition cabinet_hit (point : Point num) (cabinet : Cabinet num) : bool :=
  let dx := Math_abs (x point - x (cabinet_position cabinet)) in
  let dy := Math_abs (y point - y (cabinet_position cabinet)) in
  (dx <? cabinet_width cabinet / lit 2) && (dy <? cabinet_depth cabinet / lit 2).

Definition wall_hit (point : Point num) (w : Wall num) : bool :=
  pointToLineDistance point (wall_start w) (wall_end w) <? lit 10.

Definition room_hit (point : Point num) (room : Room num) : bool :=
  isPointInPolygon point (room_points room).

Definition door_hit (point : Point num) (door : Door num) : bool :=
  distance point (door_position door) <? lit 20.

Definition window_hit (point : Point num) (window : Window num) : bool :=
  distance point (window_position window) <? lit 20.

(** The select branch of [handleMouseDown]: each [for ... break] loop is
    a search for the first element that passes its test, entered only
    while [found] is still false; the result is the argument of the one
    [setSelectedId] call that runs. *)
Definition select_at (floorPlan : FloorPlan num) (point : Point num)
    : option string :=
  match find (photo_hit point) (photos floorPlan) with
  | Some photo => Some (photo_id photo)
  | None =>
  match find (model_hit point) (models3D floorPlan) with
  | Some model => Some (model_id model)
  | None =>
  match find (cabinet_hit point) (cabinets floorPlan) with
  | Some cabinet => Some (cabinet_id cabinet)
  | None =>
  match find (wall_hit point) (walls floorPlan) with
  | Some w => Some (wall_id w)
  | None =>
  match find (room_hit point) (rooms floorPlan) with
  | Some room => Some (room_id room)
  | None =>
  match find (door_hit point) (doors floorPlan) with
  | Some door => Some (door_id door)
  | None =>
  match find (window_hit point) (windows floorPlan) with
  | Some window => Some (window_id window)
  | None => None
  end end end end end end end.

(** ** The callbacks given to [filter] in the delete branch *)

Definition photo_keep (point : Point num) (photo : PhotoReference num) : bool :=
  negb ((x point >=? x (photo_position photo))
        && (x point <=? x (photo_position photo) + photo_width photo)
        && (y point >=? y (photo_position photo))
        && (y point <=? y (photo_position photo) + photo_height photo)).

Definition model_keep (point : Point num) (model : Model3D num) : bool :=
  let size := lit 40 * model_scale model in
  let dx := Math_abs (x point - x (model_position model)) in
  let dy := Math_abs (y point - y (model_position model)) in
  (dx >=? size / lit 2) || (dy >=? size / lit 2).

Definition cabinet_keep (point : Point num) (cabinet : Cabinet num) : bool :=
  let dx := Math_abs (x point - x (cabinet_position cabinet)) in
  let dy := Math_abs (y point - y (cabinet_position cabinet)) in
  (dx >=? cabinet_width cabinet / lit 2)
  || (dy >=? cabinet_depth cabinet / lit 2).

Definition wall_keep (point : Point num) (w : Wall num) : bool :=
  pointToLineDistance point (wall_start w) (wall_end w) >=? lit 10.

Definition room_keep (point : Point num) (room : Room num) : bool :=
  negb (isPointInPolygon point (room_points room)).

Definition door_keep (point : Point num) (door : Door num) : bool :=
  distance point (door_position door) >=? lit 20.

Definition window_keep (point : Point num) (window : Window num) : bool :=
  distance point (window_position window) >=? lit 20.

(** The delete branch: the plan handed to [onFloorPlanChange]. *)
Definition delete_at (floorPlan : FloorPlan num) (point : Point num)
    : FloorPlan num :=
  {| id := id floorPlan;
     name := name floorPlan;
     walls := filter (wall_keep point) (walls floorPlan);
     rooms := filter (room_keep point) (rooms floorPlan);
     doors := filter (door_keep point) (doors floorPlan);
     windows := filter (window_keep point) (windows floorPlan);
     cabinets := filter (cabinet_keep point) (cabinets floorPlan);
     models3D := filter (model_keep point) (models3D floorPlan);
     photos := filter (photo_keep point) (photos floorPlan);
     measurements := measurements floorPlan;
     scaleCalibration := scaleCalibration floorPlan;
     metadata := metadata floorPlan |}.

(** The outcome of a handler: the next state, the plan handed to
    [onFloorPlanChange] when it is called, and the toast shown. *)
Record Outcome : Type := {
  next : EditorState;
  changed : option (FloorPlan num);
  toast : option Toast
}.

Definition handleMouseDown (st : EditorState) (floorPlan : FloorPlan num)
    (e : MouseEvent) : Outcome :=
  let point := getCanvasPoint st e in
  if ToolType_eqb (tool st) tool_select && (button e =? 1)%nat then
    {| next := {| tool := tool st; isDragging := isDragging st;
                  dragStart := Some point; currentPoint := currentPoint st;
                  selectedId := selectedId st; showGrid := showGrid st;
                  gridSize := gridSize st; panOffset := panOffset st;
                  isPanning := true;
                  showMeasurementsState := showMeasurementsState st;
                  scaleDistance := scaleDistance st;
                  scaleUnit := scaleUnit st |};
       changed := None; toast := None |}
  else if ToolType_eqb (tool st) tool_select then
    {| next := {| tool := tool st; isDragging := isDragging st;
                  dragStart := dragStart st; currentPoint := currentPoint st;
                  selectedId := select_at floorPlan point;
                  showGrid := showGrid st;
                  gridSize := gridSize st; panOffset := panOffset st;
                  isPanning := isPanning st;
                  showMeasurementsState := showMeasurementsState st;
                  scaleDistance := scaleDistance st;
                  scaleUnit := scaleUnit st |};
       changed := None; toast := None |}
  else if ToolType_eqb (tool st) tool_delete then
    {| next := st; changed := Some (delete_at floorPlan point);
       toast := None |}
  else
    {| next := {| tool := tool st; isDragging := true;
                  dragStart := Some point; currentPoint := Some point;
                  selectedId := selectedId st; showGrid := showGrid st;
                  gridSize := gridSize st; panOffset := panOffset st;
                  isPanning := isPanning st;
                  showMeasurementsState := showMeasurementsState st;
                  scaleDistance := scaleDistance st;
                  scaleUnit := scaleUnit st |};
       changed := None; toast := None |}.

(** ** Measurements shown by [draw] *)

(** [floorPlan.measurements.length > 0 ? floorPlan.measurements
     : calculateAutoMeasurements(floorPlan)] *)
Definition measurements_to_draw (floorPlan : FloorPlan num)
    : list (Measurement num) :=
  if (0 <? length (measurements floorPlan))%nat
  then measurements floorPlan
  else calculateAutoMeasurements floorPlan.

(** The [drawArrowLine] calls of [draw]: start, end and label text. *)
Definition draw_measurements (st : EditorState) (floorPlan : FloorPlan num)
    : list (Point num * Point num * string) :=
  if showMeasurementsState st then
    map (fun m =>
           (measurement_start m, measurement_end m,
            match truthy_str (measurement_label m) with
            | Some label => label
            | None =>
                formatMeasurement
                  (distance (measurement_start m) (measurement_end m))
                  (plan_scale floorPlan) (plan_unit floorPlan)
            end))
        (filter (@measurement_visible num) (measurements_to_draw floorPlan))
  else [].

(** ** Scale calibration *)

(** [{ ...floorPlan.metadata!, scale: newScale, unit: scaleUnit }]; the
    spread of an absent [metadata] contributes no field, which the record
    renders as empty timestamps and a false flag. *)
Definition with_scale (md : option (Metadata num)) (newScale : num)
    (u : Unit_) : Metadata num :=
  match md with
  | Some m => {| createdAt := createdAt m; updatedAt := updatedAt m;
                 scale := newScale; unit := u;
                 showMeasurements := showMeasurements m |}
  | None => {| createdAt := EmptyString; updatedAt := EmptyString;
               scale := newScale; unit := u;
               showMeasurements := false |}
  end.

Definition handleSetScale (st : EditorState) (floorPlan : FloorPlan num)
    : Outcome :=
  match dragStart st, currentPoint st, scaleDistance st with
  | Some dragStart, Some currentPoint, String _ _ =>
      let pixels := distance dragStart currentPoint in
      let realWorld := parseFloat (scaleDistance st) in
      if isNaN realWorld || (realWorld <=? lit 0) then
        {| next := st; changed := None;
           toast := Some (toast_error "Please enter a valid distance") |}
      else
        let meters :=
          match scaleUnit st with
          | feet => realWorld / lit 3.28084
          | inches => realWorld / lit 39.3701
          | meters => realWorld
          end in
        let newScale := pixels / meters in
        let updatedFloorPlan :=
          {| id := id floorPlan;
             name := name floorPlan;
             walls := walls floorPlan;
             rooms := rooms floorPlan;
             doors := doors floorPlan;
             windows := windows floorPlan;
             cabinets := cabinets floorPlan;
             models3D := models3D floorPlan;
             photos := photos floorPlan;
             measurements := measurements floorPlan;
             scaleCalibration :=
               Some {| point1 := dragStart;
                       point2 := currentPoint;
                       realWorldDistance := realWorld;
                       calibration_unit := scaleUnit st |};
             metadata :=
               Some (with_scale (metadata floorPlan) newScale (scaleUnit st)) |} in
        {| next := {| tool := tool_select; isDragging := isDragging st;
                      dragStart := Some dragStart;
                      currentPoint := Some currentPoint;
                      selectedId := selectedId st; showGrid := showGrid st;
                      gridSize := gridSize st; panOffset := panOffset st;
                      isPanning := isPanning st;
                      showMeasurementsState := showMeasurementsState st;
                      scaleDistance := EmptyString;
                      scaleUnit := scaleUnit st |};
           changed := Some updatedFloorPlan;
           toast := Some (toast_scale_set realWorld (scaleUnit st)) |}
  | _, _, _ =>
      {| next := st; changed := None;
         toast := Some (toast_error
           "Please draw a measurement line and enter the real-world distance") |}
  end.

(** ** Dragging and placing *)

Definition handleMouseMove (st : EditorState) (e : MouseEvent) : EditorState :=
  let point := getCanvasPoint st e in
  match isPanning st, dragStart st with
  | true, Some start =>
      let dx := x point - x start in
      let dy := y point - y start in
      {| tool := tool st; isDragging := isDragging st;
         dragStart := dragStart st; currentPoint := currentPoint st;
         selectedId := selectedId st; showGrid := showGrid st;
         gridSize := gridSize st;
         panOffset := {| x := x (panOffset st) + dx;
                         y := y (panOffset st) + dy |};
         isPanning := isPanning st;
         showMeasurementsState := showMeasurementsState st;
         scaleDistance := scaleDistance st;
         scaleUnit := scaleUnit st |}
  | _, _ =>
      if isDragging st then
        {| tool := tool st; isDragging := isDragging st;
           dragStart := dragStart st; currentPoint := Some point;
           selectedId := selectedId st; showGrid := showGrid st;
           gridSize := gridSize st; panOffset := panOffset st;
           isPanning := isPanning st;
           showMeasurementsState := showMeasurementsState st;
           scaleDistance := scaleDistance st;
           scaleUnit := scaleUnit st |}
      else st
  end.

(** The entity the tool in hand places for a drag from [start] to
    [current], pushed onto its collection of the copied plan; the tools
    that place nothing hand the copy on as it is.  [now] stands for
    [Date.now()] and [random] for [Math.random()], both as text. *)
Definition place (t : ToolType) (cabinetType : CabinetType)
    (now random : string) (start current : Point num)
    (floorPlan : FloorPlan num) : FloorPlan num :=
  let with_collections ws rs ds wins cs ms :=
    {| id := id floorPlan; name := name floorPlan;
       walls := ws; rooms := rs; doors := ds; windows := wins;
       cabinets := cs; models3D := models3D floorPlan;
       photos := photos floorPlan; measurements := ms;
       scaleCalibration := scaleCalibration floorPlan;
       metadata := metadata floorPlan |} in
  let ws := walls floorPlan in
  let rs := rooms floorPlan in
  let ds := doors floorPlan in
  let wins := windows floorPlan in
  let cs := cabinets floorPlan in
  let ms := measurements floorPlan in
  match t with
  | tool_wall =>
      let newWall :=
        {| wall_id := "wall-" ++ now; wall_start := start;
           wall_end := current; wall_thickness := lit 8;
           wall_height := lit 2.7; wall_texture := None |} in
      with_collections (ws ++ [newWall])%list rs ds wins cs ms
  | tool_room =>
      let newRoom :=
        {| room_id := "room-" ++ now; room_name := "Room";
           room_points :=
             [ start;
               {| x := x current; y := y start |};
               current;
               {| x := x start; y := y current |} ];
           room_color := "#e3f2fd";
           room_floorTexture := None; room_wallTexture := None |} in
      with_collections ws (rs ++ [newRoom])%list ds wins cs ms
  | tool_door =>
      let newDoor :=
        {| door_id := "door-" ++ now; door_position := current;
           door_angle := lit 0; door_width := lit 40;
           door_wallId := None |} in
      with_collections ws rs (ds ++ [newDoor])%list wins cs ms
  | tool_window =>
      let newWindow :=
        {| window_id := "window-" ++ now; window_position := current;
           window_angle := lit 0; window_width := lit 40;
           window_height := lit 1.5; window_wallId := None |} in
      with_collections ws rs ds (wins ++ [newWindow])%list cs ms
  | tool_cabinet =>
      let newCabinet :=
        createCabinet (now ++ "-" ++ random) cabinetType current (lit 0) in
      with_collections ws rs ds wins (cs ++ [newCabinet])%list ms
  | tool_measure =>
      let dist := distance start current in
      let newMeasurement :=
        {| measurement_id := "measurement-" ++ now;
           measurement_start := start;
           measurement_end := current;
           measurement_label :=
             Some (formatMeasurement dist (plan_scale floorPlan)
                                     (plan_unit floorPlan));
           measurement_visible := true |} in
      with_collections ws rs ds wins cs (ms ++ [newMeasurement])%list
  | _ => with_collections ws rs ds wins cs ms
  end.

(** [cabinetType] is the state cell of the cabinet selector. *)
Definition handleMouseUp (st : EditorState) (floorPlan : FloorPlan num)
    (cabinetType : CabinetType) (now random : string) : Outcome :=
  if isPanning st then
    {| next := {| tool := tool st; isDragging := isDragging st;
                  dragStart := None; currentPoint := currentPoint st;
                  selectedId := selectedId st; showGrid := showGrid st;
                  gridSize := gridSize st; panOffset := panOffset st;
                  isPanning := false;
                  showMeasurementsState := showMeasurementsState st;
                  scaleDistance := scaleDistance st;
                  scaleUnit := scaleUnit st |};
       changed := None; toast := None |}
  else
    match isDragging st, dragStart st, currentPoint st with
    | true, Some start, Some current =>
        {| next := {| tool := tool st; isDragging := false;
                      dragStart := None; currentPoint := None;
                      selectedId := selectedId st; showGrid := showGrid st;
                      gridSize := gridSize st; panOffset := panOffset st;
                      isPanning := isPanning st;
                      showMeasurementsState := showMeasurementsState st;
                      scaleDistance := scaleDistance st;
                      scaleUnit := scaleUnit st |};
           changed := Some (place (tool st) cabinetType now random
                                  start current floorPlan);
           toast := None |}
    | _, _, _ => {| next := st; changed := None; toast := None |}
    end.

(** The plan with one more room, respectively one more cabinet, at the
    middle of the visible canvas of size [width] by [height].  The copy
    shares its collections with the plan passed in, so the push shows in
    both; [floorPlan] here is the plan as it was before the call. *)
Definition addRoomTemplate (st : EditorState) (floorPlan : FloorPlan num)
    (width height : num) (suffix : string) (kind : RoomKind) : FloorPlan num :=
  let centerX := width / lit 2 - x (panOffset st) in
  let centerY := height / lit 2 - y (panOffset st) in
  let newRoom := generateRoomTemplate suffix kind centerX centerY (lit 20) in
  {| id := id floorPlan; name := name floorPlan;
     walls := walls floorPlan;
     rooms := (rooms floorPlan ++ [newRoom])%list;
     doors := doors floorPlan; windows := windows floorPlan;
     cabinets := cabinets floorPlan; models3D := models3D floorPlan;
     photos := photos floorPlan; measurements := measurements floorPlan;
     scaleCalibration := scaleCalibration floorPlan;
     metadata := metadata floorPlan |}.

Definition addCabinet (st : EditorState) (floorPlan : FloorPlan num)
    (width height : num) (suffix : string) (type : CabinetType)
    : FloorPlan num :=
  let centerX := width / lit 2 - x (panOffset st) in
  let centerY := height / lit 2 - y (panOffset st) in
  let newCabinet :=
    createCabinet suffix type {| x := centerX; y := centerY |} (lit 0) in
  {| id := id floorPlan; name := name floorPlan;
     walls := walls floorPlan; rooms := rooms floorPlan;
     doors := doors floorPlan; windows := windows floorPlan;
     cabinets := (cabinets floorPlan ++ [newCabinet])%list;
     models3D := models3D floorPlan;
     photos := photos floorPlan; measurements := measurements floorPlan;
     scaleCalibration := scaleCalibration floorPlan;
     metadata := metadata floorPlan |}.

(** The label of a room is drawn at the mean of its vertices, when it has
    any. *)
Definition room_label_position (room : Room num) : option (Point num) :=
  let points := room_points room in
  if (0 <? length points)%nat then
    let n := lit (Z.of_nat (length points) # 1) in
    Some {| x := fold_left (fun sum p => sum + x p) points (lit 0) / n;
            y := fold_left (fun sum p => sum + y p) points (lit 0) / n |}
  else None.

End Editor.

(* ================================================================== *)
(** * Binary64 numbers *)
(* ================================================================== *)

Module F64.

Local Open Scope Z_scope.

(** The double nearest to an integer (ties to even). *)
Definition of_Z (z : Z) : float :=
  SF2Prim (SpecFloat.binary_normalize 53 1024 z 0 false).

(** The double nearest to a rational.  The quotient is taken with at
    least 64 significant bits and one more bit records whether anything
    was cut off, so the final rounding sees which side of a tie it is on. *)
Definition of_Q (q : Q) : float :=
  let n := Qnum q in
  let d := Zpos (Qden q) in
  let a := Z.abs n in
  let k := Z.max 0 (65 + Z.log2 d - Z.log2 a) in
  let (qz, r) := Z.div_eucl (a * 2 ^ k) d in
  let m := if r =? 0 then 2 * qz else 2 * qz + 1 in
  SF2Prim (SpecFloat.binary_normalize 53 1024
             (if n <? 0 then - m else m) (- (k + 1)) false).

(** [floor (x + 1/2)] for the exact value [(-1)^s * m * 2^e] with [e < 0]. *)
Definition round_half_up (s : bool) (m : positive) (e : Z) : Z :=
  let k := - e in
  let sm := if s then Zneg m else Zpos m in
  (2 * sm + 2 ^ k) / 2 ^ (k + 1).

(** [Math.round]: integers, infinities and [NaN] are returned as they
    are; a result that rounds to zero keeps the sign of the argument. *)
Definition round (f : float) : float :=
  match Prim2SF f with
  | S754_finite s m e =>
      if 0 <=? e then f
      else
        let n := round_half_up s m e in
        if n =? 0 then (if s then (- 0)%float else 0%float) else of_Z n
  | _ => f
  end.

(** The integer with the fewest significant decimal digits that reads
    back as the double [f], whose exact value is the integer [v] of [nd]
    digits; of two such integers the one nearer to [v], and on a tie the
    one whose last significant digit is even.  [k] counts the digits
    tried. *)
Fixpoint shortest (fuel k : nat) (f : float) (v : Z) (nd : nat) : Z :=
  match fuel with
  | O => v
  | S fuel' =>
      let p := 10 ^ Z.of_nat (nd - k) in
      let lo := v / p * p in
      let hi := lo + p in
      let reads_back (c : Z) := (of_Z c =? f)%float in
      if reads_back lo && reads_back hi then
        (if v - lo <? hi - v then lo
         else if hi - v <? v - lo then hi
         else if Z.even (lo / p) then lo else hi)
      else if reads_back lo then lo
      else if reads_back hi then hi
      else shortest fuel' (S k) f v nd
  end.

(** [Number.prototype.toFixed]: below [10^21] fixed notation, the integer
    [n] with [n / 10^digits] nearest to [|x|], the larger one on a tie;
    from [10^21] on the digits of [Number::toString], in exponent
    notation. *)
Definition toFixed (f : float) (digits : nat) : string :=
  match Prim2SF f with
  | S754_nan => "NaN"%string
  | S754_infinity s => if s then "-Infinity"%string else "Infinity"%string
  | S754_zero _ => Text.fixed false 0 digits
  | S754_finite s m e =>
      if (0 <=? e) && (10 ^ 21 <=? Zpos m * 2 ^ e) then
        let v := Zpos m * 2 ^ e in
        let nd := String.length (Text.of_Z v) in
        ((if s then "-" else EmptyString)
         ++ Text.exponential (Text.of_Z (shortest 17 1 (abs f) v nd)))%string
      else
        let p := 10 ^ Z.of_nat digits in
        let n :=
          if 0 <=? e then Zpos m * 2 ^ e * p
          else (2 * (Zpos m * p) + 2 ^ (- e)) / 2 ^ (- e + 1) in
        Text.fixed s n digits
  end.

Definition parseFloat (s : string) : float :=
  match Text.parse s with
  | Text.PNaN => nan
  | Text.PInfinity negative => if negative then neg_infinity else infinity
  | Text.PNumber negative q =>
      if negative then (- of_Q q)%float else of_Q q
  end.

Definition is_neg_zero (f : float) : bool :=
  match Prim2SF f with S754_zero true => true | _ => false end.

Definition is_pos_zero (f : float) : bool :=
  match Prim2SF f with S754_zero false => true | _ => false end.

Local Open Scope float_scope.

(** One step of [Math.min]: [lowest] against the next argument. *)
Definition min2 (lowest number : float) : float :=
  if is_nan lowest || is_nan number then nan
  else if is_neg_zero number && is_pos_zero lowest then number
  else if number <? lowest then number else lowest.

Definition max2 (highest number : float) : float :=
  if is_nan highest || is_nan number then nan
  else if is_pos_zero number && is_neg_zero highest then number
  else if highest <? number then number else highest.

Definition pi : float := of_Q 3.141592653589793.

(** [Math.atan2] is implementation-approximated in ECMA-262: engines
    compute it with the fdlibm routines [__ieee754_atan2] and [atan],
    which are followed here operation by operation, on the same
    constants. *)
Definition sign_bit (f : float) : bool :=
  match Prim2SF f with
  | S754_zero s | S754_infinity s | S754_finite s _ _ => s
  | S754_nan => false
  end.

Definition is_infinite (f : float) : bool := abs f =? infinity.

(** The high word of [|f|]: the biased exponent followed by the first 20
    bits of the fraction. *)
Definition high_word (f : float) : Z :=
  match Prim2SF f with
  | S754_zero _ => 0%Z
  | S754_infinity _ => 2146435072%Z
  | S754_nan => 2146959360%Z
  | S754_finite _ m e =>
      if (Zpos m <? 2 ^ 52)%Z then Z.shiftr (Zpos m) 32
      else (Z.shiftl (e + 1075) 20 + Z.shiftr (Zpos m - 2 ^ 52) 32)%Z
  end.

Definition atanhi (id : nat) : float :=
  match id with
  | 0%nat => of_Q 4.63647609000806093515e-01
  | 1%nat => of_Q 7.85398163397448278999e-01
  | 2%nat => of_Q 9.82793723247329054082e-01
  | _ => of_Q 1.57079632679489655800e+00
  end.

Definition atanlo (id : nat) : float :=
  match id with
  | 0%nat => of_Q 2.26987774529616870924e-17
  | 1%nat => of_Q 3.06161699786838301793e-17
  | 2%nat => of_Q 1.39033110312309984516e-17
  | _ => of_Q 6.12323399573676603587e-17
  end.

Definition aT (i : nat) : float :=
  match i with
  | 0%nat => of_Q 3.33333333333329318027e-01
  | 1%nat => - of_Q 1.99999999998764832476e-01
  | 2%nat => of_Q 1.42857142725034663711e-01
  | 3%nat => - of_Q 1.11111104054623557880e-01
  | 4%nat => of_Q 9.09088713343650656196e-02
  | 5%nat => - of_Q 7.69187620504482999495e-02
  | 6%nat => of_Q 6.66107313738753120669e-02
  | 7%nat => - of_Q 5.83357013379057348645e-02
  | 8%nat => of_Q 4.97687799461593236017e-02
  | 9%nat => - of_Q 3.65315727442169155270e-02
  | _ => of_Q 1.62858201153657823623e-02
  end.

(** [x*(s1+s2)] of [atan], for the reduced argument [x]. *)
Definition atan_tail (x : float) : float :=
  let z := x * x in
  let w := z * z in
  let s1 :=
    z * (aT 0 + w * (aT 2 + w * (aT 4 + w * (aT 6 + w * (aT 8 + w * aT 10))))) in
  let s2 := w * (aT 1 + w * (aT 3 + w * (aT 5 + w * (aT 7 + w * aT 9)))) in
  x * (s1 + s2).

Definition atan (x : float) : float :=
  let ax := abs x in
  if is_nan x then x + x
  else if of_Z (2 ^ 66) <=? ax then
    (if sign_bit x then - atanhi 3 - atanlo 3 else atanhi 3 + atanlo 3)
  else if ax <? of_Q 0.4375 then
    (if ax <? of_Q (1 # 536870912) then x else x - atan_tail x)
  else
    let reduced (id : nat) (t : float) :=
      let z := atanhi id - ((atan_tail t - atanlo id) - t) in
      if sign_bit x then - z else z in
    if ax <? of_Q 1.1875 then
      (if ax <? of_Q 0.6875 then reduced 0%nat ((2 * ax - 1) / (2 + ax))
       else reduced 1%nat ((ax - 1) / (ax + 1)))
    else
      (if ax <? of_Q 2.4375
       then reduced 2%nat ((ax - of_Q 1.5) / (1 + of_Q 1.5 * ax))
       else reduced 3%nat (- 1 / ax)).

Definition fd_pi : float := of_Q 3.1415926535897931160e+00.
Definition pi_lo : float := of_Q 1.2246467991473531772e-16.
Definition pi_o_2 : float := of_Q 1.5707963267948965580e+00.
Definition pi_o_4 : float := of_Q 7.8539816339744827900e-01.
Definition tiny : float := of_Q 1.0e-300.

Definition atan2 (y x : float) : float :=
  let sy := sign_bit y in
  let sx := sign_bit x in
  let by_quadrant (a b c d : float) :=
    match sx, sy with
    | false, false => a
    | false, true => b
    | true, false => c
    | true, true => d
    end in
  if is_nan x || is_nan y then x + y
  else if x =? 1 then atan y
  else if y =? 0 then by_quadrant y y (fd_pi + tiny) (- fd_pi - tiny)
  else if x =? 0 then (if sy then - pi_o_2 - tiny else pi_o_2 + tiny)
  else if is_infinite x then
    (if is_infinite y
     then by_quadrant (pi_o_4 + tiny) (- pi_o_4 - tiny)
                      (3 * pi_o_4 + tiny) (- 3 * pi_o_4 - tiny)
     else by_quadrant 0 (- 0) (fd_pi + tiny) (- fd_pi - tiny))
  else if is_infinite y then (if sy then - pi_o_2 - tiny else pi_o_2 + tiny)
  else
    let k := Z.shiftr (high_word y - high_word x) 20 in
    if (60 <? k)%Z then
      let z := pi_o_2 + of_Q 0.5 * pi_lo in
      if sy then - z else z
    else
      let z := if sx && (k <? - 60)%Z then 0 else atan (abs (y / x)) in
      by_quadrant z (- z) (fd_pi - (z - pi_lo)) ((z - pi_lo) - fd_pi).

End F64.

(** The arithmetic operators, [Math.sqrt], [Math.abs] and the comparisons
    are the IEEE operations of the primitive floats; [x ** 2] is the
    correctly rounded square. *)
#[export] Instance Float64 : JSNumber float := {|
  lit := F64.of_Q;
  Infinity := infinity;
  Math_PI := F64.pi;
  neg := PrimFloat.opp;
  add := PrimFloat.add;
  sub := PrimFloat.sub;
  mul := PrimFloat.mul;
  div := PrimFloat.div;
  pow2 := fun a => PrimFloat.mul a a;
  Math_sqrt := PrimFloat.sqrt;
  Math_abs := PrimFloat.abs;
  Math_atan2 := F64.atan2;
  Math_round := F64.round;
  min2 := F64.min2;
  max2 := F64.max2;
  ltb := PrimFloat.ltb;
  leb := PrimFloat.leb;
  eqb := PrimFloat.eqb;
  isNaN := PrimFloat.is_nan;
  toFixed := F64.toFixed;
  parseFloat := F64.parseFloat
|}.

(* ================================================================== *)
(** * Extended real numbers *)
(* ================================================================== *)

Inductive xreal : Type :=
| XNaN
| XInf (negative : bool)
| XFin (r : R).

Module XR.

Local Open Scope R_scope.

Definition Rltb (a b : R) : bool := if Rlt_dec a b then true else false.
Definition Rleb (a b : R) : bool := if Rle_dec a b then true else false.
Definition Reqb (a b : R) : bool := if Req_dec_T a b then true else false.

Definition neg (a : xreal) : xreal :=
  match a with
  | XNaN => XNaN
  | XInf s => XInf (negb s)
  | XFin r => XFin (- r)
  end.

Definition add (a b : xreal) : xreal :=
  match a, b with
  | XNaN, _ | _, XNaN => XNaN
  | XInf s, XInf t => if Bool.eqb s t then XInf s else XNaN
  | XInf s, XFin _ => XInf s
  | XFin _, XInf t => XInf t
  | XFin r, XFin q => XFin (r + q)
  end.

Definition sub (a b : xreal) : xreal := add a (neg b).

Definition mul (a b : xreal) : xreal :=
  match a, b with
  | XNaN, _ | _, XNaN => XNaN
  | XInf s, XInf t => XInf (xorb s t)
  | XInf s, XFin r | XFin r, XInf s =>
      if Reqb r 0 then XNaN else XInf (xorb s (Rltb r 0))
  | XFin r, XFin q => XFin (r * q)
  end.

(** Zero carries no sign here: a division of a non-zero number by zero
    takes the sign of the numerator. *)
Definition div (a b : xreal) : xreal :=
  match a, b with
  | XNaN, _ | _, XNaN => XNaN
  | XInf _, XInf _ => XNaN
  | XInf s, XFin r => XInf (xorb s (Rltb r 0))
  | XFin _, XInf _ => XFin 0
  | XFin r, XFin q =>
      if Reqb q 0 then (if Reqb r 0 then XNaN else XInf (Rltb r 0))
      else XFin (r / q)
  end.

Definition sqrt (a : xreal) : xreal :=
  match a with
  | XNaN => XNaN
  | XInf s => if s then XNaN else XInf false
  | XFin r => if Rltb r 0 then XNaN else XFin (R_sqrt.sqrt r)
  end.

Definition abs (a : xreal) : xreal :=
  match a with
  | XNaN => XNaN
  | XInf _ => XInf false
  | XFin r => XFin (Rabs r)
  end.

Definition ltb (a b : xreal) : bool :=
  match a, b with
  | XNaN, _ | _, XNaN => false
  | XInf s, XInf t => s && negb t
  | XInf s, XFin _ => s
  | XFin _, XInf t => negb t
  | XFin r, XFin q => Rltb r q
  end.

Definition leb (a b : xreal) : bool :=
  match a, b with
  | XNaN, _ | _, XNaN => false
  | XInf s, XInf t => s || negb t
  | XInf s, XFin _ => s
  | XFin _, XInf t => negb t
  | XFin r, XFin q => Rleb r q
  end.

Definition eqb (a b : xreal) : bool :=
  match a, b with
  | XInf s, XInf t => Bool.eqb s t
  | XFin r, XFin q => Reqb r q
  | _, _ => false
  end.

Definition isNaN (a : xreal) : bool :=
  match a with XNaN => true | _ => false end.

Definition min2 (lowest number : xreal) : xreal :=
  if isNaN lowest || isNaN number then XNaN
  else if ltb number lowest then number else lowest.

Definition max2 (highest number : xreal) : xreal :=
  if isNaN highest || isNaN number then XNaN
  else if ltb highest number then number else highest.

(** [Math.round]: the integer [floor (x + 1/2)]. *)
Definition round (a : xreal) : xreal :=
  match a with
  | XFin r => XFin (IZR (Zfloor (r + / 2)))
  | _ => a
  end.

(** The angle of the vector [(x, y)] in [(-PI, PI]]. *)
Definition angle (y x : R) : R :=
  if Rltb 0 x then atan (y / x)
  else if Rltb x 0 then
    (if Rltb y 0 then atan (y / x) - PI else atan (y / x) + PI)
  else if Rltb 0 y then PI / 2
  else if Rltb y 0 then - PI / 2
  else 0.

Definition atan2 (ny nx : xreal) : xreal :=
  match ny, nx with
  | XNaN, _ | _, XNaN => XNaN
  | XInf s, XInf t =>
      XFin ((if s then -1 else 1) * (if t then 3 * PI / 4 else PI / 4))
  | XInf s, XFin _ => XFin ((if s then -1 else 1) * (PI / 2))
  | XFin r, XInf t =>
      if t then (if Rltb r 0 then XFin (- PI) else XFin PI) else XFin 0
  | XFin r, XFin q => XFin (angle r q)
  end.

Definition toFixed (a : xreal) (digits : nat) : string :=
  match a with
  | XNaN => "NaN"%string
  | XInf s => if s then "-Infinity"%string else "Infinity"%string
  | XFin r =>
      Text.fixed (Rltb r 0)
                 (Zfloor (Rabs r * IZR (10 ^ Z.of_nat digits) + / 2)) digits
  end.

Definition parseFloat (s : string) : xreal :=
  match Text.parse s with
  | Text.PNaN => XNaN
  | Text.PInfinity negative => XInf negative
  | Text.PNumber negative q => if negative then XFin (- Q2R q) else XFin (Q2R q)
  end.

End XR.

(** Arithmetic is exact on reals; a special value arises and propagates
    as in IEEE arithmetic. *)
#[export] Instance XReal : JSNumber xreal := {|
  lit := fun q => XFin (Q2R q);
  Infinity := XInf false;
  Math_PI := XFin PI;
  neg := XR.neg;
  add := XR.add;
  sub := XR.sub;
  mul := XR.mul;
  div := XR.div;
  pow2 := fun a => XR.mul a a;
  Math_sqrt := XR.sqrt;
  Math_abs := XR.abs;
  Math_atan2 := XR.atan2;
  Math_round := XR.round;
  min2 := XR.min2;
  max2 := XR.max2;
  ltb := XR.ltb;
  leb := XR.leb;
  eqb := XR.eqb;
  isNaN := XR.isNaN;
  toFixed := XR.toFixed;
  parseFloat := XR.parseFloat
|}.

(* ================================================================== *)
(** * The statements of the specification, in its own words *)
(* ================================================================== *)

Section Specification.

Context {num : Type} `{JSNumber num}.
Local Open Scope string_scope.
Local Open Scope js_scope.

(** ** Hit-testing over the heterogeneous entity collection *)

Inductive Entity : Type :=
| EPhoto (photo : PhotoReference num)
| EModel (model : Model3D num)
| ECabinet (cabinet : Cabinet num)
| EWall (w : Wall num)
| ERoom (room : Room num)
| EDoor (door : Door num)
| EWindow (window : Window num).

Definition entity_id (e : Entity) : string :=
  match e with
  | EPhoto photo => photo_id photo
  | EModel model => model_id model
  | ECabinet cabinet => cabinet_id cabinet
  | EWall w => wall_id w
  | ERoom room => room_id room
  | EDoor door => door_id door
  | EWindow window => window_id window
  end.

(** Photos, then model markers, cabinets, walls, rooms, doors, windows. *)
Definition entities_by_priority (floorPlan : FloorPlan num) : list Entity :=
  (map EPhoto (photos floorPlan)
   ++ map EModel (models3D floorPlan)
   ++ map ECabinet (cabinets floorPlan)
   ++ map EWall (walls floorPlan)
   ++ map ERoom (rooms floorPlan)
   ++ map EDoor (doors floorPlan)
   ++ map EWindow (windows floorPlan))%list.

(** Containment in the axis-aligned box with top-left corner [corner]. *)
Definition in_aabb (p corner : Point num) (width height : num) : bool :=
  (x corner <=? x p) && (x p <=? x corner + width)
  && (y corner <=? y p) && (y p <=? y corner + height).

(** Strictly inside the axis-aligned box centred on [center] with the
    given half extents. *)
Definition in_centered_box (p center : Point num) (halfW halfD : num) : bool :=
  (Math_abs (x p - x center) <? halfW) && (Math_abs (y p - y center) <? halfD).

(** The per-type proximity predicate. *)
Definition proximity (p : Point num) (e : Entity) : bool :=
  match e with
  | EPhoto photo =>
      in_aabb p (photo_position photo) (photo_width photo) (photo_height photo)
  | EModel model =>
      let side := lit 40 * model_scale model in
      in_centered_box p (model_position model) (side / lit 2) (side / lit 2)
  | ECabinet cabinet =>
      in_centered_box p (cabinet_position cabinet)
                      (cabinet_width cabinet / lit 2)
                      (cabinet_depth cabinet / lit 2)
  | EWall w => pointToLineDistance p (wall_start w) (wall_end w) <? lit 10
  | ERoom room => isPointInPolygon p (room_points room)
  | EDoor door => distance p (door_position door) <? lit 20
  | EWindow window => distance p (window_position window) <? lit 20
  end.

(** Selection: the first entity in priority order that matches. *)
Definition hit_test (floorPlan : FloorPlan num) (p : Point num)
    : option string :=
  option_map entity_id (find (proximity p) (entities_by_priority floorPlan)).

(** Deletion: every collection loses exactly its matching entities. *)
Definition remove_hits (floorPlan : FloorPlan num) (p : Point num)
    : FloorPlan num :=
  let miss {A} (inj : A -> Entity) (a : A) := negb (proximity p (inj a)) in
  {| id := id floorPlan;
     name := name floorPlan;
     walls := filter (miss EWall) (walls floorPlan);
     rooms := filter (miss ERoom) (rooms floorPlan);
     doors := filter (miss EDoor) (doors floorPlan);
     windows := filter (miss EWindow) (windows floorPlan);
     cabinets := filter (miss ECabinet) (cabinets floorPlan);
     models3D := filter (miss EModel) (models3D floorPlan);
     photos := filter (miss EPhoto) (photos floorPlan);
     measurements := measurements floorPlan;
     scaleCalibration := scaleCalibration floorPlan;
     metadata := metadata floorPlan |}.

(** ** Automatic measurements *)

(** The edges of the closed polygon: consecutive vertices, and last the
    closing edge from the last vertex back to the first. *)
Definition polygon_edges (points : list (Point num))
    : list (Point num * Point num) :=
  combine points (tl points ++ firstn 1 points)%list.

Definition labelled (floorPlan : FloorPlan num) (mid : string)
    (a b : Point num) : Measurement num :=
  {| measurement_id := mid;
     measurement_start := a;
     measurement_end := b;
     measurement_label :=
       Some (formatMeasurement (distance a b) (plan_scale floorPlan)
                               (plan_unit floorPlan));
     measurement_visible := true |}.

Definition wall_dimensions (floorPlan : FloorPlan num)
    : list (Measurement num) :=
  map (fun w => labelled floorPlan ("measure-wall-" ++ wall_id w)
                         (wall_start w) (wall_end w))
      (walls floorPlan).

Definition room_dimensions (floorPlan : FloorPlan num) (room : Room num)
    : list (Measurement num) :=
  map (fun ie : nat * (Point num * Point num) =>
         labelled floorPlan
           ("measure-room-" ++ room_id room ++ "-" ++ Text.of_nat (fst ie))
           (fst (snd ie)) (snd (snd ie)))
      (combine (seq 0 (length (room_points room)))
               (polygon_edges (room_points room))).

Definition auto_measurements (floorPlan : FloorPlan num)
    : list (Measurement num) :=
  (wall_dimensions floorPlan
   ++ flat_map (room_dimensions floorPlan) (rooms floorPlan))%list.

(** ** Projection of walls *)

(** The points the bounding box is taken over: wall endpoints and room
    vertices. *)
Definition plan_points (floorPlan : FloorPlan num) : list (Point num) :=
  (flat_map (fun w => [wall_start w; wall_end w]) (walls floorPlan)
   ++ flat_map (@room_points num) (rooms floorPlan))%list.

(** [K = 0.1 * (metadataScale / 20)] *)
Definition projection_factor (metadataScale : num) : num :=
  lit 0.1 * (metadataScale / lit 20).

(** The wall's height, 2.7 when it has none. *)
Definition wallHeight (w : Wall num) : num := or_else (wall_height w) (lit 2.7).

(** [m] is the box of wall [w] under the factor [k] and the centre
    [(cX, cY)]: sized [(length * k, wallHeight, thickness * k)], centred
    at the projected midpoint, raised by half its height and turned about
    the vertical axis by the angle of the wall vector. *)
Record is_wall_box (k cX cY : num) (w : Wall num) (m : Mesh num) : Prop := {
  box_size :
    geometry m
    = BoxGeometry (distance (wall_start w) (wall_end w) * k)
                  (wallHeight w) (wall_thickness w * k);
  box_position :
    position m
    = (((x (wall_start w) + x (wall_end w)) / lit 2 - cX) * k,
       wallHeight w / lit 2,
       ((y (wall_start w) + y (wall_end w)) / lit 2 - cY) * k);
  box_rotation :
    rotation m
    = Some (lit 0,
            Math_atan2 (y (wall_end w) - y (wall_start w))
                       (x (wall_end w) - x (wall_start w)),
            lit 0);
  box_type : mesh_type m = mesh_wall;
  box_id : mesh_id m = wall_id w
}.

(** ** Calibration *)

(** The declared length converted to meters by the fixed unit factors. *)
Definition declared_meters (v : num) (u : Unit_) : num :=
  match u with
  | feet => v / lit 3.28084
  | inches => v / lit 39.3701
  | meters => v
  end.

(** ** Calls and their completion *)

Inductive ErrorKind : Type := InvalidArgument | InvalidInput.

Inductive Completion (A : Type) : Type :=
| Returns (value : A)
| Throws (error : ErrorKind).

(** A call of [snapToGrid]: its body is a single [return] of an object
    literal over arithmetic, and arithmetic on numbers does not throw. *)
Definition call_snapToGrid (point : Point num) (gridSize : num)
    : Completion (Point num) :=
  Returns (snapToGrid point gridSize).

End Specification.

Arguments Throws {A}.

(** ** Plans over the reals *)

(** A number is finite when it is a real: neither [NaN] nor infinite. *)
Definition finite (a : xreal) : Prop :=
  match a with
  | XFin _ => True
  | _ => False
  end.

Definition finite_point (p : Point xreal) : Prop :=
  finite (x p) /\ finite (y p).

Definition real_of (a : xreal) : R :=
  match a with
  | XFin r => r
  | _ => 0%R
  end.

Definition least (m : R) (l : list R) : Prop :=
  In m l /\ forall a, In a l -> (m <= a)%R.

Definition greatest (m : R) (l : list R) : Prop :=
  In m l /\ forall a, In a l -> (a <= m)%R.

(** The running minimum after the reals [seen]: [Infinity] before any
    number was seen, the least of them afterwards. *)
Definition running_min (m : xreal) (seen : list R) : Prop :=
  match seen with
  | [] => m = XInf false
  | _ :: _ => exists r, m = XFin r /\ least r seen
  end.

Definition running_max (m : xreal) (seen : list R) : Prop :=
  match seen with
  | [] => m = XInf true
  | _ :: _ => exists r, m = XFin r /\ greatest r seen
  end.

Definition xs_of (points : list (Point xreal)) : list R :=
  map (fun p => real_of (x p)) points.

Definition ys_of (points : list (Point xreal)) : list R :=
  map (fun p => real_of (y p)) points.

(** The accumulated bounds after the points [seen]. *)
Definition running_bounds (b : Bounds xreal) (seen : list (Point xreal))
    : Prop :=
  running_min (minX b) (xs_of seen) /\ running_max (maxX b) (xs_of seen)
  /\ running_min (minY b) (ys_of seen) /\ running_max (maxY b) (ys_of seen).


(** The point with the real coordinates [a] and [b]. *)
Definition real_point (a b : R) : Point xreal := {| x := XFin a; y := XFin b |}.

(** The point at parameter [t] of the segment from [(ax, ay)] to
    [(bx, by)]. *)
Definition on_segment (ax ay bx by_ t : R) : Point xreal :=
  real_point (ax + t * (bx - ax)) (ay + t * (by_ - ay)).

(** The state of the search loop after the candidates [seen]. *)
Definition nearest_so_far (p : Point xreal) (th : R)
    (seen : list (Point xreal)) (st : option (Point xreal) * xreal) : Prop :=
  let d q := real_of (distance p q) in
  exists m : R,
    snd st = XFin m
    /\ match fst st with
       | None => m = th /\ forall q, In q seen -> (th <= d q)%R
       | Some q =>
           exists before after,
             seen = before ++ q :: after
             /\ m = d q /\ (d q < th)%R
             /\ (forall q', In q' before -> (d q < d q')%R)
             /\ (forall q', In q' after -> (d q <= d q')%R)
       end.

(** The horizontal ray from [(px, py)] towards smaller abscissas meets
    the edge between [(xi, yi)] and [(xj, yj)]: the ordinate lies between
    those of the ends, the lower one included, and the point is to the
    left of the edge at that ordinate. *)
Definition edge_crosses (px py xi yi xj yj : R) : bool :=
  xorb (XR.Rltb py yi) (XR.Rltb py yj)
  && XR.Rltb px ((xj - xi) * (py - yi) / (yj - yi) + xi).

(** Width and height of a room template, in meters. *)
Definition template_size (kind : RoomKind) : R * R :=
  let '(width, height, _, _) := templates (num := xreal) kind in
  (real_of width, real_of height).






(** ** Counting and moving plans *)

Section Measures.

Context {num : Type} `{JSNumber num}.

(** Everything placed on the plan: entities and hand-drawn measurements. *)
Definition placed_count (floorPlan : FloorPlan num) : nat :=
  length (entities_by_priority floorPlan) + length (measurements floorPlan).

Definition places_entity (t : ToolType) : bool :=
  match t with
  | tool_wall | tool_room | tool_door | tool_window
  | tool_cabinet | tool_measure => true
  | _ => false
  end.

(** The state a drag or a pan can be in: a recorded start point belongs to
    a drag or a pan in progress, and a drag in progress has a current
    point. *)
Definition drag_consistent (st : EditorState (num := num)) : Prop :=
  (dragStart st <> None -> isDragging st = true \/ isPanning st = true)
  /\ (isDragging st = true -> currentPoint st <> None).

(** The numbers the tests at [point] compare are numbers: no distance,
    offset or half extent is [NaN]. *)
Record tests_are_numbers (floorPlan : FloorPlan num) (point : Point num)
    : Prop := {
  model_numbers :
    Forall (fun m =>
              isNaN (Math_abs (sub (x point) (x (model_position m)))) = false
              /\ isNaN (Math_abs (sub (y point) (y (model_position m)))) = false
              /\ isNaN (div (mul (lit 40) (model_scale m)) (lit 2)) = false)
           (models3D floorPlan);
  cabinet_numbers :
    Forall (fun c =>
              isNaN (Math_abs (sub (x point) (x (cabinet_position c)))) = false
              /\ isNaN (Math_abs (sub (y point) (y (cabinet_position c)))) = false
              /\ isNaN (div (cabinet_width c) (lit 2)) = false
              /\ isNaN (div (cabinet_depth c) (lit 2)) = false)
           (cabinets floorPlan);
  wall_numbers :
    Forall (fun w =>
              isNaN (pointToLineDistance point (wall_start w) (wall_end w))
              = false)
           (walls floorPlan);
  door_numbers :
    Forall (fun d => isNaN (distance point (door_position d)) = false)
           (doors floorPlan);
  window_numbers :
    Forall (fun w => isNaN (distance point (window_position w)) = false)
           (windows floorPlan)
}.

(** Among numbers, [a >= b] is the negation of [a < b]. *)
Definition ordered_numbers : Prop :=
  forall a b : num,
    isNaN a = false -> isNaN b = false -> leb b a = negb (ltb a b).

(** The type tag and id of every descriptor the converter emits for one
    entity. *)
Definition room_tags (room : Room num) : list (MeshType * string) :=
  if (length (room_points room) <? 3)%nat then []
  else [ (mesh_floor, room_id room);
         (mesh_ceiling, (room_id room ++ "-ceiling")%string) ].

Definition cabinet_tags (cabinet : Cabinet num) : list (MeshType * string) :=
  match cabinet_type cabinet with
  | island => [ (mesh_cabinet, cabinet_id cabinet) ]
  | _ => [ (mesh_cabinet, cabinet_id cabinet);
           (mesh_cabinet, (cabinet_id cabinet ++ "-handle")%string) ]
  end.

End Measures.

(* ================================================================== *)
(** * Sample plans *)
(* ================================================================== *)

Section Samples.

Context {num : Type} `{JSNumber num}.
Local Open Scope string_scope.

Definition pt (a b : Q) : Point num := {| x := lit a; y := lit b |}.

(** The default plan with the given entities placed on it. *)
Definition plan_with (ws : list (Wall num)) (rs : list (Room num))
    (ds : list (Door num)) (cs : list (Cabinet num)) : FloorPlan num :=
  let d := createDefaultFloorPlan "0" "1970-01-01T00:00:00.000Z" in
  {| id := id d; name := name d;
     walls := ws; rooms := rs; doors := ds; windows := windows d;
     cabinets := cs; models3D := models3D d; photos := photos d;
     measurements := measurements d;
     scaleCalibration := scaleCalibration d;
     metadata := metadata d |}.

(** The wall the editor creates for a drag from [a] to [b]. *)
Definition drawn_wall (n : string) (a b : Point num) : Wall num :=
  {| wall_id := "wall-" ++ n; wall_start := a; wall_end := b;
     wall_thickness := lit 8; wall_height := lit 2.7;
     wall_texture := None |}.

Definition polygon_room (n : string) (points : list (Point num)) : Room num :=
  {| room_id := "room-" ++ n; room_name := "Room"; room_points := points;
     room_color := "#e3f2fd"; room_floorTexture := None;
     room_wallTexture := None |}.

Definition placed_door (n : string) (p : Point num) : Door num :=
  {| door_id := "door-" ++ n; door_position := p; door_angle := lit 0;
     door_width := lit 40; door_wallId := None |}.

(** A 100 x 100 room with a wall along its top edge. *)
Definition square_room : Room num :=
  polygon_room "1" [pt 0 0; pt 100 0; pt 100 100; pt 0 100].

Definition top_wall : Wall num := drawn_wall "1" (pt 0 0) (pt 100 0).

Definition room_and_wall : FloorPlan num :=
  plan_with [top_wall] [square_room] [] [].

Definition one_wall : FloorPlan num := plan_with [top_wall] [] [] [].

Definition door_only : FloorPlan num :=
  plan_with [] [] [placed_door "1" (pt 10 20)] [].

(** A wall whose ends are finite numbers so far apart that the squares of
    its extent overflow. *)
Definition overflowing_wall : FloorPlan num :=
  plan_with [drawn_wall "9" (pt (-1e200) 0) (pt 1e200 0)] [] [] [].

(** A base cabinet at the middle of a 200 px wall, turned by [angle]. *)
Definition turned_cabinet (angle : num) : FloorPlan num :=
  plan_with [drawn_wall "1" (pt 0 0) (pt 200 0)] [] []
            [createCabinet "1" base (pt 100 0) angle].

Definition island_cabinet : FloorPlan num :=
  plan_with [drawn_wall "1" (pt 0 0) (pt 200 0)] [] []
            [createCabinet "2" island (pt 0 0) (lit 0)].

(** The one-wall plan with one measurement drawn by hand. *)
Definition hand_measured : FloorPlan num :=
  let d := one_wall in
  {| id := id d; name := name d;
     walls := walls d; rooms := rooms d; doors := doors d;
     windows := windows d; cabinets := cabinets d;
     models3D := models3D d; photos := photos d;
     measurements :=
       [ {| measurement_id := "measurement-1";
            measurement_start := pt 0 0;
            measurement_end := pt 0 60;
            measurement_label := Some "3.00 m";
            measurement_visible := true |} ];
     scaleCalibration := scaleCalibration d;
     metadata := metadata d |}.

Definition degenerate_rooms : FloorPlan num :=
  plan_with [] [polygon_room "2" [pt 0 0; pt 30 40]; polygon_room "3" [pt 5 5]]
            [] [].

(** The editor after a measurement line was dragged from [a] to [b] and
    [text] was typed into the distance field with unit [u]. *)
Definition calibrating (a b : Point num) (text : string) (u : Unit_)
    : EditorState :=
  {| tool := tool_measure; isDragging := false;
     dragStart := Some a; currentPoint := Some b;
     selectedId := None; showGrid := true; gridSize := lit 20;
     panOffset := pt 0 0; isPanning := false;
     showMeasurementsState := true;
     scaleDistance := text; scaleUnit := u |}.

(** The editor in the middle of a drag from [a] to [b] with tool [t]. *)
Definition dragging (t : ToolType) (a b : Point num) : EditorState :=
  {| tool := t; isDragging := true;
     dragStart := Some a; currentPoint := Some b;
     selectedId := None; showGrid := true; gridSize := lit 20;
     panOffset := pt 0 0; isPanning := false;
     showMeasurementsState := true;
     scaleDistance := "10"; scaleUnit := feet |}.

End Samples.

(* ================================================================== *)
(** * Properties *)
(* ================================================================== *)

Unset Implicit Arguments.

(** ** Lists *)

Lemma find_app_first {A : Type} (f : A -> bool) (l1 l2 : list A) :
  find f (l1 ++ l2) =
  match find f l1 with
  | Some a => Some a
  | None => find f l2
  end.
Proof.
  induction l1 as [|a l1 IH]; simpl; [reflexivity|].
  destruct (f a); [reflexivity | exact IH].
Qed.

Lemma find_map_inj {A B : Type} (f : B -> bool) (g : A -> B) (l : list A) :
  find f (map g l) = option_map g (find (fun a => f (g a)) l).
Proof.
  induction l as [|a l IH]; simpl; [reflexivity|].
  destruct (f (g a)); [reflexivity | exact IH].
Qed.

Lemma find_none_iff {A : Type} (f : A -> bool) (l : list A) :
  find f l = None <-> forall a, In a l -> f a = false.
Proof.
  split.
  - apply find_none.
  - induction l as [|a l IH]; simpl; intros Hall; [reflexivity|].
    rewrite (Hall a (or_introl eq_refl)).
    apply IH. intros b Hb. apply Hall. now right.
Qed.

Lemma find_first_hit {A : Type} (f : A -> bool) (l : list A) (a : A) :
  In a l -> f a = true -> exists b, find f l = Some b /\ In b l /\ f b = true.
Proof.
  intros Hin Hf.
  destruct (find f l) as [b|] eqn:E.
  - exists b. destruct (find_some _ _ E) as [Hb Hfb]. auto.
  - rewrite (find_none _ _ E a Hin) in Hf. discriminate.
Qed.

(** ** Selection *)

Section Selection.

Context {num : Type} `{JSNumber num}.

Lemma select_at_is_hit_test (floorPlan : FloorPlan num) (p : Point num) :
  select_at floorPlan p = hit_test floorPlan p.
Proof.
  unfold hit_test, entities_by_priority, select_at.
  repeat rewrite find_app_first.
  repeat rewrite find_map_inj.
  change (fun a => proximity p (EPhoto a)) with (photo_hit p).
  change (fun a => proximity p (EModel a)) with (model_hit p).
  change (fun a => proximity p (ECabinet a)) with (cabinet_hit p).
  change (fun a => proximity p (EWall a)) with (wall_hit p).
  change (fun a => proximity p (ERoom a)) with (room_hit p).
  change (fun a => proximity p (EDoor a)) with (door_hit p).
  change (fun a => proximity p (EWindow a)) with (window_hit p).
  destruct (find (photo_hit p) (photos floorPlan)); [reflexivity|].
  destruct (find (model_hit p) (models3D floorPlan)); [reflexivity|].
  destruct (find (cabinet_hit p) (cabinets floorPlan)); [reflexivity|].
  destruct (find (wall_hit p) (walls floorPlan)); [reflexivity|].
  destruct (find (room_hit p) (rooms floorPlan)); [reflexivity|].
  destruct (find (door_hit p) (doors floorPlan)); [reflexivity|].
  destruct (find (window_hit p) (windows floorPlan)); reflexivity.
Qed.

Lemma wall_occludes_room (floorPlan : FloorPlan num) (p : Point num)
    (w : Wall num) :
  (forall photo, In photo (photos floorPlan) -> photo_hit p photo = false) ->
  (forall model, In model (models3D floorPlan) -> model_hit p model = false) ->
  (forall cabinet, In cabinet (cabinets floorPlan) ->
                   cabinet_hit p cabinet = false) ->
  In w (walls floorPlan) -> wall_hit p w = true ->
  exists w', In w' (walls floorPlan) /\ wall_hit p w' = true
             /\ find (wall_hit p) (walls floorPlan) = Some w'
             /\ select_at floorPlan p = Some (wall_id w').
Proof.
  intros Hp Hm Hc Hw Hhit.
  destruct (find_first_hit (wall_hit p) (walls floorPlan) w Hw Hhit)
    as (w' & Hfind & Hin & Hhit').
  exists w'. repeat split; try assumption.
  unfold select_at.
  rewrite (proj2 (find_none_iff _ _) Hp).
  rewrite (proj2 (find_none_iff _ _) Hm).
  rewrite (proj2 (find_none_iff _ _) Hc).
  now rewrite Hfind.
Qed.

End Selection.

(** C3.  Selection tests photos, model markers, cabinets, walls, rooms,
    doors and windows in this order and yields the id of the first entity
    whose proximity predicate holds at the query point ([hit_test]), the
    predicates being box containment for photos, the square of side
    [40 * scale] for model markers, the unrotated half-width/half-depth
    box for cabinets, segment distance below 10 for walls, point-in-polygon
    for rooms and distance below 20 for doors and windows.  In particular,
    when no photo, marker or cabinet matches, a point within 10 px of a
    wall selects the first such wall even when it lies inside a room. *)
Theorem selection_priority :
  forall (num : Type) (N : JSNumber num)
         (floorPlan : FloorPlan num) (p : Point num),
    select_at floorPlan p = hit_test floorPlan p
    /\ (forall (w : Wall num) (room : Room num),
          (forall photo, In photo (photos floorPlan) ->
                         proximity p (EPhoto photo) = false) ->
          (forall model, In model (models3D floorPlan) ->
                         proximity p (EModel model) = false) ->
          (forall cabinet, In cabinet (cabinets floorPlan) ->
                           proximity p (ECabinet cabinet) = false) ->
          In room (rooms floorPlan) -> proximity p (ERoom room) = true ->
          In w (walls floorPlan) -> proximity p (EWall w) = true ->
          exists w', In w' (walls floorPlan)
                     /\ proximity p (EWall w') = true
                     /\ find (fun v => proximity p (EWall v)) (walls floorPlan)
                        = Some w'
                     /\ select_at floorPlan p = Some (wall_id w')).
Proof.
  intros num N floorPlan p. split.
  - apply select_at_is_hit_test.
  - intros w room Hp Hm Hc _ _ Hw Hhit.
    exact (wall_occludes_room floorPlan p w Hp Hm Hc Hw Hhit).
Qed.

Lemma selection_priority_witness :
  In square_room (rooms (room_and_wall (num := float)))
  /\ proximity (pt 50 5) (ERoom (square_room (num := float))) = true
  /\ proximity (pt 50 5) (EWall (top_wall (num := float))) = true
  /\ select_at (room_and_wall (num := float)) (pt 50 5) = Some "wall-1"%string.
Proof.
  split; [left; reflexivity|].
  split; [vm_compute; reflexivity|].
  split; [vm_compute; reflexivity|].
  destruct (proj2 (selection_priority float Float64 room_and_wall (pt 50 5))
              top_wall square_room) as (w' & _ & _ & Hfind & Hsel).
  - intros photo [].
  - intros model [].
  - intros cabinet [].
  - left; reflexivity.
  - vm_compute; reflexivity.
  - left; reflexivity.
  - vm_compute; reflexivity.
  - rewrite Hsel.
    assert (E : find (fun v => proximity (pt 50 5) (EWall v))
                     (walls (room_and_wall (num := float))) = Some top_wall)
      by (vm_compute; reflexivity).
    rewrite E in Hfind. injection Hfind as <-. reflexivity.
Defined.

(** ** Automatic measurements *)

Lemma nth_error_rotate {A : Type} (l : list A) (i : nat) :
  i < length l ->
  nth_error l ((i + 1) mod length l) = nth_error (tl l ++ firstn 1 l) i.
Proof.
  destruct l as [|a l]; simpl length; [lia|].
  intros Hi. cbn [tl firstn].
  destruct (Nat.eq_dec i (length l)) as [->|Hne].
  - replace (length l + 1) with (S (length l)) by lia.
    rewrite Nat.Div0.mod_same.
    rewrite nth_error_app2 by lia. now rewrite Nat.sub_diag.
  - rewrite Nat.mod_small by lia.
    replace (i + 1) with (S i) by lia. cbn [nth_error].
    now rewrite nth_error_app1 by lia.
Qed.

Lemma polygon_edges_length {num : Type} (points : list (Point num)) :
  length (polygon_edges points) = length points.
Proof.
  unfold polygon_edges. rewrite length_combine, length_app.
  destruct points as [|a l]; cbn [length tl firstn]; lia.
Qed.

Lemma flat_map_ext_in {A B : Type} (f g : A -> list B) (l : list A) :
  (forall a, In a l -> f a = g a) -> flat_map f l = flat_map g l.
Proof.
  induction l as [|a l IH]; simpl; intros Hfg; [reflexivity|].
  rewrite (Hfg a (or_introl eq_refl)). f_equal.
  apply IH. intros b Hb. apply Hfg. now right.
Qed.

(** A loop over indices that reads two arrays of the same length side by
    side visits the zipped pairs. *)
Lemma indexed_pairs {A B C : Type} (f : nat -> A -> B -> C)
    (l1 : list A) (l2 : list B) (s : nat) :
  length l2 = length l1 ->
  flat_map (fun i => match nth_error l1 (i - s), nth_error l2 (i - s) with
                     | Some a, Some b => [f i a b]
                     | _, _ => []
                     end)
           (seq s (length l1))
  = map (fun ie : nat * (A * B) => f (fst ie) (fst (snd ie)) (snd (snd ie)))
        (combine (seq s (length l1)) (combine l1 l2)).
Proof.
  revert l2 s. induction l1 as [|a l1 IH]; intros l2 s Hlen.
  - reflexivity.
  - destruct l2 as [|b l2]; [discriminate|].
    injection Hlen as Hlen. cbn [length seq flat_map combine map].
    rewrite Nat.sub_diag. cbn [nth_error fst snd app]. f_equal.
    rewrite <- (IH l2 (S s) Hlen).
    apply flat_map_ext_in. intros i Hi. apply in_seq in Hi.
    replace (i - s) with (S (i - S s)) by lia. reflexivity.
Qed.

Section AutoMeasurements.

Context {num : Type} `{JSNumber num}.

Lemma wall_measurements_spec (floorPlan : FloorPlan num) :
  map (wall_measurement (plan_scale floorPlan) (plan_unit floorPlan))
      (walls floorPlan)
  = wall_dimensions floorPlan.
Proof. reflexivity. Qed.

Lemma room_measurements_spec (floorPlan : FloorPlan num) (room : Room num) :
  room_measurements (plan_scale floorPlan) (plan_unit floorPlan) room
  = room_dimensions floorPlan room.
Proof.
  unfold room_measurements, room_dimensions, polygon_edges.
  set (pts := room_points room).
  rewrite <- (indexed_pairs
                (fun i a b =>
                   labelled floorPlan
                     ("measure-room-" ++ room_id room ++ "-" ++ Text.of_nat i)
                     a b)
                pts (tl pts ++ firstn 1 pts) 0).
  - apply flat_map_ext_in. intros i Hi. apply in_seq in Hi.
    unfold room_edge. fold pts.
    rewrite nth_error_rotate by lia. rewrite Nat.sub_0_r. reflexivity.
  - rewrite length_app. destruct pts as [|a l]; cbn [length tl firstn]; lia.
Qed.

Lemma calculateAutoMeasurements_spec (floorPlan : FloorPlan num) :
  calculateAutoMeasurements floorPlan = auto_measurements floorPlan.
Proof.
  unfold calculateAutoMeasurements, auto_measurements.
  rewrite wall_measurements_spec. f_equal.
  apply flat_map_ext_in. intros room _. apply room_measurements_spec.
Qed.

Lemma room_contribution (floorPlan : FloorPlan num) (room : Room num) :
  In room (rooms floorPlan) ->
  exists before after,
    calculateAutoMeasurements floorPlan
    = (before
       ++ room_measurements (plan_scale floorPlan) (plan_unit floorPlan) room
       ++ after)%list.
Proof.
  intros Hin. destruct (in_split _ _ Hin) as (l1 & l2 & E).
  unfold calculateAutoMeasurements. rewrite E.
  rewrite flat_map_app. cbn [flat_map].
  eexists (_ ++ flat_map _ l1)%list, (flat_map _ l2).
  apply app_assoc.
Qed.

End AutoMeasurements.

Lemma measurements_to_draw_cases {num : Type} `{JSNumber num}
    (floorPlan : FloorPlan num) :
  measurements_to_draw floorPlan =
  match measurements floorPlan with
  | [] => calculateAutoMeasurements floorPlan
  | _ :: _ => measurements floorPlan
  end.
Proof.
  unfold measurements_to_draw.
  destruct (measurements floorPlan); reflexivity.
Qed.

(** C7.  When the plan has no explicit measurements, the measurements
    drawn are the generated ones: one per wall from its start to its end
    with an id made from the wall id, then for every room one per polygon
    edge, the closing edge included, with an id made from the room id and
    the edge index; each carries the label [formatMeasurement] gives the
    edge's pixel length under the plan's scale and unit.  A polygon has as
    many edges as vertices.  When explicit measurements exist they are
    drawn and the generator is not consulted.  On binary64 numbers, a wall
    from (0,0) to (100,0) in a plan of scale 20 and unit meters is
    labelled "5.00 m". *)
Theorem auto_measurements_fallback :
  (forall (num : Type) (N : JSNumber num) (floorPlan : FloorPlan num),
      (measurements floorPlan = [] ->
       measurements_to_draw floorPlan = auto_measurements floorPlan)
      /\ (measurements floorPlan <> [] ->
          measurements_to_draw floorPlan = measurements floorPlan)
      /\ (forall room : Room num,
            length (polygon_edges (room_points room))
            = length (room_points room)))
  /\ (forall (floorPlan : FloorPlan float) (md : Metadata float)
             (w : Wall float),
        metadata floorPlan = Some md ->
        scale md = lit 20 -> unit md = meters ->
        measurements floorPlan = [] ->
        In w (walls floorPlan) ->
        wall_start w = pt 0 0 -> wall_end w = pt 100 0 ->
        exists m, In m (measurements_to_draw floorPlan)
                  /\ measurement_id m = ("measure-wall-" ++ wall_id w)%string
                  /\ measurement_start m = pt 0 0
                  /\ measurement_end m = pt 100 0
                  /\ measurement_label m = Some "5.00 m"%string).
Proof.
  split.
  - intros num N floorPlan. rewrite measurements_to_draw_cases. repeat split.
    + intros ->. apply calculateAutoMeasurements_spec.
    + intros Hne. destruct (measurements floorPlan); congruence.
    + intros room. apply polygon_edges_length.
  - intros floorPlan md w Hmd Hscale Hunit Hnone Hin Hstart Hend.
    exists (wall_measurement (plan_scale floorPlan) (plan_unit floorPlan) w).
    rewrite measurements_to_draw_cases, Hnone.
    split.
    + unfold calculateAutoMeasurements. apply in_or_app. left.
      now apply in_map.
    + unfold wall_measurement, plan_scale, plan_unit.
      rewrite Hmd, Hscale, Hunit, Hstart, Hend.
      cbn [measurement_id measurement_start measurement_end measurement_label].
      split; [reflexivity|]. split; [reflexivity|]. split; [reflexivity|].
      vm_compute. reflexivity.
Qed.

Lemma auto_measurements_fallback_witness :
  (measurements (one_wall (num := float)) = []
   /\ measurements_to_draw (one_wall (num := float)) = auto_measurements one_wall)
  /\ (measurements (hand_measured (num := float)) <> []
      /\ measurements_to_draw (hand_measured (num := float))
         = measurements hand_measured)
  /\ exists m, In m (measurements_to_draw (one_wall (num := float)))
               /\ measurement_label m = Some "5.00 m"%string.
Proof.
  destruct auto_measurements_fallback as [Hgen Hfloat].
  split; [|split].
  - split; [reflexivity|].
    exact (proj1 (Hgen float Float64 one_wall) eq_refl).
  - assert (Hne : measurements (hand_measured (num := float)) <> [])
      by discriminate.
    split; [exact Hne|].
    exact (proj1 (proj2 (Hgen float Float64 hand_measured)) Hne).
  - edestruct (Hfloat one_wall) with (w := top_wall (num := float))
      as (m & Hin & _ & _ & _ & Hlabel);
      [ reflexivity | reflexivity | reflexivity | reflexivity
      | left; reflexivity | reflexivity | reflexivity | ].
    exists m. split; assumption.
Defined.

(** C10.  The generator does not skip rooms with fewer than three points.
    In a plan without explicit measurements, the measurements a room
    contributes are among those drawn; a room with exactly two points [a]
    and [b] contributes exactly two, from [a] to [b] and from [b] back to
    [a], and a room with exactly one point [p] contributes exactly one,
    from [p] to [p]. *)
Theorem short_rooms_are_measured :
  forall (num : Type) (N : JSNumber num)
         (floorPlan : FloorPlan num) (room : Room num),
    measurements floorPlan = [] ->
    In room (rooms floorPlan) ->
    let contribution :=
      room_measurements (plan_scale floorPlan) (plan_unit floorPlan) room in
    let edge_id i :=
      ("measure-room-" ++ room_id room ++ "-" ++ Text.of_nat i)%string in
    (exists before after,
        measurements_to_draw floorPlan
        = (before ++ contribution ++ after)%list)
    /\ (forall a b, room_points room = [a; b] ->
          contribution = [ labelled floorPlan (edge_id 0) a b;
                           labelled floorPlan (edge_id 1) b a ])
    /\ (forall p, room_points room = [p] ->
          contribution = [ labelled floorPlan (edge_id 0) p p ]).
Proof.
  intros num N floorPlan room Hnone Hin contribution edge_id.
  split; [|split].
  - rewrite measurements_to_draw_cases, Hnone.
    exact (room_contribution floorPlan room Hin).
  - intros a b Hpts. subst contribution edge_id.
    unfold room_measurements, room_edge. rewrite Hpts. reflexivity.
  - intros p Hpts. subst contribution edge_id.
    unfold room_measurements, room_edge. rewrite Hpts. reflexivity.
Qed.

Lemma short_rooms_are_measured_witness :
  measurements (degenerate_rooms (num := float)) = []
  /\ map (fun m => (measurement_id m, measurement_start m, measurement_end m))
         (measurements_to_draw (degenerate_rooms (num := float)))
     = [ ("measure-room-room-2-0"%string, pt 0 0, pt 30 40);
         ("measure-room-room-2-1"%string, pt 30 40, pt 0 0);
         ("measure-room-room-3-0"%string, pt 5 5, pt 5 5) ].
Proof.
  split; [reflexivity|].
  pose proof (short_rooms_are_measured float Float64 degenerate_rooms
                (polygon_room "2" [pt 0 0; pt 30 40])
                eq_refl (or_introl eq_refl)) as (_ & H2 & _).
  pose proof (short_rooms_are_measured float Float64 degenerate_rooms
                (polygon_room "3" [pt 5 5])
                eq_refl (or_intror (or_introl eq_refl))) as (_ & _ & H1).
  specialize (H2 _ _ eq_refl). specialize (H1 _ eq_refl).
  rewrite measurements_to_draw_cases.
  change (measurements degenerate_rooms) with (@nil (Measurement float)).
  unfold calculateAutoMeasurements.
  change (walls degenerate_rooms) with (@nil (Wall float)).
  change (rooms degenerate_rooms)
    with [polygon_room (num := float) "2" [pt 0 0; pt 30 40];
          polygon_room "3" [pt 5 5]].
  cbn [map flat_map app].
  rewrite H2, H1. reflexivity.
Defined.

(** ** Binary64: the built-ins on known values *)

Example literals_round_to_nearest :
  lit (num := float) 0.1 = 0x1.999999999999ap-4%float
  /\ lit (num := float) 3.28084 = 0x1.a3f290abb44e5p+1%float
  /\ Math_PI (num := float) = 0x1.921fb54442d18p+1%float.
Proof. vm_compute. repeat split. Qed.

Example Math_round_ties_go_up :
  map (Math_round (num := float))
      [lit 2.5; lit (-2.5); lit (-0.5); lit 0.4; lit (-1.4); lit (-0.6)]
  = [lit 3; lit (-2); neg (lit 0); lit 0; lit (-1); lit (-1)].
Proof. vm_compute. reflexivity. Qed.

Example toFixed_rounds_the_stored_value :
  map (fun a => toFixed (num := float) a 2)
      [lit 5; lit 1.005; lit 0.125; lit (-0.001); neg (lit 0); lit 65.6168]
  = ["5.00"; "1.00"; "0.13"; "-0.00"; "0.00"; "65.62"]%string.
Proof. vm_compute. reflexivity. Qed.

Example parseFloat_reads_a_prefix :
  map (parseFloat (num := float))
      ["10"; "10.5abc"; "  -3.25e2x"; ".5"; "1e"; "-Infinity"]%string
  = [lit 10; lit 10.5; lit (-325); lit 0.5; lit 1; neg Infinity]
  /\ forallb (fun t => isNaN (parseFloat (num := float) t))
              [EmptyString; "abc"; "-.e1"; "e5"]%string = true.
Proof. vm_compute. repeat split. Qed.

Example island_preset :
  createCabinet (num := float) "2" island (pt 0 0) (lit 0)
  = {| cabinet_id := "cabinet-2"; cabinet_type := island;
       cabinet_position := pt 0 0; cabinet_angle := lit 0;
       cabinet_width := lit 24; cabinet_depth := lit 18;
       cabinet_height := lit 0.9; cabinet_color := "#A0522D" |}.
Proof. vm_compute. reflexivity. Qed.

(** ** Binary64: propagation of [NaN] and order *)

Lemma F64_sub_nan_r (a : float) : PrimFloat.sub a nan = nan.
Proof.
  apply Prim2SF_inj. rewrite sub_spec.
  change (Prim2SF nan) with S754_nan.
  destruct (Prim2SF a); reflexivity.
Qed.

Lemma F64_mul_nan_l (a : float) : PrimFloat.mul nan a = nan.
Proof.
  apply Prim2SF_inj. rewrite mul_spec.
  change (Prim2SF nan) with S754_nan.
  destruct (Prim2SF a); reflexivity.
Qed.

Lemma F64_add_nan_l (a : float) : PrimFloat.add nan a = nan.
Proof.
  apply Prim2SF_inj. rewrite add_spec.
  change (Prim2SF nan) with S754_nan.
  destruct (Prim2SF a); reflexivity.
Qed.

(** ** Projection of a plan without walls and rooms *)

Lemma calculate_bounds_empty {num : Type} `{JSNumber num}
    (floorPlan : FloorPlan num) :
  walls floorPlan = [] -> rooms floorPlan = [] ->
  calculate_bounds floorPlan
  = {| minX := Infinity; maxX := neg Infinity;
       minY := Infinity; maxY := neg Infinity |}.
Proof. intros Hw Hr. unfold calculate_bounds. now rewrite Hw, Hr. Qed.

Lemma to3D_empty (sc px : float) :
  to3D_x sc {| minX := Infinity; maxX := neg Infinity;
               minY := Infinity; maxY := neg Infinity |} px = nan
  /\ to3D_z sc {| minX := Infinity; maxX := neg Infinity;
                  minY := Infinity; maxY := neg Infinity |} px = nan.
Proof.
  unfold to3D_x, to3D_z. cbn [minX maxX minY maxY].
  change (div (add Infinity (neg Infinity)) (lit 2)) with nan.
  cbn [sub mul Float64].
  rewrite F64_sub_nan_r.
  change (PrimFloat.mul nan (lit 0.1)) with nan.
  rewrite F64_mul_nan_l. split; reflexivity.
Qed.

(** Closes a goal about the position of a descriptor emitted under the
    initial bounds. *)
Ltac nan_position :=
  cbn [position];
  rewrite ?(proj1 (to3D_empty _ _)), ?(proj2 (to3D_empty _ _));
  cbn [add Float64]; rewrite ?F64_add_nan_l; eauto.

(** C2.  In binary64 arithmetic the centre of the bounds of a plan with
    no walls and no rooms is [(Infinity + -Infinity) / 2], which is [NaN]
    and not the origin: every descriptor the projection emits for such a
    plan has [NaN] as its horizontal coordinates.  The default plan with a
    single door at (10, 20) yields the one position (NaN, 1, NaN). *)
Theorem empty_plan_positions_are_nan :
  (forall floorPlan : FloorPlan float,
      walls floorPlan = [] -> rooms floorPlan = [] ->
      bounds (convertFloorPlanTo3D floorPlan)
      = {| minX := infinity; maxX := neg_infinity;
           minY := infinity; maxY := neg_infinity |}
      /\ forall m, In m (meshes (convertFloorPlanTo3D floorPlan)) ->
                   exists elevation, position m = (nan, elevation, nan))
  /\ map (@position float) (meshes (convertFloorPlanTo3D door_only))
     = [(nan, 1%float, nan)].
Proof.
  split.
  - intros floorPlan Hw Hr.
    unfold convertFloorPlanTo3D. cbn [bounds meshes].
    rewrite (calculate_bounds_empty floorPlan Hw Hr), Hw, Hr.
    split; [reflexivity|].
    cbn [map flat_map app]. intros m Hin.
    repeat (apply in_app_or in Hin; destruct Hin as [Hin|Hin]).
    + apply in_map_iff in Hin. destruct Hin as (d & <- & _).
      unfold convert_door. nan_position.
    + apply in_map_iff in Hin. destruct Hin as (d & <- & _).
      unfold convert_window. nan_position.
    + apply in_flat_map in Hin. destruct Hin as (c & _ & Hin).
      unfold convert_cabinet in Hin.
      destruct Hin as [<-|Hin]; [unfold cabinet_body; nan_position|].
      destruct (negb (CabinetType_eqb (cabinet_type c) island));
        [destruct Hin as [<-|[]] | destruct Hin].
      unfold cabinet_handle. nan_position.
    + apply in_map_iff in Hin. destruct Hin as (d & <- & _).
      unfold convert_model. nan_position.
  - vm_compute. reflexivity.
Qed.

Lemma empty_plan_positions_are_nan_witness :
  walls (door_only (num := float)) = []
  /\ rooms (door_only (num := float)) = []
  /\ forall m, In m (meshes (convertFloorPlanTo3D (door_only (num := float)))) ->
               exists elevation, position m = (nan, elevation, nan).
Proof.
  split; [reflexivity|]. split; [reflexivity|].
  exact (proj2 (proj1 empty_plan_positions_are_nan door_only eq_refl eq_refl)).
Defined.

(** ** Cabinet handles *)

(** A handle is emitted exactly for the cabinets that are not islands, and
    after the body. *)
Lemma handle_unless_island {num : Type} `{JSNumber num}
    (sc : num) (b : Bounds num) (c : Cabinet num) :
  convert_cabinet sc b c
  = match cabinet_type c with
    | island => [cabinet_body sc b c]
    | _ => [cabinet_body sc b c; cabinet_handle sc b c]
    end
  /\ length (filter is_cylinder (convert_cabinet sc b c))
     = (if CabinetType_eqb (cabinet_type c) island then 0 else 1).
Proof.
  unfold convert_cabinet. destruct (cabinet_type c); split; reflexivity.
Qed.

(** C9.  The handle is emitted unless the cabinet is an island, but its
    position is the cabinet's projected centre moved along the scene's z
    axis by [depth * 0.1 * scale / 2 + 0.025], whatever the cabinet's
    angle: the handle of a base cabinet is at the same place for every
    angle, and on binary64 numbers a cabinet turned by [PI / 2] at the
    middle of a 200 px wall has its handle about 0.625 in front of it in z
    and not along its turned depth axis. *)
Theorem handle_position_ignores_angle :
  (forall (num : Type) (N : JSNumber num) (angle : num),
      map (@position num)
          (filter is_cylinder (meshes (convertFloorPlanTo3D (turned_cabinet angle))))
      = map (@position num)
            (filter is_cylinder
                    (meshes (convertFloorPlanTo3D (turned_cabinet (lit 0))))))
  /\ map (fun m => (mesh_id m, position m))
         (meshes (convertFloorPlanTo3D
                    (turned_cabinet (num := float) (div Math_PI (lit 2)))))
     = [ ("wall-1"%string, (0, 0x1.599999999999ap+0, 0)%float);
         ("cabinet-1"%string, (0, 0x1.ccccccccccccdp-2, 0)%float);
         ("cabinet-1-handle"%string,
          (0, 0x1.ccccccccccccdp-2, 0x1.4000000000001p-1)%float) ]
  /\ map (@mesh_id float)
         (meshes (convertFloorPlanTo3D (island_cabinet (num := float))))
     = [ "wall-1"%string; "cabinet-2"%string ].
Proof.
  split; [|split].
  - intros num N angle. reflexivity.
  - vm_compute. reflexivity.
  - vm_compute. reflexivity.
Qed.

(** ** Scale calibration *)

Lemma F64_positive_not_le_zero (v : float) :
  PrimFloat.ltb 0 v = true -> PrimFloat.leb v 0 = false.
Proof.
  rewrite ltb_spec, leb_spec.
  change (Prim2SF 0) with (S754_zero false).
  destruct (Prim2SF v) as [s|s| |s m e]; cbn; try discriminate;
    destruct s; cbn; congruence.
Qed.

Lemma F64_parseFloat_empty : F64.parseFloat EmptyString = nan.
Proof. reflexivity. Qed.

Lemma with_scale_fields {num : Type} (md : option (Metadata num))
    (s : num) (u : Unit_) :
  scale (with_scale md s u) = s /\ unit (with_scale md s u) = u.
Proof. destruct md; split; reflexivity. Qed.

(** C4.  On binary64 numbers, with a segment drawn from [a] to [b] and the
    declared length [v = parseFloat text]: when [v] is a number and
    [v > 0] the calibration hands on a plan whose [metadata.scale] is the
    pixel length of the segment divided by [v] converted to meters (feet:
    [v / 3.28084], inches: [v / 39.3701], meters: [v]) and whose
    [metadata.unit] is the declared unit; when [v] is [NaN] or [v <= 0] it
    shows an error and hands on no plan, so the scale stays as it was.  A
    200 px segment declared as 10 feet gives a scale within [1e-9] of
    65.6168. *)
Theorem scale_calibration :
  (forall (st : EditorState (num := float)) (floorPlan : FloorPlan float)
          (a b : Point float),
      dragStart st = Some a -> currentPoint st = Some b ->
      let v := parseFloat (scaleDistance st) in
      (isNaN v = false -> ltb (lit 0) v = true ->
       exists updated md,
         changed (handleSetScale st floorPlan) = Some updated
         /\ metadata updated = Some md
         /\ scale md = div (distance a b) (declared_meters v (scaleUnit st))
         /\ unit md = scaleUnit st)
      /\ (isNaN v = true \/ leb v (lit 0) = true ->
          changed (handleSetScale st floorPlan) = None
          /\ exists message,
               toast (handleSetScale st floorPlan)
               = Some (toast_error message)))
  /\ (forall floorPlan : FloorPlan float,
        exists updated md,
          changed (handleSetScale
                     (calibrating (pt 0 0) (pt 200 0) "10" feet) floorPlan)
          = Some updated
          /\ metadata updated = Some md
          /\ distance (num := float) (pt 0 0) (pt 200 0) = lit 200
          /\ ltb (Math_abs (sub (scale md) (lit 65.6168))) (lit 1e-9) = true).
Proof.
  split.
  - intros st floorPlan a b Ha Hb v. split.
    + intros Hnum Hpos.
      unfold handleSetScale. rewrite Ha, Hb.
      destruct (scaleDistance st) as [|c text] eqn:Htext.
      * subst v. cbn in Hnum. discriminate.
      * fold v. rewrite Hnum.
        change (lit 0) with 0%float in Hpos |- *.
        cbn [ltb leb Float64] in Hpos |- *.
        rewrite (F64_positive_not_le_zero v Hpos). cbn [orb changed].
        eexists _, _. split; [reflexivity|]. cbn [metadata].
        split; [reflexivity|].
        rewrite (proj1 (with_scale_fields _ _ _)).
        rewrite (proj2 (with_scale_fields _ _ _)).
        unfold declared_meters.
        split; [destruct (scaleUnit st)|]; reflexivity.
    + intros Hbad.
      unfold handleSetScale. rewrite Ha, Hb.
      destruct (scaleDistance st) as [|c text] eqn:Htext.
      * cbn [changed toast]. eauto.
      * fold v.
        assert (E : isNaN v || leb v (lit 0) = true).
        { destruct Hbad as [->| ->]; [reflexivity | apply orb_true_r]. }
        rewrite E. cbn [changed toast]. eauto.
  - intros floorPlan. eexists _, _.
    split; [unfold handleSetScale; cbn; reflexivity|].
    cbn [metadata]. split; [reflexivity|].
    split; [vm_compute; reflexivity|].
    rewrite (proj1 (with_scale_fields _ _ _)).
    vm_compute. reflexivity.
Qed.

Lemma scale_calibration_witness :
  (isNaN (parseFloat (num := float) "10") = false
   /\ ltb (lit 0) (parseFloat (num := float) "10") = true
   /\ exists updated md,
        changed (handleSetScale
                   (calibrating (num := float) (pt 0 0) (pt 200 0) "10" feet)
                   one_wall)
        = Some updated
        /\ metadata updated = Some md
        /\ unit md = feet)
  /\ (isNaN (parseFloat (num := float) "ten") = true
      /\ changed (handleSetScale
                    (calibrating (num := float) (pt 0 0) (pt 200 0) "ten" feet)
                    one_wall)
         = None)
  /\ (leb (parseFloat (num := float) "-3") (lit 0) = true
      /\ changed (handleSetScale
                    (calibrating (num := float) (pt 0 0) (pt 200 0) "-3" feet)
                    one_wall)
         = None).
Proof.
  split; [|split].
  - split; [vm_compute; reflexivity|]. split; [vm_compute; reflexivity|].
    destruct (proj1 (proj1 scale_calibration
                       (calibrating (pt 0 0) (pt 200 0) "10" feet) one_wall
                       (pt 0 0) (pt 200 0) eq_refl eq_refl))
      as (updated & md & Hc & Hm & _ & Hu).
    + vm_compute; reflexivity.
    + vm_compute; reflexivity.
    + exists updated, md. repeat split; assumption.
  - split; [vm_compute; reflexivity|].
    apply (proj2 (proj1 scale_calibration
                    (calibrating (pt 0 0) (pt 200 0) "ten" feet) one_wall
                    (pt 0 0) (pt 200 0) eq_refl eq_refl)).
    left. vm_compute; reflexivity.
  - split; [vm_compute; reflexivity|].
    apply (proj2 (proj1 scale_calibration
                    (calibrating (pt 0 0) (pt 200 0) "-3" feet) one_wall
                    (pt 0 0) (pt 200 0) eq_refl eq_refl)).
    right. vm_compute; reflexivity.
Defined.

(** ** Extended reals: comparisons *)

Lemma Rltb_true (a b : R) : XR.Rltb a b = true <-> (a < b)%R.
Proof. unfold XR.Rltb. destruct (Rlt_dec a b); split; intros; auto; discriminate. Qed.

Lemma Rltb_false (a b : R) : XR.Rltb a b = false <-> (b <= a)%R.
Proof.
  unfold XR.Rltb. destruct (Rlt_dec a b); split; intros; auto; try discriminate; lra.
Qed.

Lemma Rleb_true (a b : R) : XR.Rleb a b = true <-> (a <= b)%R.
Proof. unfold XR.Rleb. destruct (Rle_dec a b); split; intros; auto; discriminate. Qed.

Lemma Reqb_true (a b : R) : XR.Reqb a b = true <-> a = b.
Proof. unfold XR.Reqb. destruct (Req_dec_T a b); split; intros; auto; discriminate. Qed.

Lemma Reqb_false (a b : R) : XR.Reqb a b = false <-> a <> b.
Proof.
  unfold XR.Reqb. destruct (Req_dec_T a b); split; intros; auto; try discriminate.
  contradiction.
Qed.

Lemma Rleb_negb_Rltb (a b : R) : XR.Rleb b a = negb (XR.Rltb a b).
Proof.
  unfold XR.Rleb, XR.Rltb.
  destruct (Rle_dec b a), (Rlt_dec a b); try reflexivity; lra.
Qed.


(** ** Unit conversion *)

Lemma feet_factor_nonzero : Q2R 3.28084 <> 0%R.
Proof. unfold Q2R. cbn. lra. Qed.

Lemma inches_factor_nonzero : Q2R 39.3701 <> 0%R.
Proof. unfold Q2R. cbn. lra. Qed.



(** ** Grid snapping *)

(** [floor (t + 1/2)] is an integer nearest to [t]. *)
Lemma round_half_up_nearest (t : R) (j : Z) :
  (Rabs (IZR (Zfloor (t + / 2)) - t) <= Rabs (IZR j - t))%R.
Proof.
  set (k := Zfloor (t + / 2)).
  destruct (Zfloor_bound (t + / 2)) as [Hlo Hhi]. fold k in Hlo, Hhi.
  destruct (Z.lt_trichotomy j k) as [Hlt|[->|Hgt]].
  - assert (IZR j <= IZR k - 1)%R.
    { replace (IZR k - 1)%R with (IZR (k - 1)) by (rewrite minus_IZR; reflexivity).
      apply IZR_le. lia. }
    unfold Rabs.
    destruct (Rcase_abs (IZR k - t)), (Rcase_abs (IZR j - t)); lra.
  - lra.
  - assert (IZR k + 1 <= IZR j)%R.
    { replace (IZR k + 1)%R with (IZR (k + 1)) by (rewrite plus_IZR; reflexivity).
      apply IZR_le. lia. }
    unfold Rabs.
    destruct (Rcase_abs (IZR k - t)), (Rcase_abs (IZR j - t)); lra.
Qed.

Lemma nearest_multiple (c g : R) (j : Z) :
  (0 < g)%R ->
  (Rabs (IZR (Zfloor (c / g + / 2)) * g - c) <= Rabs (IZR j * g - c))%R.
Proof.
  intros Hg.
  pose proof (round_half_up_nearest (c / g) j) as Hn.
  replace (IZR (Zfloor (c / g + / 2)) * g - c)%R
    with ((IZR (Zfloor (c / g + / 2)) - c / g) * g)%R by (field; lra).
  replace (IZR j * g - c)%R with ((IZR j - c / g) * g)%R by (field; lra).
  rewrite !Rabs_mult, (Rabs_pos_eq g) by lra.
  apply Rmult_le_compat_r; lra.
Qed.

(** C6, as the code has it.  A call of [snapToGrid] returns for every grid
    size, positive or not, and never throws.  On real numbers and a
    positive grid size, each coordinate of the result is the multiple
    [k * gridSize], [k] an integer, that is nearest to the coordinate of the
    argument, the two coordinates being rounded independently. *)
Theorem snapToGrid_nearest_multiple :
  (forall (num : Type) (N : JSNumber num) (point : Point num) (gridSize : num),
      call_snapToGrid point gridSize
      = Returns {| x := mul (Math_round (div (x point) gridSize)) gridSize;
                   y := mul (Math_round (div (y point) gridSize)) gridSize |})
  /\ (forall px py g : R,
        (0 < g)%R ->
        exists kx ky : Z,
          snapToGrid {| x := XFin px; y := XFin py |} (XFin g)
          = {| x := XFin (IZR kx * g); y := XFin (IZR ky * g) |}
          /\ forall j : Z,
               (Rabs (IZR kx * g - px) <= Rabs (IZR j * g - px))%R
               /\ (Rabs (IZR ky * g - py) <= Rabs (IZR j * g - py))%R).
Proof.
  split.
  - intros num N point gridSize. reflexivity.
  - intros px py g Hg.
    exists (Zfloor (px / g + / 2)), (Zfloor (py / g + / 2)).
    split.
    + unfold snapToGrid. cbn [x y div mul Math_round XReal XR.div].
      rewrite (proj2 (Reqb_false g 0)) by lra. reflexivity.
    + intros j. split; apply nearest_multiple; exact Hg.
Qed.

Lemma snapToGrid_nearest_multiple_witness :
  (0 < 20)%R
  /\ exists kx ky : Z,
       snapToGrid {| x := XFin 27; y := XFin 3 |} (XFin 20)
       = {| x := XFin (IZR kx * 20); y := XFin (IZR ky * 20) |}
       /\ forall j : Z,
            (Rabs (IZR kx * 20 - 27) <= Rabs (IZR j * 20 - 27))%R
            /\ (Rabs (IZR ky * 20 - 3) <= Rabs (IZR j * 20 - 3))%R.
Proof.
  split; [lra|].
  apply (proj2 snapToGrid_nearest_multiple). lra.
Defined.

(** C6, as stated, fails: for the grid size -5, which is not positive, the
    call on binary64 numbers returns the point (5, 5) for (7, 3) and does
    not fail with [InvalidArgument]. *)
Lemma snapToGrid_negative_grid_returns :
  leb (lit (num := float) (-5)) (lit 0) = true
  /\ call_snapToGrid (num := float) (pt 7 3) (lit (-5)) = Returns (pt 5 5)
  /\ call_snapToGrid (num := float) (pt 7 3) (lit (-5))
     <> Throws InvalidArgument.
Proof.
  split; [vm_compute; reflexivity|].
  split; [vm_compute; reflexivity|].
  discriminate.
Qed.

(** ** Extended reals: finiteness of the geometry kernel *)

Lemma Q2R_zero : Q2R 0 = 0%R.
Proof. unfold Q2R. cbn. lra. Qed.

Lemma finite_inv (a : xreal) : finite a -> exists r, a = XFin r.
Proof. destruct a; cbn; intros Hf; try contradiction. eauto. Qed.


Lemma finite_point_inv (p : Point xreal) :
  finite_point p -> exists a b, p = {| x := XFin a; y := XFin b |}.
Proof.
  destruct p as [px py]. intros [Hx Hy]. cbn in Hx, Hy.
  destruct (finite_inv px Hx) as [a ->], (finite_inv py Hy) as [b ->]. eauto.
Qed.

Lemma sqrt_sum_squares_finite (a b : R) :
  XR.sqrt (XFin (a * a + b * b)) = XFin (R_sqrt.sqrt (a * a + b * b)).
Proof.
  cbn [XR.sqrt]. rewrite (proj2 (Rltb_false _ _)); [reflexivity | nra].
Qed.

Lemma distance_finite (a b c d : R) :
  distance {| x := XFin a; y := XFin b |} {| x := XFin c; y := XFin d |}
  = XFin (R_sqrt.sqrt ((c - a) * (c - a) + (d - b) * (d - b))).
Proof.
  unfold distance.
  cbn [x y sub add pow2 Math_sqrt XReal XR.sub XR.add XR.neg XR.mul].
  apply sqrt_sum_squares_finite.
Qed.


(** ** Deletion *)

Lemma filter_map_commute {A B : Type} (f : B -> bool) (g : A -> B)
    (l : list A) :
  filter f (map g l) = map g (filter (fun a => f (g a)) l).
Proof.
  induction l as [|a l IH]; cbn; [reflexivity|].
  destruct (f (g a)); cbn; now rewrite IH.
Qed.

(** The entities of the plan [remove_hits] returns are the entities of the
    plan that do not match, in the same order. *)
Lemma entities_remove_hits {num : Type} `{JSNumber num}
    (floorPlan : FloorPlan num) (p : Point num) :
  entities_by_priority (remove_hits floorPlan p)
  = filter (fun e => negb (proximity p e)) (entities_by_priority floorPlan).
Proof.
  unfold entities_by_priority, remove_hits.
  cbn [photos models3D cabinets walls rooms doors windows].
  now rewrite !filter_app, !filter_map_commute.
Qed.

Lemma half_finite (r : R) :
  XR.div (XFin r) (XFin (Q2R 2)) = XFin (r / Q2R 2).
Proof.
  cbn [XR.div]. rewrite (proj2 (Reqb_false (Q2R 2) 0)); [reflexivity|].
  unfold Q2R. cbn. lra.
Qed.








(** On binary64 numbers the callbacks of the delete branch and the tests
    of the select branch part ways when a distance is [NaN]: a wall whose
    start lies at an infinite abscissa is never selected and always
    deleted. *)
Remark nan_distance_select_and_delete :
  let far := {| wall_id := "wall-9"%string;
                wall_start := {| x := infinity; y := 0%float |};
                wall_end := pt 100 0;
                wall_thickness := lit 8; wall_height := lit 2.7;
                wall_texture := None |} in
  PrimFloat.is_nan (pointToLineDistance (pt 50 5) (wall_start far) (wall_end far))
  = true
  /\ wall_hit (pt 50 5) far = false
  /\ wall_keep (pt 50 5) far = false.
Proof. vm_compute. repeat split. Qed.

(** C5.  On binary64 numbers the delete branch does not reuse the tests of
    the select branch: it keeps a wall when its distance is [>= 10], which
    is not the negation of [< 10] when the distance is [NaN].  The wall
    from [(-1e200, 0)] to [(1e200, 0)] has a [NaN] distance from
    [(50, 5)]: no test of the select branch matches there, so nothing is
    selected, and the delete branch removes the wall all the same, where
    removing the matching entities leaves the plan as it is. *)
Theorem deletion_removes_unmatched_wall :
  let p := pt (num := float) 50 5 in
  let far := drawn_wall (num := float) "9" (pt (-1e200) 0) (pt 1e200 0) in
  walls overflowing_wall = [far]
  /\ isNaN (pointToLineDistance p (wall_start far) (wall_end far)) = true
  /\ wall_hit p far = false
  /\ wall_keep p far = false
  /\ select_at overflowing_wall p = None
  /\ walls (delete_at overflowing_wall p) = []
  /\ remove_hits overflowing_wall p = overflowing_wall.
Proof.
  cbv zeta. split; [reflexivity|].
  assert (Hnan : isNaN (pointToLineDistance (pt (num := float) 50 5)
                          (pt (-1e200) 0) (pt 1e200 0)) = true)
    by (vm_compute; reflexivity).
  assert (Hhit : wall_hit (pt (num := float) 50 5)
                   (drawn_wall "9" (pt (-1e200) 0) (pt 1e200 0)) = false)
    by (vm_compute; reflexivity).
  assert (Hkeep : wall_keep (pt (num := float) 50 5)
                    (drawn_wall "9" (pt (-1e200) 0) (pt 1e200 0)) = false)
    by (vm_compute; reflexivity).
  split; [exact Hnan|]. split; [exact Hhit|]. split; [exact Hkeep|].
  split.
  - unfold select_at, overflowing_wall, plan_with.
    cbn [photos models3D cabinets walls rooms doors windows
         createDefaultFloorPlan find].
    now rewrite Hhit.
  - split.
    + unfold delete_at, overflowing_wall, plan_with. cbn [walls filter].
      now rewrite Hkeep.
    + unfold remove_hits, overflowing_wall, plan_with.
      cbn [photos models3D cabinets walls rooms doors windows
           createDefaultFloorPlan filter proximity id name measurements
           scaleCalibration metadata].
      fold (wall_hit (pt (num := float) 50 5)
              (drawn_wall "9" (pt (-1e200) 0) (pt 1e200 0))).
      now rewrite Hhit.
Qed.

(** ** Wall descriptors *)

Lemma filter_map_all {A B : Type} (f : B -> bool) (g : A -> B) (l : list A) :
  (forall a, f (g a) = true) -> filter f (map g l) = map g l.
Proof.
  intros Hall. induction l as [|a l IH]; cbn; [reflexivity|].
  now rewrite Hall, IH.
Qed.

Lemma filter_map_none {A B : Type} (f : B -> bool) (g : A -> B) (l : list A) :
  (forall a, f (g a) = false) -> filter f (map g l) = [].
Proof.
  intros Hnone. induction l as [|a l IH]; cbn; [reflexivity|].
  now rewrite Hnone.
Qed.

Lemma filter_flat_map_none {A B : Type} (f : B -> bool) (g : A -> list B)
    (l : list A) :
  (forall a, filter f (g a) = []) -> filter f (flat_map g l) = [].
Proof.
  intros Hnone. induction l as [|a l IH]; cbn; [reflexivity|].
  now rewrite filter_app, Hnone, IH.
Qed.

(** The descriptors tagged [wall] are the images of the walls, in order:
    one per wall. *)
Lemma wall_meshes_of_plan {num : Type} `{JSNumber num}
    (floorPlan : FloorPlan num) :
  filter is_wall_mesh (meshes (convertFloorPlanTo3D floorPlan))
  = map (convert_wall (div (plan_scale floorPlan) (lit 20))
                      (calculate_bounds floorPlan))
        (walls floorPlan).
Proof.
  unfold convertFloorPlanTo3D. cbn [meshes].
  rewrite !filter_app.
  rewrite filter_map_all by reflexivity.
  rewrite filter_flat_map_none.
  2:{ intros room. unfold convert_room.
      destruct (length (room_points room) <? 3); reflexivity. }
  rewrite (filter_map_none _ (convert_door _ _)) by reflexivity.
  rewrite (filter_map_none _ (convert_window _ _)) by reflexivity.
  rewrite filter_flat_map_none.
  2:{ intros c. unfold convert_cabinet.
      destruct (negb (CabinetType_eqb (cabinet_type c) island)); reflexivity. }
  rewrite (filter_map_none _ (convert_model _ _)) by reflexivity.
  now rewrite !app_nil_r.
Qed.

(** ** Extended reals: the bounding box *)

Lemma XR_min2_inf (a : xreal) : XR.min2 (XInf false) a = a.
Proof. destruct a as [|s|r]; [reflexivity | destruct s; reflexivity | reflexivity]. Qed.

Lemma XR_max2_inf (a : xreal) : XR.max2 (XInf true) a = a.
Proof. destruct a as [|s|r]; [reflexivity | destruct s; reflexivity | reflexivity]. Qed.

Lemma running_min_step (m : xreal) (seen : list R) (r : R) :
  running_min m seen ->
  running_min (Math_min [m; XFin r]) (seen ++ [r]).
Proof.
  unfold Math_min. cbn [fold_left min2 Infinity XReal].
  rewrite XR_min2_inf.
  destruct seen as [|a seen]; cbn [running_min app].
  - intros ->. exists r. split; [reflexivity|].
    split; [now left|]. intros a [<-|[]]. lra.
  - intros (r0 & -> & Hin & Hle).
    unfold XR.min2. cbn [XR.isNaN orb XR.ltb].
    change (a :: seen ++ [r]) with ((a :: seen) ++ [r]).
    destruct (XR.Rltb r r0) eqn:E.
    + apply Rltb_true in E. exists r. split; [reflexivity|]. split.
      * apply in_or_app. right. now left.
      * intros c Hc. apply in_app_or in Hc. destruct Hc as [Hc|[<-|[]]].
        -- specialize (Hle c Hc). lra.
        -- lra.
    + apply Rltb_false in E. exists r0. split; [reflexivity|]. split.
      * apply in_or_app. now left.
      * intros c Hc. apply in_app_or in Hc. destruct Hc as [Hc|[<-|[]]].
        -- exact (Hle c Hc).
        -- exact E.
Qed.

Lemma running_max_step (m : xreal) (seen : list R) (r : R) :
  running_max m seen ->
  running_max (Math_max [m; XFin r]) (seen ++ [r]).
Proof.
  unfold Math_max. cbn [fold_left max2 neg Infinity XReal XR.neg negb].
  rewrite XR_max2_inf.
  destruct seen as [|a seen]; cbn [running_max app].
  - intros ->. exists r. split; [reflexivity|].
    split; [now left|]. intros a [<-|[]]. lra.
  - intros (r0 & -> & Hin & Hle).
    unfold XR.max2. cbn [XR.isNaN orb XR.ltb].
    change (a :: seen ++ [r]) with ((a :: seen) ++ [r]).
    destruct (XR.Rltb r0 r) eqn:E.
    + apply Rltb_true in E. exists r. split; [reflexivity|]. split.
      * apply in_or_app. right. now left.
      * intros c Hc. apply in_app_or in Hc. destruct Hc as [Hc|[<-|[]]].
        -- specialize (Hle c Hc). lra.
        -- lra.
    + apply Rltb_false in E. exists r0. split; [reflexivity|]. split.
      * apply in_or_app. now left.
      * intros c Hc. apply in_app_or in Hc. destruct Hc as [Hc|[<-|[]]].
        -- exact (Hle c Hc).
        -- exact E.
Qed.

Lemma running_bounds_step (b : Bounds xreal) (seen : list (Point xreal))
    (p : Point xreal) :
  finite_point p -> running_bounds b seen ->
  running_bounds (bounds_point b p) (seen ++ [p]).
Proof.
  intros Hp (Hx0 & Hx1 & Hy0 & Hy1).
  destruct (finite_point_inv p Hp) as (px & py & ->).
  unfold running_bounds, xs_of, ys_of. rewrite !map_app.
  cbn [map bounds_point minX maxX minY maxY x y real_of].
  repeat split.
  - now apply running_min_step.
  - now apply running_max_step.
  - now apply running_min_step.
  - now apply running_max_step.
Qed.

Lemma running_bounds_fold (points seen : list (Point xreal))
    (b : Bounds xreal) :
  Forall finite_point points -> running_bounds b seen ->
  running_bounds (fold_left bounds_point points b) (seen ++ points).
Proof.
  revert seen b. induction points as [|p points IH]; intros seen b Hf Hb.
  - now rewrite app_nil_r.
  - inversion Hf as [|? ? Hp Hrest]; subst. cbn [fold_left].
    replace (seen ++ p :: points) with ((seen ++ [p]) ++ points)
      by now rewrite <- app_assoc.
    apply IH; [exact Hrest|]. now apply running_bounds_step.
Qed.

Lemma fold_left_flat_map {A B C : Type} (f : C -> A -> C) (g : C -> B -> C)
    (h : A -> list B) (l : list A) (c : C) :
  (forall c a, f c a = fold_left g (h a) c) ->
  fold_left f l c = fold_left g (flat_map h l) c.
Proof.
  intros Hf. revert c. induction l as [|a l IH]; intros c; cbn; [reflexivity|].
  now rewrite fold_left_app, <- Hf, IH.
Qed.

Lemma bounds_wall_points (b : Bounds xreal) (w : Wall xreal) :
  bounds_wall b w = fold_left bounds_point [wall_start w; wall_end w] b.
Proof.
  unfold bounds_wall, bounds_point, Math_min, Math_max.
  cbn [fold_left min2 max2 neg Infinity XReal XR.neg negb minX maxX minY maxY].
  now rewrite !XR_min2_inf, !XR_max2_inf.
Qed.

(** The two accumulation loops visit the points of the plan one by one. *)
Lemma calculate_bounds_points (floorPlan : FloorPlan xreal) :
  calculate_bounds floorPlan
  = fold_left bounds_point (plan_points floorPlan)
      {| minX := XInf false; maxX := XInf true;
         minY := XInf false; maxY := XInf true |}.
Proof.
  unfold calculate_bounds, plan_points.
  rewrite fold_left_app.
  rewrite (fold_left_flat_map bounds_wall bounds_point
             (fun w => [wall_start w; wall_end w]))
    by (intros; apply bounds_wall_points).
  now rewrite (fold_left_flat_map bounds_room bounds_point (@room_points xreal)).
Qed.

Lemma calculate_bounds_finite (floorPlan : FloorPlan xreal) :
  Forall finite_point (plan_points floorPlan) ->
  running_bounds (calculate_bounds floorPlan) (plan_points floorPlan).
Proof.
  intros Hf. rewrite calculate_bounds_points.
  apply (running_bounds_fold (plan_points floorPlan) [] _ Hf).
  repeat split.
Qed.

(** ** Extended reals: the projection factor *)

Lemma Q2R_two : Q2R 2 = 2%R.
Proof. unfold Q2R. cbn. lra. Qed.

Lemma normalised_scale (s : R) :
  XR.div (XFin s) (XFin (Q2R 20)) = XFin (s / Q2R 20).
Proof.
  cbn [XR.div]. rewrite (proj2 (Reqb_false (Q2R 20) 0)); [reflexivity|].
  unfold Q2R. cbn. lra.
Qed.

(** Multiplying by 0.1 and then by the normalised scale is multiplying by
    [K], for every extended real. *)
Lemma scale_by_factor (t : xreal) (s : R) :
  s <> 0%R ->
  mul (mul t (lit 0.1)) (div (XFin s) (lit 20))
  = mul t (projection_factor (XFin s)).
Proof.
  intros Hs. unfold projection_factor.
  cbn [mul div lit XReal]. rewrite normalised_scale.
  assert (H01 : (0 < Q2R 0.1)%R) by (unfold Q2R; cbn; lra).
  assert (H20 : (0 < Q2R 20)%R) by (unfold Q2R; cbn; lra).
  assert (Hc : (s / Q2R 20 <> 0)%R).
  { intros E. apply Hs.
    replace s with (s / Q2R 20 * Q2R 20)%R by (field; lra).
    rewrite E. ring. }
  destruct t as [|b|r]; cbn [XR.mul].
  - reflexivity.
  - rewrite (proj2 (Reqb_false (Q2R 0.1) 0)) by lra.
    rewrite (proj2 (Rltb_false (Q2R 0.1) 0)) by lra.
    cbn [XR.mul]. rewrite (proj2 (Reqb_false _ 0) Hc).
    rewrite (proj2 (Reqb_false (Q2R 0.1 * (s / Q2R 20)) 0)) by nra.
    rewrite xorb_false_r. do 2 f_equal.
    unfold XR.Rltb.
    destruct (Rlt_dec (s / Q2R 20) 0), (Rlt_dec (Q2R 0.1 * (s / Q2R 20)) 0);
      try reflexivity; nra.
  - f_equal. ring.
Qed.

Lemma Forall2_map_image {A B : Type} (P : A -> B -> Prop) (f : A -> B)
    (l : list A) :
  (forall a, In a l -> P a (f a)) -> Forall2 P l (map f l).
Proof.
  induction l as [|a l IH]; cbn; intros HP; constructor.
  - apply HP. now left.
  - apply IH. intros b Hb. apply HP. now right.
Qed.

Lemma plan_scale_of_metadata (floorPlan : FloorPlan xreal)
    (md : Metadata xreal) (s : R) :
  metadata floorPlan = Some md -> scale md = XFin s -> s <> 0%R ->
  plan_scale floorPlan = XFin s.
Proof.
  intros Hmd Hs Hne. unfold plan_scale, or_else, truthy.
  rewrite Hmd, Hs. cbn [eqb isNaN lit XReal XR.eqb XR.isNaN].
  rewrite Q2R_zero, (proj2 (Reqb_false s 0) Hne). reflexivity.
Qed.

(** C1.  On real coordinates, for a plan with at least one wall whose
    [metadata.scale] is a non-zero real, the descriptors tagged [wall]
    correspond one to one, in order, to the walls of the plan: every wall
    has exactly one.  The descriptor of a wall is a box of
    size [(length * K, wallHeight, thickness * K)] at
    [((midX - centerX) * K, wallHeight / 2, (midY - centerY) * K)], turned
    about the vertical axis by [atan2 (dy, dx)], where
    [K = 0.1 * (metadata.scale / 20)] and [(centerX, centerY)] is the centre
    of the box spanned by the least and greatest coordinates of all wall
    endpoints and room vertices; these four extremes are the bounds the
    projection returns. *)
Theorem wall_projection :
  forall (floorPlan : FloorPlan xreal) (md : Metadata xreal) (s : R),
    metadata floorPlan = Some md -> scale md = XFin s -> s <> 0%R ->
    Forall finite_point (plan_points floorPlan) ->
    walls floorPlan <> [] ->
    exists x0 x1 y0 y1 : R,
      least x0 (xs_of (plan_points floorPlan))
      /\ greatest x1 (xs_of (plan_points floorPlan))
      /\ least y0 (ys_of (plan_points floorPlan))
      /\ greatest y1 (ys_of (plan_points floorPlan))
      /\ bounds (convertFloorPlanTo3D floorPlan)
         = {| minX := XFin x0; maxX := XFin x1;
              minY := XFin y0; maxY := XFin y1 |}
      /\ Forall2 (is_wall_box (projection_factor (XFin s))
                              (XFin ((x0 + x1) / 2)) (XFin ((y0 + y1) / 2)))
                 (walls floorPlan)
                 (filter is_wall_mesh (meshes (convertFloorPlanTo3D floorPlan))).
Proof.
  intros floorPlan md s Hmd Hscale Hs Hfin Hwalls.
  pose proof (calculate_bounds_finite floorPlan Hfin) as Hb.
  assert (Hne : exists p rest, plan_points floorPlan = p :: rest).
  { unfold plan_points. destruct (walls floorPlan) as [|w ws]; [congruence|].
    cbn. eauto. }
  destruct Hne as (p0 & rest & Hpts).
  unfold running_bounds, xs_of, ys_of in Hb.
  unfold xs_of, ys_of. rewrite Hpts in Hb |- *. cbn [map running_min running_max] in Hb.
  destruct Hb as ((x0 & Ex0 & Hx0) & (x1 & Ex1 & Hx1)
                  & (y0 & Ey0 & Hy0) & (y1 & Ey1 & Hy1)).
  exists x0, x1, y0, y1.
  split; [exact Hx0|]. split; [exact Hx1|].
  split; [exact Hy0|]. split; [exact Hy1|].
  split.
  - unfold convertFloorPlanTo3D. cbn [bounds].
    destruct (calculate_bounds floorPlan) as [a0 a1 c0 c1].
    cbn [minX maxX minY maxY] in Ex0, Ex1, Ey0, Ey1. now subst.
  - rewrite wall_meshes_of_plan.
    rewrite (plan_scale_of_metadata floorPlan md s Hmd Hscale Hs).
    apply Forall2_map_image. intros w _.
    assert (Hcx : div (add (minX (calculate_bounds floorPlan))
                           (maxX (calculate_bounds floorPlan))) (lit 2)
                  = XFin ((x0 + x1) / 2)).
    { rewrite Ex0, Ex1. cbn [add div lit XReal XR.add].
      now rewrite half_finite, Q2R_two. }
    assert (Hcy : div (add (minY (calculate_bounds floorPlan))
                           (maxY (calculate_bounds floorPlan))) (lit 2)
                  = XFin ((y0 + y1) / 2)).
    { rewrite Ey0, Ey1. cbn [add div lit XReal XR.add].
      now rewrite half_finite, Q2R_two. }
    constructor; unfold convert_wall;
      cbn [geometry position rotation mesh_type mesh_id]; try reflexivity.
    + fold (wallHeight w). f_equal; apply scale_by_factor; exact Hs.
    + fold (wallHeight w). unfold to3D_x, to3D_z. rewrite Hcx, Hcy.
      rewrite !scale_by_factor by exact Hs. reflexivity.
Qed.

Lemma wall_projection_witness :
  Q2R 20 <> 0%R
  /\ Forall finite_point (plan_points (room_and_wall (num := xreal)))
  /\ walls (room_and_wall (num := xreal)) <> []
  /\ exists x0 x1 y0 y1 : R,
       bounds (convertFloorPlanTo3D (room_and_wall (num := xreal)))
       = {| minX := XFin x0; maxX := XFin x1;
            minY := XFin y0; maxY := XFin y1 |}
       /\ Forall2 (is_wall_box (projection_factor (XFin (Q2R 20)))
                               (XFin ((x0 + x1) / 2)) (XFin ((y0 + y1) / 2)))
                  (walls room_and_wall)
                  (filter is_wall_mesh
                          (meshes (convertFloorPlanTo3D room_and_wall))).
Proof.
  assert (Hs : Q2R 20 <> 0%R) by (unfold Q2R; cbn; lra).
  assert (Hf : Forall finite_point (plan_points (room_and_wall (num := xreal)))).
  { cbn. repeat constructor. }
  assert (Hw : walls (room_and_wall (num := xreal)) <> []) by discriminate.
  split; [exact Hs|]. split; [exact Hf|]. split; [exact Hw|].
  edestruct (wall_projection room_and_wall) with (s := Q2R 20)
    as (x0 & x1 & y0 & y1 & _ & _ & _ & _ & Hb & Hboxes);
    [ reflexivity | reflexivity | exact Hs | exact Hf | exact Hw | ].
  exists x0, x1, y0, y1. split; assumption.
Defined.

(* ================================================================== *)
(** * Further properties of the code *)
(* ================================================================== *)

(** ** Selection and deletion together *)

(** X1.  Selection is sound and complete: it yields "nothing selected"
    exactly when no entity of the plan matches at the point, and an id it
    yields is the id of an entity of the plan that matches. *)
Theorem select_at_sound_complete :
  forall (num : Type) (N : JSNumber num)
         (floorPlan : FloorPlan num) (p : Point num),
    (select_at floorPlan p = None
     <-> forall e, In e (entities_by_priority floorPlan) ->
                   proximity p e = false)
    /\ (forall i, select_at floorPlan p = Some i ->
          exists e, In e (entities_by_priority floorPlan)
                    /\ proximity p e = true /\ entity_id e = i).
Proof.
  intros num N floorPlan p. rewrite select_at_is_hit_test. unfold hit_test.
  split.
  - rewrite <- find_none_iff.
    destruct (find (proximity p) (entities_by_priority floorPlan));
      cbn; split; congruence.
  - intros i Hsel.
    destruct (find (proximity p) (entities_by_priority floorPlan)) as [e|] eqn:E;
      cbn in Hsel; [|discriminate].
    injection Hsel as <-. destruct (find_some _ _ E). eauto.
Qed.

Lemma filter_twice {A : Type} (f : A -> bool) (l : list A) :
  filter f (filter f l) = filter f l.
Proof.
  induction l as [|a l IH]; cbn; [reflexivity|].
  destruct (f a) eqn:E; cbn; [rewrite E; f_equal|]; exact IH.
Qed.

Lemma entities_delete_at {num : Type} `{JSNumber num}
    (floorPlan : FloorPlan num) (p : Point num) (e : Entity) :
  In e (entities_by_priority (delete_at floorPlan p)) ->
  In e (entities_by_priority floorPlan).
Proof.
  unfold entities_by_priority, delete_at.
  cbn [photos models3D cabinets walls rooms doors windows].
  rewrite !in_app_iff, !in_map_iff.
  intros Hin.
  repeat (destruct Hin as [Hin|Hin];
          [ destruct Hin as (a & <- & Ha); apply filter_In in Ha;
            destruct Ha as [Ha _]; eauto 10 | ]);
    try (right).
  all: try (destruct Hin as (a & <- & Ha); apply filter_In in Ha;
            destruct Ha as [Ha _]; eauto 12).
Qed.

(** X2.  Deletion only removes: every entity of the result was in the
    plan, the measurements, the calibration, the metadata, the id and the
    name are kept, and deleting again at the same point changes nothing
    more. *)
Theorem delete_at_only_removes :
  forall (num : Type) (N : JSNumber num)
         (floorPlan : FloorPlan num) (p : Point num),
    (forall e, In e (entities_by_priority (delete_at floorPlan p)) ->
               In e (entities_by_priority floorPlan))
    /\ placed_count (delete_at floorPlan p) <= placed_count floorPlan
    /\ measurements (delete_at floorPlan p) = measurements floorPlan
    /\ scaleCalibration (delete_at floorPlan p) = scaleCalibration floorPlan
    /\ metadata (delete_at floorPlan p) = metadata floorPlan
    /\ delete_at (delete_at floorPlan p) p = delete_at floorPlan p.
Proof.
  intros num N floorPlan p.
  split; [intros e; apply entities_delete_at|].
  split.
  - unfold placed_count, entities_by_priority, delete_at.
    cbn [photos models3D cabinets walls rooms doors windows measurements].
    rewrite !length_app, !length_map.
    pose proof (filter_length_le (photo_keep p) (photos floorPlan)).
    pose proof (filter_length_le (model_keep p) (models3D floorPlan)).
    pose proof (filter_length_le (cabinet_keep p) (cabinets floorPlan)).
    pose proof (filter_length_le (wall_keep p) (walls floorPlan)).
    pose proof (filter_length_le (room_keep p) (rooms floorPlan)).
    pose proof (filter_length_le (door_keep p) (doors floorPlan)).
    pose proof (filter_length_le (window_keep p) (windows floorPlan)).
    lia.
  - repeat split.
    unfold delete_at.
    cbn [id name photos models3D cabinets walls rooms doors windows
            measurements scaleCalibration metadata].
    now rewrite !filter_twice.
Qed.

(** What is kept by the delete branch does not pass the select test, as
    soon as [b <= a] excludes [a < b]. *)
Lemma kept_is_not_hit {num : Type} `{JSNumber num}
    (floorPlan : FloorPlan num) (p : Point num) (e : Entity) :
  (forall a b : num, leb b a = true -> ltb a b = false) ->
  In e (entities_by_priority (delete_at floorPlan p)) ->
  proximity p e = false.
Proof.
  intros Hord.
  unfold entities_by_priority, delete_at.
  cbn [photos models3D cabinets walls rooms doors windows].
  rewrite !in_app_iff, !in_map_iff.
  intros Hin.
  repeat (destruct Hin as [Hin|Hin]);
    destruct Hin as (a & <- & Ha); apply filter_In in Ha;
    destruct Ha as [_ Hkeep]; cbn [proximity].
  - unfold photo_keep in Hkeep. now apply negb_true_iff in Hkeep.
  - unfold model_keep in Hkeep. unfold in_centered_box.
    apply andb_false_iff.
    apply orb_true_iff in Hkeep. destruct Hkeep; [left|right]; now apply Hord.
  - unfold cabinet_keep in Hkeep. unfold in_centered_box.
    apply andb_false_iff.
    apply orb_true_iff in Hkeep. destruct Hkeep; [left|right]; now apply Hord.
  - now apply Hord.
  - unfold room_keep in Hkeep. now apply negb_true_iff in Hkeep.
  - now apply Hord.
  - now apply Hord.
Qed.

(** X3.  After a deletion at a point nothing is left to select there, in
    every number structure where [b <= a] excludes [a < b]. *)
Theorem nothing_selectable_after_delete :
  forall (num : Type) (N : JSNumber num),
    (forall a b : num, leb b a = true -> ltb a b = false) ->
    forall (floorPlan : FloorPlan num) (p : Point num),
      select_at (delete_at floorPlan p) p = None.
Proof.
  intros num N Hord floorPlan p.
  rewrite select_at_is_hit_test. unfold hit_test.
  rewrite (proj2 (find_none_iff _ _)); [reflexivity|].
  intros e He. exact (kept_is_not_hit floorPlan p e Hord He).
Qed.

(** ** Binary64 and extended reals: the order *)

Lemma SFcompare_antisym (a b : spec_float) :
  SFcompare b a = option_map CompOpp (SFcompare a b).
Proof.
  destruct a as [s|s| |s m e], b as [t|t| |t n f]; cbn;
    try reflexivity; try (destruct s; reflexivity);
    try (destruct t; reflexivity); try (destruct s, t; reflexivity).
  destruct s, t; try reflexivity; f_equal.
  - rewrite (Z.compare_antisym e f).
    destruct (e ?= f)%Z; cbn; try reflexivity.
    change (PosDef.Pos.compare_cont Eq n m) with (Pos.compare n m).
    change (PosDef.Pos.compare_cont Eq m n) with (Pos.compare m n).
    now rewrite (Pos.compare_antisym n m), CompOpp_involutive.
  - rewrite (Z.compare_antisym e f).
    destruct (e ?= f)%Z; cbn; try reflexivity.
    change (PosDef.Pos.compare_cont Eq n m) with (Pos.compare n m).
    change (PosDef.Pos.compare_cont Eq m n) with (Pos.compare m n).
    now rewrite (Pos.compare_antisym m n).
Qed.

Lemma F64_le_excludes_gt (a b : float) :
  PrimFloat.leb b a = true -> PrimFloat.ltb a b = false.
Proof.
  rewrite leb_spec, ltb_spec. unfold SFleb, SFltb.
  rewrite (SFcompare_antisym (Prim2SF a) (Prim2SF b)).
  destruct (SFcompare (Prim2SF a) (Prim2SF b)) as [[| |]|]; cbn; congruence.
Qed.

Lemma XR_le_excludes_gt (a b : xreal) :
  XR.leb b a = true -> XR.ltb a b = false.
Proof.
  destruct a as [|s|r], b as [|t|q]; cbn; try congruence.
  - destruct s, t; cbn; congruence.
  - destruct s; cbn; congruence.
  - destruct t; cbn; congruence.
  - rewrite Rleb_negb_Rltb. now intros ->%negb_true_iff.
Qed.

Lemma nothing_selectable_after_delete_witness :
  select_at (delete_at (room_and_wall (num := float)) (pt 50 5)) (pt 50 5) = None
  /\ select_at (delete_at (room_and_wall (num := xreal)) (pt 50 5)) (pt 50 5)
     = None.
Proof.
  split.
  - exact (nothing_selectable_after_delete float Float64 F64_le_excludes_gt
             room_and_wall (pt 50 5)).
  - exact (nothing_selectable_after_delete xreal XReal XR_le_excludes_gt
             room_and_wall (pt 50 5)).
Defined.

(** ** The drag state machine *)

Section Dragging.

Context {num : Type} `{JSNumber num}.

Lemma place_count (t : ToolType) (ct : CabinetType) (now random : string)
    (a b : Point num) (floorPlan : FloorPlan num) :
  placed_count (place t ct now random a b floorPlan)
  = placed_count floorPlan + (if places_entity t then 1 else 0).
Proof.
  unfold placed_count, entities_by_priority.
  destruct t; cbn [place places_entity photos models3D cabinets walls rooms
                     doors windows measurements];
    rewrite ?length_app, ?length_map, ?length_app; cbn [length]; lia.
Qed.

Lemma place_keeps (t : ToolType) (ct : CabinetType) (now random : string)
    (a b : Point num) (floorPlan : FloorPlan num) (e : Entity) :
  In e (entities_by_priority floorPlan) ->
  In e (entities_by_priority (place t ct now random a b floorPlan)).
Proof.
  unfold entities_by_priority.
  destruct t; cbn [place photos models3D cabinets walls rooms doors windows];
    rewrite ?map_app, !in_app_iff; tauto.
Qed.

End Dragging.

(** X4.  A mouse-up that ends a drag hands on a plan with exactly one more
    placed item when the tool in hand is wall, room, door, window, cabinet
    or measure, and with the same number otherwise; nothing that was on the
    plan is lost, the metadata is kept, and the drag state is cleared.  A
    mouse-up with no pan and no drag in progress does nothing. *)
Theorem mouse_up_places_one :
  forall (num : Type) (N : JSNumber num) (st : EditorState (num := num))
         (floorPlan : FloorPlan num) (ct : CabinetType) (now random : string),
    isPanning st = false ->
    (forall a b,
        isDragging st = true -> dragStart st = Some a ->
        currentPoint st = Some b ->
        exists updated,
          changed (handleMouseUp st floorPlan ct now random) = Some updated
          /\ placed_count updated
             = placed_count floorPlan
               + (if places_entity (tool st) then 1 else 0)
          /\ (forall e, In e (entities_by_priority floorPlan) ->
                        In e (entities_by_priority updated))
          /\ metadata updated = metadata floorPlan
          /\ isDragging (next (handleMouseUp st floorPlan ct now random)) = false
          /\ dragStart (next (handleMouseUp st floorPlan ct now random)) = None
          /\ currentPoint (next (handleMouseUp st floorPlan ct now random))
             = None)
    /\ (isDragging st = false ->
        handleMouseUp st floorPlan ct now random
        = {| next := st; changed := None; toast := None |}).
Proof.
  intros num N st floorPlan ct now random Hpan. split.
  - intros a b Hdrag Ha Hb.
    unfold handleMouseUp. rewrite Hpan, Hdrag, Ha, Hb. cbn [changed next].
    eexists. split; [reflexivity|].
    split; [apply place_count|].
    split; [intros e; apply place_keeps|].
    split; [destruct (tool st); reflexivity|].
    repeat split.
  - intros Hdrag. unfold handleMouseUp. now rewrite Hpan, Hdrag.
Qed.

Lemma mouse_up_places_one_witness :
  exists updated,
    changed (handleMouseUp (dragging (num := float) tool_wall (pt 0 0) (pt 60 0))
                           one_wall base "7" "0.5")
    = Some updated
    /\ placed_count updated = placed_count (one_wall (num := float)) + 1.
Proof.
  destruct (proj1 (mouse_up_places_one float Float64
                     (dragging tool_wall (pt 0 0) (pt 60 0))
                     one_wall base "7" "0.5" eq_refl)
              (pt 0 0) (pt 60 0) eq_refl eq_refl eq_refl)
    as (updated & Hc & Hn & _).
  exists updated. split; [exact Hc | exact Hn].
Defined.

(** X5.  Once a mouse-up has ended a pan or a drag, the start point is
    gone, so a scale calibration attempted next is refused with the "draw
    a measurement line" error whatever was typed: the calibration only
    goes through while a drag is still open. *)
Theorem calibration_refused_after_mouse_up :
  forall (num : Type) (N : JSNumber num) (st : EditorState (num := num))
         (floorPlan later : FloorPlan num) (ct : CabinetType)
         (now random : string),
    isPanning st = true
    \/ (isDragging st = true /\ dragStart st <> None
        /\ currentPoint st <> None) ->
    handleSetScale (next (handleMouseUp st floorPlan ct now random)) later
    = {| next := next (handleMouseUp st floorPlan ct now random);
         changed := None;
         toast := Some (toast_error
           "Please draw a measurement line and enter the real-world distance") |}.
Proof.
  intros num N st floorPlan later ct now random Hend.
  unfold handleMouseUp.
  destruct (isPanning st) eqn:Hpan.
  - reflexivity.
  - destruct Hend as [Hend|(Hdrag & Ha & Hb)]; [discriminate|].
    rewrite Hdrag.
    destruct (dragStart st); [|congruence].
    destruct (currentPoint st); [|congruence].
    reflexivity.
Qed.

Lemma calibration_refused_after_mouse_up_witness :
  changed (handleSetScale
             (next (handleMouseUp
                      (dragging (num := float) tool_measure (pt 0 0) (pt 200 0))
                      one_wall base "7" "0.5"))
             one_wall)
  = None.
Proof.
  rewrite (calibration_refused_after_mouse_up float Float64
             (dragging tool_measure (pt 0 0) (pt 200 0))
             one_wall one_wall base "7" "0.5").
  - reflexivity.
  - right. split; [reflexivity|]. split; discriminate.
Defined.

(** Splits the conjunction, decides the tests the handlers make and
    closes what is left by equational reasoning. *)
Ltac split_consistent :=
  repeat match goal with
         | |- _ /\ _ => split
         | |- context [if ?c then _ else _] => destruct c
         | |- context [match ?s with EmptyString => _ | String _ _ => _ end] =>
             destruct s
         end;
  cbn; intuition (congruence || discriminate).

(** X6.  Every handler keeps the drag state consistent: a recorded start
    point belongs to a drag or a pan in progress, and a drag in progress
    has a current point.  In a consistent state a calibration that changes
    the plan was made during an open drag or pan. *)
Theorem drag_state_is_consistent :
  forall (num : Type) (N : JSNumber num) (st : EditorState (num := num))
         (floorPlan : FloorPlan num) (e : MouseEvent)
         (ct : CabinetType) (now random : string),
    drag_consistent st ->
    drag_consistent (next (handleMouseDown st floorPlan e))
    /\ drag_consistent (handleMouseMove st e)
    /\ drag_consistent (next (handleMouseUp st floorPlan ct now random))
    /\ drag_consistent (next (handleSetScale st floorPlan))
    /\ (changed (handleSetScale st floorPlan) <> None ->
        isDragging st = true \/ isPanning st = true).
Proof.
  intros num N st floorPlan e ct now random Hc.
  destruct st as [t dr ds cp sel sg gs po pan sm sd su].
  unfold drag_consistent in *. cbn in Hc.
  unfold handleMouseDown, handleMouseMove, handleMouseUp, handleSetScale.
  cbn [tool isDragging dragStart currentPoint isPanning scaleDistance
         scaleUnit selectedId showGrid gridSize panOffset
         showMeasurementsState].
  destruct dr, pan, ds as [a|], cp as [b|]; split_consistent.
Qed.

Lemma drag_state_is_consistent_witness :
  drag_consistent (dragging (num := float) tool_measure (pt 0 0) (pt 200 0))
  /\ drag_consistent
       (next (handleMouseUp
                (dragging (num := float) tool_measure (pt 0 0) (pt 200 0))
                one_wall base "7" "0.5")).
Proof.
  assert (Hc : drag_consistent
                 (dragging (num := float) tool_measure (pt 0 0) (pt 200 0))).
  { split; cbn; intros; [now left | discriminate]. }
  split; [exact Hc|].
  exact (proj1 (proj2 (proj2
           (drag_state_is_consistent float Float64 _ one_wall
              {| clientX := lit 0; clientY := lit 0;
                 rect_left := lit 0; rect_top := lit 0; button := 0 |}
              base "7" "0.5" Hc)))).
Defined.

(** X7.  The first measurement drawn by hand replaces the generated ones:
    after a drag with the measure tool from [a] to [b] the measurements
    shown are the explicit ones, the earlier ones followed by the new one
    from [a] to [b] labelled with its formatted length, and the generator
    is no longer consulted. *)
Theorem hand_measurement_replaces_generated :
  forall (num : Type) (N : JSNumber num) (st : EditorState (num := num))
         (floorPlan : FloorPlan num) (ct : CabinetType) (now random : string)
         (a b : Point num),
    tool st = tool_measure -> isPanning st = false ->
    isDragging st = true -> dragStart st = Some a -> currentPoint st = Some b ->
    exists updated,
      changed (handleMouseUp st floorPlan ct now random) = Some updated
      /\ measurements_to_draw updated
         = (measurements floorPlan
            ++ [ {| measurement_id := ("measurement-" ++ now)%string;
                    measurement_start := a;
                    measurement_end := b;
                    measurement_label :=
                      Some (formatMeasurement (distance a b)
                              (plan_scale floorPlan) (plan_unit floorPlan));
                    measurement_visible := true |} ])%list.
Proof.
  intros num N st floorPlan ct now random a b Htool Hpan Hdrag Ha Hb.
  unfold handleMouseUp. rewrite Hpan, Hdrag, Ha, Hb, Htool. cbn [changed].
  eexists. split; [reflexivity|].
  rewrite measurements_to_draw_cases. cbn [place measurements].
  destruct (measurements floorPlan); reflexivity.
Qed.

Lemma hand_measurement_replaces_generated_witness :
  exists updated,
    changed (handleMouseUp
               (dragging (num := float) tool_measure (pt 0 0) (pt 0 60))
               one_wall base "7" "0.5")
    = Some updated
    /\ map (@measurement_label float) (measurements_to_draw updated)
       = [Some "3.00 m"%string]
    /\ map (@measurement_label float) (measurements_to_draw one_wall)
       = [Some "5.00 m"%string].
Proof.
  destruct (hand_measurement_replaces_generated float Float64
              (dragging tool_measure (pt 0 0) (pt 0 60))
              one_wall base "7" "0.5" (pt 0 0) (pt 0 60)
              eq_refl eq_refl eq_refl eq_refl eq_refl)
    as (updated & Hc & Hm).
  exists updated. split; [exact Hc|]. rewrite Hm.
  split; vm_compute; reflexivity.
Defined.

(** X8.  A room drawn with the room tool has four corners whatever the
    drag, also when the mouse did not move, so the projection never skips
    it: it emits its floor and then its ceiling, tagged with the room id
    and the room id followed by "-ceiling". *)
Theorem drawn_room_is_projected :
  forall (num : Type) (N : JSNumber num) (st : EditorState (num := num))
         (floorPlan : FloorPlan num) (ct : CabinetType) (now random : string)
         (a b : Point num),
    tool st = tool_room -> isPanning st = false ->
    isDragging st = true -> dragStart st = Some a -> currentPoint st = Some b ->
    exists updated room,
      changed (handleMouseUp st floorPlan ct now random) = Some updated
      /\ rooms updated = (rooms floorPlan ++ [room])%list
      /\ room_points room
         = [a; {| x := x b; y := y a |}; b; {| x := x a; y := y b |}]
      /\ forall (sc : num) (bnds : Bounds num),
           map (fun m => (mesh_type m, mesh_id m)) (convert_room sc bnds room)
           = [ (mesh_floor, ("room-" ++ now)%string);
               (mesh_ceiling, ("room-" ++ now ++ "-ceiling")%string) ].
Proof.
  intros num N st floorPlan ct now random a b Htool Hpan Hdrag Ha Hb.
  unfold handleMouseUp. rewrite Hpan, Hdrag, Ha, Hb, Htool. cbn [changed].
  eexists _, _. split; [reflexivity|]. cbn [place rooms].
  split; [reflexivity|]. cbn [room_points].
  split; [reflexivity|].
  intros sc bnds. reflexivity.
Qed.

Lemma drawn_room_is_projected_witness :
  exists updated room,
    changed (handleMouseUp
               (dragging (num := float) tool_room (pt 20 20) (pt 20 20))
               one_wall base "7" "0.5")
    = Some updated
    /\ rooms updated = [room]
    /\ length (convert_room (lit 1) (calculate_bounds updated) room) = 2.
Proof.
  destruct (drawn_room_is_projected float Float64
              (dragging tool_room (pt 20 20) (pt 20 20))
              one_wall base "7" "0.5" (pt 20 20) (pt 20 20)
              eq_refl eq_refl eq_refl eq_refl eq_refl)
    as (updated & room & Hc & Hr & _ & Hm).
  exists updated, room. split; [exact Hc|]. split; [exact Hr|].
  rewrite <- (length_map (fun m => (mesh_type m, mesh_id m))), Hm.
  reflexivity.
Defined.

(** ** Order and ownership of the descriptors *)

Lemma flat_map_map_tags {A B C : Type} (f : B -> C) (g : A -> list B)
    (l : list A) :
  map f (flat_map g l) = flat_map (fun a => map f (g a)) l.
Proof.
  induction l as [|a l IH]; cbn; [reflexivity|].
  now rewrite map_app, IH.
Qed.

(** X9.  The descriptors come in a fixed order, each tagged with its
    entity: one [wall] per wall; then per room with at least three points
    a [floor] and a [ceiling], nothing for a room with fewer; then one
    [door] per door, one [window] per window; per cabinet a [cabinet] body
    and, unless it is an island, its "-handle"; last one [model3d] per
    model marker.  Photos and measurements give no descriptor. *)
Theorem descriptors_in_order :
  forall (num : Type) (N : JSNumber num) (floorPlan : FloorPlan num),
    map (fun m => (mesh_type m, mesh_id m))
        (meshes (convertFloorPlanTo3D floorPlan))
    = (map (fun w => (mesh_wall, wall_id w)) (walls floorPlan)
       ++ flat_map room_tags (rooms floorPlan)
       ++ map (fun d => (mesh_door, door_id d)) (doors floorPlan)
       ++ map (fun w => (mesh_window, window_id w)) (windows floorPlan)
       ++ flat_map cabinet_tags (cabinets floorPlan)
       ++ map (fun m => (mesh_model3d, model_id m)) (models3D floorPlan))%list.
Proof.
  intros num N floorPlan.
  unfold convertFloorPlanTo3D. cbn [meshes].
  rewrite !map_app, !map_map, !flat_map_map_tags.
  f_equal. f_equal; [|f_equal; f_equal; f_equal].
  - apply flat_map_ext_in. intros room _. unfold convert_room, room_tags.
    destruct (length (room_points room) <? 3); reflexivity.
  - apply flat_map_ext_in. intros c _. unfold convert_cabinet, cabinet_tags.
    destruct (cabinet_type c); reflexivity.
Qed.

(** ** The geometry kernel on real coordinates *)

Lemma XR_sub_swap (a b : xreal) : XR.sub a b = XR.neg (XR.sub b a).
Proof.
  destruct a as [|s|r], b as [|t|q]; cbn; try reflexivity.
  - destruct s, t; reflexivity.
  - now rewrite negb_involutive.
  - f_equal. ring.
Qed.

Lemma XR_square_neg (a : xreal) : XR.mul (XR.neg a) (XR.neg a) = XR.mul a a.
Proof.
  destruct a as [|s|r]; cbn; [reflexivity | destruct s; reflexivity |].
  f_equal. ring.
Qed.

Lemma distance_real (ax ay bx by_ : R) :
  distance (real_point ax ay) (real_point bx by_)
  = XFin (dist_euc bx by_ ax ay).
Proof.
  unfold real_point. rewrite distance_finite. unfold dist_euc, Rsqr.
  reflexivity.
Qed.

(** X10.  [distance] is symmetric for all numbers, and on real coordinates
    it is a metric: a real that is never negative, zero exactly between a
    point and itself, and obeying the triangle inequality. *)
Theorem distance_is_a_metric :
  (forall a b : Point xreal, distance a b = distance b a)
  /\ (forall ax ay bx by_ : R,
        exists d : R,
          distance (real_point ax ay) (real_point bx by_) = XFin d
          /\ (0 <= d)%R
          /\ (d = 0%R <-> ax = bx /\ ay = by_))
  /\ (forall ax ay bx by_ cx cy : R,
        exists dab dbc dac : R,
          distance (real_point ax ay) (real_point bx by_) = XFin dab
          /\ distance (real_point bx by_) (real_point cx cy) = XFin dbc
          /\ distance (real_point ax ay) (real_point cx cy) = XFin dac
          /\ (dac <= dab + dbc)%R).
Proof.
  split; [|split].
  - intros a b. unfold distance. cbn [sub add pow2 Math_sqrt XReal].
    rewrite (XR_sub_swap (x b) (x a)), (XR_sub_swap (y b) (y a)).
    now rewrite !XR_square_neg.
  - intros ax ay bx by_. exists (dist_euc bx by_ ax ay).
    split; [apply distance_real|]. unfold dist_euc.
    split; [apply sqrt_pos|]. split.
    + intros E.
      apply sqrt_eq_0 in E; [|apply Rplus_le_le_0_compat; apply Rle_0_sqr].
      apply Rplus_sqr_eq_0 in E. destruct E. split; lra.
    + intros [-> ->]. unfold Rsqr.
      replace ((bx - bx) * (bx - bx) + (by_ - by_) * (by_ - by_))%R with 0%R
        by ring.
      apply sqrt_0.
  - intros ax ay bx by_ cx cy.
    exists (dist_euc bx by_ ax ay), (dist_euc cx cy bx by_),
           (dist_euc cx cy ax ay).
    rewrite !distance_real. repeat split.
    rewrite (distance_symm cx cy ax ay), (distance_symm bx by_ ax ay),
            (distance_symm cx cy bx by_).
    apply triangle.
Qed.

(** X11.  On real coordinates, snapping to the grid is idempotent for
    every grid size, the degenerate size 0 included: a snapped point snaps
    to itself. *)
Theorem snapToGrid_idempotent :
  forall px py g : R,
    snapToGrid (snapToGrid (real_point px py) (XFin g)) (XFin g)
    = snapToGrid (real_point px py) (XFin g).
Proof.
  intros px py g. unfold snapToGrid, real_point.
  cbn [x y div mul Math_round XReal XR.div].
  destruct (XR.Reqb g 0) eqn:Eg.
  - apply Reqb_true in Eg. subst g.
    assert (Hfix : forall c : R,
               let v := XR.mul (XR.round (if XR.Reqb c 0 then XNaN
                                          else XInf (XR.Rltb c 0))) (XFin 0) in
               v = XNaN).
    { intros c. destruct (XR.Reqb c 0); cbn;
        rewrite ?(proj2 (Reqb_true 0 0) eq_refl); reflexivity. }
    cbn zeta in Hfix. rewrite !Hfix. reflexivity.
  - apply Reqb_false in Eg. cbn [XR.round XR.mul XR.div].
    rewrite (proj2 (Reqb_false g 0) Eg). cbn [XR.round XR.mul].
    assert (Hk : forall k : Z, Zfloor (IZR k * g / g + / 2) = k).
    { intros k. apply Zfloor_eq.
      replace (IZR k * g / g)%R with (IZR k) by (field; exact Eg). lra. }
    now rewrite !Hk.
Qed.

(** X12.  On real numbers and a non-zero scale, converting pixels to a
    real-world value and back gives the pixels again, in each unit. *)
Theorem pixel_round_trip :
  forall (px s : R) (u : Unit_),
    s <> 0%R ->
    convertRealWorldToPixels
      (convertPixelsToRealWorld (XFin px) (XFin s) u) (XFin s) u
    = XFin px.
Proof.
  intros px s u Hs.
  assert (Hs0 : XR.Reqb s 0 = false) by now apply Reqb_false.
  pose proof feet_factor_nonzero as Hf.
  pose proof inches_factor_nonzero as Hi.
  destruct u; unfold convertPixelsToRealWorld, convertRealWorldToPixels;
    cbn [div mul lit XReal XR.div XR.mul]; rewrite Hs0; cbn [XR.mul XR.div].
  - f_equal. now field.
  - rewrite (proj2 (Reqb_false _ _) Hf). cbn [XR.mul]. f_equal. now field.
  - rewrite (proj2 (Reqb_false _ _) Hi). cbn [XR.mul]. f_equal. now field.
Qed.

Lemma pixel_round_trip_witness :
  convertRealWorldToPixels
    (convertPixelsToRealWorld (XFin 100) (XFin 20) inches) (XFin 20) inches
  = XFin 100.
Proof. apply pixel_round_trip. lra. Defined.

Lemma square_nonneg (a : R) : (0 <= a * a)%R.
Proof. exact (Rle_0_sqr a). Qed.

Lemma Q2R_one : Q2R 1 = 1%R.
Proof. unfold Q2R. cbn. lra. Qed.

(** The squared distance from [(A, B)] to the point at parameter [t] of
    the segment from the origin to [(C, D)] is least at the clamped
    projection parameter. *)
Lemma clamped_projection_least (A B C D t : R) :
  (0 <= t <= 1)%R ->
  let L := (C * C + D * D)%R in
  let dot := (A * C + B * D)%R in
  let sq u := ((A - u * C) * (A - u * C) + (B - u * D) * (B - u * D))%R in
  (L = 0%R -> sq 0 <= sq t)%R
  /\ (L <> 0%R -> dot / L < 0 -> sq 0 <= sq t)%R
  /\ (L <> 0%R -> 1 < dot / L -> sq 1 <= sq t)%R
  /\ (L <> 0%R -> sq (dot / L) <= sq t)%R.
Proof.
  intros Ht L dot sq. subst sq. cbn beta.
  assert (EL : L = (C * C + D * D)%R) by reflexivity.
  assert (Edot : dot = (A * C + B * D)%R) by reflexivity.
  clearbody L dot.
  assert (HL : (0 <= L)%R) by (rewrite EL; nra).
  assert (Hexp : forall u : R,
             ((A - u * C) * (A - u * C) + (B - u * D) * (B - u * D)
              = A * A + B * B - 2 * u * dot + u * u * L)%R).
  { intros u. rewrite EL, Edot. ring. }
  rewrite !Hexp.
  repeat split.
  - intros E. assert (C = 0%R /\ D = 0%R) as [-> ->] by (split; nra).
    rewrite Edot. nra.
  - intros Hne Hq. remember (dot / L)%R as q eqn:Eq.
    assert (Hdot : dot = (q * L)%R) by (rewrite Eq; field; exact Hne).
    assert (Hd : (dot < 0)%R) by (rewrite Hdot; nra).
    nra.
  - intros Hne Hq. remember (dot / L)%R as q eqn:Eq.
    assert (Hdot : dot = (q * L)%R) by (rewrite Eq; field; exact Hne).
    assert (Hd : (L < dot)%R) by (rewrite Hdot; nra).
    assert (H1 : ((t + 1) * L <= 2 * L)%R) by nra.
    assert (Hk : (0 <= (1 - t) * (2 * dot - (t + 1) * L))%R)
      by (apply Rmult_le_pos; lra).
    nra.
  - intros Hne. remember (dot / L)%R as q eqn:Eq.
    assert (Hdot : dot = (q * L)%R) by (rewrite Eq; field; exact Hne).
    assert (Hk : (0 <= L * ((t - q) * (t - q)))%R)
      by (apply Rmult_le_pos; [exact HL | apply square_nonneg]).
    rewrite Hdot. nra.
Qed.

Lemma distance_to_segment_point (px py ax ay bx by_ t : R) :
  distance (real_point px py) (on_segment ax ay bx by_ t)
  = XFin (R_sqrt.sqrt
            ((px - ax - t * (bx - ax)) * (px - ax - t * (bx - ax))
             + (py - ay - t * (by_ - ay)) * (py - ay - t * (by_ - ay)))).
Proof.
  unfold on_segment, real_point. rewrite distance_finite.
  do 2 f_equal. ring.
Qed.

(** The foot of the distance: the parameter the code clamps to. *)
Lemma pointToLineDistance_foot (px py ax ay bx by_ : R) :
  exists t0 : R,
    (0 <= t0 <= 1)%R
    /\ pointToLineDistance (real_point px py) (real_point ax ay)
                           (real_point bx by_)
       = distance (real_point px py) (on_segment ax ay bx by_ t0)
    /\ (ax = bx -> ay = by_ -> t0 = 0%R)
    /\ forall t : R,
         (0 <= t <= 1)%R ->
         ((px - ax - t0 * (bx - ax)) * (px - ax - t0 * (bx - ax))
          + (py - ay - t0 * (by_ - ay)) * (py - ay - t0 * (by_ - ay))
          <= (px - ax - t * (bx - ax)) * (px - ax - t * (bx - ax))
             + (py - ay - t * (by_ - ay)) * (py - ay - t * (by_ - ay)))%R.
Proof.
  pose proof (fun t Ht =>
                clamped_projection_least (px - ax) (py - ay) (bx - ax)
                                         (by_ - ay) t Ht) as Hleast.
  cbn beta zeta in Hleast.
  unfold pointToLineDistance, real_point.
  cbn [x y sub add mul div neg lit eqb ltb Math_sqrt XReal
         XR.sub XR.add XR.neg XR.mul XR.eqb XR.div XR.ltb].
  rewrite Q2R_zero, Q2R_one.
  change (bx + - ax)%R with (bx - ax)%R.
  change (by_ + - ay)%R with (by_ - ay)%R.
  change (px + - ax)%R with (px - ax)%R.
  change (py + - ay)%R with (py - ay)%R.
  set (L := ((bx - ax) * (bx - ax) + (by_ - ay) * (by_ - ay))%R) in *.
  set (dot := ((px - ax) * (bx - ax) + (py - ay) * (by_ - ay))%R) in *.
  destruct (XR.Reqb L 0) eqn:E0; cbn [negb XR.div XR.neg XR.ltb].
  - apply Reqb_true in E0.
    rewrite (proj2 (Rltb_true (Ropp 1) 0)) by lra.
    exists 0%R. split; [lra|]. split.
    + fold (real_point px py). cbn [XR.add XR.mul XR.neg].
      rewrite distance_to_segment_point, sqrt_sum_squares_finite.
      do 2 f_equal. ring.
    + split; [reflexivity|].
      intros t Ht. exact (proj1 (Hleast t Ht) E0).
  - apply Reqb_false in E0.
    assert (Hdistinct : ax = bx -> ay = by_ -> False).
    { intros -> ->. apply E0. subst L. ring. }
    destruct (XR.Rltb (dot / L) 0) eqn:Elo.
    + apply Rltb_true in Elo. exists 0%R. split; [lra|]. split.
      * fold (real_point px py). cbn [XR.add XR.mul XR.neg].
      rewrite distance_to_segment_point, sqrt_sum_squares_finite.
        do 2 f_equal. ring.
      * split; [intros; exfalso; auto|].
        intros t Ht. exact (proj1 (proj2 (Hleast t Ht)) E0 Elo).
    + apply Rltb_false in Elo.
      destruct (XR.Rltb 1 (dot / L)) eqn:Ehi.
      * apply Rltb_true in Ehi. exists 1%R. split; [lra|]. split.
        -- fold (real_point px py). cbn [XR.add XR.mul XR.neg].
      rewrite distance_to_segment_point, sqrt_sum_squares_finite.
           do 2 f_equal. ring.
        -- split; [intros; exfalso; auto|].
           intros t Ht.
           exact (proj1 (proj2 (proj2 (Hleast t Ht))) E0 Ehi).
      * apply Rltb_false in Ehi. exists (dot / L)%R. split; [lra|]. split.
        -- cbn [XR.add XR.mul XR.neg].
           fold (real_point px py). cbn [XR.add XR.mul XR.neg].
      rewrite distance_to_segment_point, sqrt_sum_squares_finite.
           do 2 f_equal. ring.
        -- split; [intros; exfalso; auto|].
           intros t Ht. exact (proj2 (proj2 (proj2 (Hleast t Ht))) E0).
Qed.

(** X13.  On real coordinates [pointToLineDistance] is the distance from
    the point to the nearest point of the segment: it is the distance to
    some point of the segment and no point of the segment is nearer.  For
    a segment whose ends coincide it is the distance to that end. *)
Theorem pointToLineDistance_is_least :
  forall px py ax ay bx by_ : R,
    exists (d t0 : R),
      pointToLineDistance (real_point px py) (real_point ax ay)
                          (real_point bx by_) = XFin d
      /\ (0 <= t0 <= 1)%R
      /\ distance (real_point px py) (on_segment ax ay bx by_ t0) = XFin d
      /\ (forall t : R,
            (0 <= t <= 1)%R ->
            exists dt : R,
              distance (real_point px py) (on_segment ax ay bx by_ t) = XFin dt
              /\ (d <= dt)%R)
      /\ (ax = bx -> ay = by_ ->
          pointToLineDistance (real_point px py) (real_point ax ay)
                              (real_point bx by_)
          = distance (real_point px py) (real_point ax ay)).
Proof.
  intros px py ax ay bx by_.
  destruct (pointToLineDistance_foot px py ax ay bx by_)
    as (t0 & Ht0 & Hfoot & Hdeg & Hleast).
  eexists _, t0. split.
  - rewrite Hfoot. apply distance_to_segment_point.
  - split; [exact Ht0|]. split; [apply distance_to_segment_point|]. split.
    + intros t Ht. eexists. split; [apply distance_to_segment_point|].
      apply sqrt_le_1_alt. exact (Hleast t Ht).
    + intros Hx Hy. rewrite Hfoot, (Hdeg Hx Hy).
      unfold on_segment. f_equal; unfold real_point; f_equal; f_equal; ring.
Qed.

Lemma pointToLineDistance_is_least_witness :
  pointToLineDistance (real_point 3 4) (real_point 0 0) (real_point 0 0)
  = distance (real_point 3 4) (real_point 0 0).
Proof.
  destruct (pointToLineDistance_is_least 3 4 0 0 0 0)
    as (d & t0 & _ & _ & _ & _ & Hdeg).
  exact (Hdeg eq_refl eq_refl).
Defined.

(** ** Nearest-point search *)

Lemma distance_is_real (p q : Point xreal) :
  finite_point p -> finite_point q ->
  distance p q = XFin (real_of (distance p q)).
Proof.
  intros Hp Hq.
  destruct (finite_point_inv p Hp) as (px & py & ->).
  destruct (finite_point_inv q Hq) as (qx & qy & ->).
  now rewrite distance_finite.
Qed.

Lemma nearest_so_far_step (p : Point xreal) (th : R)
    (seen : list (Point xreal)) (st : option (Point xreal) * xreal)
    (c : Point xreal) :
  finite_point p -> finite_point c ->
  nearest_so_far p th seen st ->
  nearest_so_far p th (seen ++ [c])
    (let dist := distance p c in
     if ltb dist (snd st) then (Some c, dist) else st).
Proof.
  intros Hp Hc (m & Hm & Hst). unfold nearest_so_far. cbn zeta.
  pose proof (distance_is_real p c Hp Hc) as Ec.
  remember (real_of (distance p c)) as dc eqn:Edc.
  rewrite Ec, Hm. cbn [ltb XReal XR.ltb].
  destruct (XR.Rltb dc m) eqn:E.
  - apply Rltb_true in E. exists dc. split; [reflexivity|].
    cbn [fst]. exists seen, []. split; [reflexivity|].
    rewrite Ec. cbn [real_of]. split; [reflexivity|].
    destruct (fst st) as [q|].
    + destruct Hst as (before & after & -> & -> & Hth & Hb & Ha).
      split; [lra|]. split; [|intros ? []].
      intros q' Hq'. apply in_app_or in Hq'.
      destruct Hq' as [Hq'|[<-|Hq']].
      * specialize (Hb q' Hq'). lra.
      * exact E.
      * specialize (Ha q' Hq'). lra.
    + destruct Hst as (-> & Hall).
      split; [exact E|]. split; [|intros ? []].
      intros q' Hq'. specialize (Hall q' Hq'). lra.
  - apply Rltb_false in E. exists m. split; [exact Hm|].
    destruct (fst st) as [q|].
    + destruct Hst as (before & after & -> & -> & Hth & Hb & Ha).
      exists before, (after ++ [c]).
      split; [now rewrite <- app_assoc|]. split; [reflexivity|].
      split; [exact Hth|]. split; [exact Hb|].
      intros q' Hq'. apply in_app_or in Hq'. destruct Hq' as [Hq'|[<-|[]]].
      * exact (Ha q' Hq').
      * rewrite <- Edc. exact E.
    + destruct Hst as (-> & Hall). split; [reflexivity|].
      intros q' Hq'. apply in_app_or in Hq'. destruct Hq' as [Hq'|[<-|[]]].
      * exact (Hall q' Hq').
      * rewrite <- Edc. exact E.
Qed.

Lemma nearest_so_far_fold (p : Point xreal) (th : R)
    (rest seen : list (Point xreal)) (st : option (Point xreal) * xreal) :
  finite_point p -> Forall finite_point rest ->
  nearest_so_far p th seen st ->
  nearest_so_far p th (seen ++ rest)
    (fold_left (fun (st : option (Point xreal) * xreal) c =>
                  let dist := distance p c in
                  if ltb dist (snd st) then (Some c, dist) else st)
               rest st).
Proof.
  intros Hp. revert seen st.
  induction rest as [|c rest IH]; intros seen st Hrest Hst.
  - now rewrite app_nil_r.
  - inversion Hrest as [|? ? Hc Hrest']; subst. cbn [fold_left].
    replace (seen ++ c :: rest) with ((seen ++ [c]) ++ rest)
      by now rewrite <- app_assoc.
    apply IH; [exact Hrest'|].
    now apply nearest_so_far_step.
Qed.

(** X14.  On real coordinates and a real threshold, [findNearestPoint]
    returns nothing exactly when every candidate is at the threshold
    distance or farther; otherwise it returns a candidate strictly inside
    the threshold that no candidate is nearer than, and among equally near
    ones the first in the list. *)
Theorem findNearestPoint_finds_the_nearest :
  forall (p : Point xreal) (points : list (Point xreal)) (th : R),
    finite_point p -> Forall finite_point points ->
    let d q := real_of (distance p q) in
    match findNearestPoint p points (XFin th) with
    | None => forall q, In q points -> (th <= d q)%R
    | Some q =>
        exists before after,
          points = (before ++ q :: after)%list
          /\ (d q < th)%R
          /\ (forall q', In q' before -> (d q < d q')%R)
          /\ (forall q', In q' after -> (d q <= d q')%R)
    end.
Proof.
  intros p points th Hp Hpts d.
  pose proof (nearest_so_far_fold p th points [] (None, XFin th) Hp Hpts) as H.
  unfold findNearestPoint.
  destruct H as (m & Hm & Hst).
  { exists th. split; [reflexivity|]. split; [reflexivity|]. intros q []. }
  cbn [app] in Hst.
  destruct (fst (fold_left _ points (None, XFin th))) as [q|].
  - destruct Hst as (before & after & E & _ & Hth & Hb & Ha).
    exists before, after. auto.
  - exact (proj2 Hst).
Qed.

Lemma findNearestPoint_finds_the_nearest_witness :
  finite_point (real_point 0 0)
  /\ Forall finite_point [real_point 3 4; real_point 1 0; real_point 0 1]
  /\ match findNearestPoint (real_point 0 0)
             [real_point 3 4; real_point 1 0; real_point 0 1] (XFin 2) with
     | None => False
     | Some q => In q [real_point 3 4; real_point 1 0; real_point 0 1]
     end.
Proof.
  assert (Hp : finite_point (real_point 0 0)) by (split; exact I).
  assert (Hl : Forall finite_point
                 [real_point 3 4; real_point 1 0; real_point 0 1])
    by (repeat constructor).
  split; [exact Hp|]. split; [exact Hl|].
  pose proof (findNearestPoint_finds_the_nearest (real_point 0 0) _ 2 Hp Hl)
    as H.
  cbn zeta in H.
  destruct (findNearestPoint (real_point 0 0)
              [real_point 3 4; real_point 1 0; real_point 0 1] (XFin 2)) as [q|].
  - destruct H as (before & after & E & _). rewrite E.
    apply in_or_app. right. now left.
  - specialize (H (real_point 1 0) (or_intror (or_introl eq_refl))).
    rewrite distance_real in H. cbn [real_of] in H.
    unfold dist_euc in H.
    replace ((1 - 0)² + (0 - 0)²)%R with 1%R in H by (unfold Rsqr; ring).
    rewrite sqrt_1 in H. lra.
Defined.

(** ** Point in polygon *)

Lemma crossing_real (px py xi yi xj yj : R) (polygon : list (Point xreal))
    (i j : nat) (inside : bool) :
  nth_error polygon i = Some (real_point xi yi) ->
  nth_error polygon j = Some (real_point xj yj) ->
  crossing (real_point px py) polygon (j, inside) i
  = (i, xorb inside (edge_crosses px py xi yi xj yj)).
Proof.
  intros Hi Hj. unfold crossing. rewrite Hi, Hj. unfold real_point.
  cbn [x y sub add mul div ltb XReal XR.sub XR.add XR.neg XR.mul XR.ltb].
  unfold edge_crosses. f_equal.
  change (yj + - yi)%R with (yj - yi)%R. change (xj + - xi)%R with (xj - xi)%R.
  change (py + - yi)%R with (py - yi)%R.
  destruct (XR.Reqb (yj - yi) 0) eqn:E0.
  - apply Reqb_true in E0. assert (yj = yi) as -> by lra.
    rewrite xorb_nilpotent. cbn [andb]. now destruct inside.
  - cbn [XR.div]. rewrite E0. cbn [XR.add XR.ltb].
    destruct (xorb _ _ && _); destruct inside; reflexivity.
Qed.

Lemma edge_crosses_level (px py xi xj yy : R) :
  edge_crosses px py xi yy xj yy = false.
Proof. unfold edge_crosses. now rewrite xorb_nilpotent. Qed.

Lemma edge_crosses_swap (px py xi yi xj yj : R) :
  edge_crosses px py xj yj xi yi = edge_crosses px py xi yi xj yj.
Proof.
  unfold edge_crosses. rewrite (xorb_comm (XR.Rltb py yj)).
  destruct (xorb (XR.Rltb py yi) (XR.Rltb py yj)) eqn:E; [|reflexivity].
  cbn [andb]. f_equal.
  assert (yi <> yj).
  { intros ->. now rewrite xorb_nilpotent in E. }
  field. split; lra.
Qed.

(** X15.  For every number structure [isPointInPolygon] answers false
    for the empty polygon and for a single point.  For two points it
    answers false in exact real arithmetic, where the two passes over the
    one edge cancel.  On binary64 they need not cancel: each pass computes
    the crossing abscissa from its own end of the edge, the two roundings
    differ, and [(1/3, 1)] is found inside the polygon [(0, 0), (1, 3)]. *)
Theorem short_polygon_containment :
  (forall (num : Type) (N : JSNumber num) (p : Point num)
          (polygon : list (Point num)),
      length polygon <= 1 -> isPointInPolygon p polygon = false)
  /\ (forall px py ax ay bx by_ : R,
        isPointInPolygon (real_point px py)
                         [real_point ax ay; real_point bx by_] = false)
  /\ isPointInPolygon (pt (num := float) (1 # 3) 1) [pt 0 0; pt 1 3] = true.
Proof.
  split; [|split].
  - intros num N p [|a [|b polygon]] Hlen; [reflexivity| |cbn in Hlen; lia].
    unfold isPointInPolygon. cbn. now rewrite xorb_nilpotent.
  - intros px py ax ay bx by_. unfold isPointInPolygon.
    cbn [length seq fold_left Nat.sub].
    do 2 (erewrite crossing_real; [|reflexivity|reflexivity]).
    cbn [snd]. rewrite (edge_crosses_swap px py ax ay bx by_).
    now destruct (edge_crosses px py ax ay bx by_).
  - vm_compute. reflexivity.
Qed.

Lemma short_polygon_containment_witness :
  isPointInPolygon (pt 0 0) [pt (num := float) 0 0] = false.
Proof.
  apply (proj1 short_polygon_containment float Float64). cbn. lia.
Defined.

Lemma rectangle_crossings (px py ax ay cx cy : R) :
  isPointInPolygon (real_point px py)
    [real_point ax ay; real_point cx ay; real_point cx cy; real_point ax cy]
  = xorb (edge_crosses px py ax ay ax cy) (edge_crosses px py cx cy cx ay).
Proof.
  unfold isPointInPolygon. cbn [length seq fold_left Nat.sub].
  do 4 (erewrite crossing_real; [|reflexivity|reflexivity]).
  cbn [snd]. now rewrite !edge_crosses_level, !xorb_false_r, xorb_false_l.
Qed.

(** The two upright sides of a rectangle are crossed an odd number of
    times exactly from the half-open box between them. *)
Lemma upright_sides_crossed_once (px py ax ay cx cy : R) :
  xorb (edge_crosses px py ax ay ax cy) (edge_crosses px py cx cy cx ay) = true
  <-> (Rmin ax cx <= px < Rmax ax cx)%R /\ (Rmin ay cy <= py < Rmax ay cy)%R.
Proof.
  unfold edge_crosses.
  replace ((ax - ax) * (py - ay) / (cy - ay) + ax)%R with ax
    by (unfold Rdiv; ring).
  replace ((cx - cx) * (py - cy) / (ay - cy) + cx)%R with cx
    by (unfold Rdiv; ring).
  unfold XR.Rltb, Rmin, Rmax.
  destruct (Rlt_dec py ay), (Rlt_dec py cy), (Rlt_dec px ax), (Rlt_dec px cx),
    (Rle_dec ax cx), (Rle_dec ay cy); cbn;
    split;
    first [ intros H; discriminate H
          | intros _; reflexivity
          | intros _; repeat split; lra
          | intros [[? ?] [? ?]]; lra ].
Qed.

(** X16.  On real coordinates, the rectangle the room tool draws between
    the corners [(ax, ay)] and [(cx, cy)] contains exactly the points of
    the half-open box between them: the lower bound of each coordinate is
    included, the upper one is not. *)
Theorem rectangle_is_half_open :
  forall px py ax ay cx cy : R,
    isPointInPolygon (real_point px py)
      [real_point ax ay; real_point cx ay; real_point cx cy; real_point ax cy]
    = true
    <-> (Rmin ax cx <= px < Rmax ax cx)%R /\ (Rmin ay cy <= py < Rmax ay cy)%R.
Proof.
  intros px py ax ay cx cy. rewrite rectangle_crossings.
  apply upright_sides_crossed_once.
Qed.

(** ** Room templates and toolbar additions *)

Lemma template_size_positive (kind : RoomKind) :
  (0 < fst (template_size kind))%R /\ (0 < snd (template_size kind))%R.
Proof. destruct kind; cbn; unfold Q2R; cbn; lra. Qed.

Lemma template_corners (suffix : string) (kind : RoomKind) (cx cy s : R) :
  room_points (generateRoomTemplate suffix kind (XFin cx) (XFin cy) (XFin s))
  = let w := (fst (template_size kind) * s)%R in
    let h := (snd (template_size kind) * s)%R in
    [ real_point (cx - w / 2) (cy - h / 2);
      real_point (cx + w / 2) (cy - h / 2);
      real_point (cx + w / 2) (cy + h / 2);
      real_point (cx - w / 2) (cy + h / 2) ].
Proof.
  destruct kind; unfold generateRoomTemplate, template_size;
    cbn [templates room_points fst snd real_of lit mul XReal XR.mul];
    cbn [div XReal]; rewrite !half_finite, Q2R_two; reflexivity.
Qed.

(** X17.  On real coordinates and a positive scale, a room made from a
    template of [W] by [H] meters around [(cx, cy)] contains exactly the
    points of the half-open box of width [W * scale] and height
    [H * scale] centred there; the sizes are 5 by 6 (living), 4 by 4
    (bedroom), 4 by 3 (kitchen) and 2 by 2.5 (bathroom). *)
Theorem template_room_extent :
  forall (suffix : string) (kind : RoomKind) (cx cy s px py : R),
    (0 < s)%R ->
    let w := (fst (template_size kind) * s)%R in
    let h := (snd (template_size kind) * s)%R in
    map template_size [living; bedroom; kitchen; bathroom]
    = [(Q2R 5, Q2R 6); (Q2R 4, Q2R 4); (Q2R 4, Q2R 3); (Q2R 2, Q2R 2.5)]
    /\ (isPointInPolygon
          (real_point px py)
          (room_points
             (generateRoomTemplate suffix kind (XFin cx) (XFin cy) (XFin s)))
        = true
        <-> (cx - w / 2 <= px < cx + w / 2)%R
            /\ (cy - h / 2 <= py < cy + h / 2)%R).
Proof.
  intros suffix kind cx cy s px py Hs w h.
  split; [reflexivity|].
  rewrite template_corners. cbn zeta. fold w h.
  rewrite rectangle_crossings, upright_sides_crossed_once.
  destruct (template_size_positive kind) as [Hw Hh].
  assert (0 < w)%R by (apply Rmult_lt_0_compat; assumption).
  assert (0 < h)%R by (apply Rmult_lt_0_compat; assumption).
  clearbody w h. unfold Rmin, Rmax.
  destruct (Rle_dec (cx - w / 2) (cx + w / 2)),
           (Rle_dec (cy - h / 2) (cy + h / 2)); split; intros; lra.
Qed.

Lemma template_room_extent_witness :
  isPointInPolygon
    (real_point 100 100)
    (room_points
       (generateRoomTemplate "7-0.5" kitchen (XFin 100) (XFin 100) (XFin 20)))
  = true.
Proof.
  apply (template_room_extent "7-0.5" kitchen 100 100 20 100 100); [lra|].
  cbn [template_size templates real_of lit XReal fst snd].
  unfold Q2R; cbn; lra.
Defined.

Lemma select_at_none_inv {num : Type} `{JSNumber num}
    (floorPlan : FloorPlan num) (p : Point num) :
  select_at floorPlan p = None ->
  find (photo_hit p) (photos floorPlan) = None
  /\ find (model_hit p) (models3D floorPlan) = None
  /\ find (cabinet_hit p) (cabinets floorPlan) = None
  /\ find (wall_hit p) (walls floorPlan) = None
  /\ find (room_hit p) (rooms floorPlan) = None.
Proof.
  unfold select_at.
  destruct (find (photo_hit p) (photos floorPlan)); [discriminate|].
  destruct (find (model_hit p) (models3D floorPlan)); [discriminate|].
  destruct (find (cabinet_hit p) (cabinets floorPlan)); [discriminate|].
  destruct (find (wall_hit p) (walls floorPlan)); [discriminate|].
  destruct (find (room_hit p) (rooms floorPlan)); [discriminate|].
  intros _. repeat split.
Qed.

(** The middle of the visible canvas, in plan coordinates. *)
Lemma canvas_middle (size offset : R) :
  XR.sub (XR.div (XFin size) (XFin (Q2R 2))) (XFin offset)
  = XFin (size / 2 - offset).
Proof. now rewrite half_finite, Q2R_two. Qed.

(** X18.  On real coordinates, the toolbar adds a template room after the
    rooms of the plan, named by the given suffix and centred on the middle
    of the visible canvas: its label is drawn there, and where nothing
    could be selected before, a click there selects the new room. *)
Theorem added_room_is_centred :
  forall (st : EditorState (num := xreal)) (floorPlan : FloorPlan xreal)
         (width height px py : R) (suffix : string) (kind : RoomKind),
    panOffset st = real_point px py ->
    let centre := real_point (width / 2 - px) (height / 2 - py) in
    let updated :=
      addRoomTemplate st floorPlan (XFin width) (XFin height) suffix kind in
    exists room,
      rooms updated = (rooms floorPlan ++ [room])%list
      /\ room_id room = ("room-" ++ suffix)%string
      /\ room_label_position room = Some centre
      /\ (select_at floorPlan centre = None ->
          select_at updated centre = Some (room_id room)).
Proof.
  intros st floorPlan width height px py suffix kind Hpan centre updated.
  set (room := generateRoomTemplate suffix kind
                 (XFin (width / 2 - px)) (XFin (height / 2 - py))
                 (XFin (Q2R 20))).
  assert (Hrooms : rooms updated = (rooms floorPlan ++ [room])%list).
  { unfold updated, addRoomTemplate. rewrite Hpan.
    cbn [rooms real_point x y div sub lit XReal].
    now rewrite !canvas_middle. }
  exists room. split; [exact Hrooms|].
  split; [destruct kind; reflexivity|].
  pose proof (template_corners suffix kind (width / 2 - px) (height / 2 - py)
                (Q2R 20)) as Hpts.
  fold room in Hpts. cbn zeta in Hpts.
  destruct (template_size_positive kind) as [Hw Hh].
  set (w := (fst (template_size kind) * Q2R 20)%R) in *.
  set (h := (snd (template_size kind) * Q2R 20)%R) in *.
  assert (H20 : (0 < Q2R 20)%R) by (unfold Q2R; cbn; lra).
  assert (0 < w)%R by (apply Rmult_lt_0_compat; assumption).
  assert (0 < h)%R by (apply Rmult_lt_0_compat; assumption).
  split.
  - unfold room_label_position. rewrite Hpts.
    cbn [length Nat.ltb Nat.leb fold_left real_point x y add div lit
         XReal XR.add].
    assert (E4 : Q2R (Z.of_nat 4 # 1) = 4%R) by (unfold Q2R; cbn; lra).
    rewrite E4, Q2R_zero. cbn [XR.div].
    rewrite (proj2 (Reqb_false 4 0)) by lra.
    unfold centre, real_point. do 2 f_equal; f_equal; field.
  - intros Hnone.
    destruct (select_at_none_inv floorPlan centre Hnone)
      as (Hp & Hm & Hc & Hwl & Hr).
    assert (Hhit : room_hit centre room = true).
    { unfold room_hit. rewrite Hpts. unfold centre.
      rewrite rectangle_crossings. apply upright_sides_crossed_once.
      unfold Rmin, Rmax.
      destruct (Rle_dec (width / 2 - px - w / 2) (width / 2 - px + w / 2)),
               (Rle_dec (height / 2 - py - h / 2) (height / 2 - py + h / 2));
        lra. }
    unfold select_at.
    change (photos updated) with (photos floorPlan).
    change (models3D updated) with (models3D floorPlan).
    change (cabinets updated) with (cabinets floorPlan).
    change (walls updated) with (walls floorPlan).
    rewrite Hp, Hm, Hc, Hwl, Hrooms, find_app_first, Hr.
    cbn [find]. now rewrite Hhit.
Qed.

Lemma added_room_is_centred_witness :
  exists room,
    room_label_position room = Some (real_point (400 - 0) (300 - 0))
    /\ select_at
         (addRoomTemplate (dragging tool_select (pt 0 0) (pt 0 0))
            (plan_with [] [] [] []) (XFin 800) (XFin 600) "7-0.5" bedroom)
         (real_point (400 - 0) (300 - 0))
       = Some (room_id room).
Proof.
  destruct (added_room_is_centred
              (dragging tool_select (pt 0 0) (pt 0 0))
              (plan_with [] [] [] []) 800 600 0 0 "7-0.5" bedroom)
    as (room & _ & _ & Hl & Hs).
  - cbn. unfold pt, real_point. cbn [lit XReal]. now rewrite Q2R_zero.
  - exists room. cbn zeta in Hl, Hs.
    replace (800 / 2 - 0)%R with (400 - 0)%R in Hl, Hs by lra.
    replace (600 / 2 - 0)%R with (300 - 0)%R in Hl, Hs by lra.
    split; [exact Hl|]. apply Hs. reflexivity.
Defined.

Lemma preset_footprint_positive (type : CabinetType) (suffix : string)
    (position : Point xreal) (angle : xreal) :
  exists w d : R,
    cabinet_width (createCabinet suffix type position angle) = XFin w
    /\ cabinet_depth (createCabinet suffix type position angle) = XFin d
    /\ (0 < w)%R /\ (0 < d)%R.
Proof.
  destruct type; unfold createCabinet;
    cbn [presets cabinet_width cabinet_depth lit mul XReal XR.mul];
    eexists _, _; (split; [reflexivity|]); (split; [reflexivity|]);
    unfold Q2R; cbn; lra.
Qed.

(** X19.  On real coordinates, the toolbar adds a cabinet of the chosen
    type after the cabinets of the plan, unturned and placed on the middle
    of the visible canvas; where no photo, model or earlier cabinet is hit
    there, a click there selects the new cabinet, whatever walls and rooms
    lie under it. *)
Theorem added_cabinet_is_selectable :
  forall (st : EditorState (num := xreal)) (floorPlan : FloorPlan xreal)
         (width height px py : R) (suffix : string) (type : CabinetType),
    panOffset st = real_point px py ->
    let centre := real_point (width / 2 - px) (height / 2 - py) in
    let updated :=
      addCabinet st floorPlan (XFin width) (XFin height) suffix type in
    exists cabinet,
      cabinets updated = (cabinets floorPlan ++ [cabinet])%list
      /\ cabinet_id cabinet = ("cabinet-" ++ suffix)%string
      /\ cabinet_type cabinet = type
      /\ cabinet_position cabinet = centre
      /\ cabinet_angle cabinet = XFin 0
      /\ (Forall (fun a => photo_hit centre a = false) (photos floorPlan) ->
          Forall (fun a => model_hit centre a = false) (models3D floorPlan) ->
          Forall (fun a => cabinet_hit centre a = false) (cabinets floorPlan) ->
          select_at updated centre = Some (cabinet_id cabinet)).
Proof.
  intros st floorPlan width height px py suffix type Hpan centre updated.
  set (cabinet := createCabinet suffix type centre (XFin (Q2R 0))).
  assert (Hcabinets :
            cabinets updated = (cabinets floorPlan ++ [cabinet])%list).
  { unfold updated, addCabinet. rewrite Hpan.
    cbn [cabinets real_point x y div sub lit XReal].
    now rewrite !canvas_middle. }
  exists cabinet. split; [exact Hcabinets|].
  split; [destruct type; reflexivity|].
  split; [destruct type; reflexivity|].
  split; [destruct type; reflexivity|].
  split; [destruct type; cbn; now rewrite Q2R_zero|].
  intros Hp Hm Hc.
  rewrite Forall_forall in Hp, Hm, Hc.
  apply find_none_iff in Hp, Hm, Hc.
  assert (Hhit : cabinet_hit centre cabinet = true).
  { destruct (preset_footprint_positive type suffix centre (XFin (Q2R 0)))
      as (w & d & Ew & Ed & Hw & Hd).
    unfold cabinet_hit. fold cabinet in Ew, Ed. rewrite Ew, Ed.
    replace (cabinet_position cabinet) with centre
      by (destruct type; reflexivity).
    unfold centre.
    cbn [real_point x y sub div lit ltb Math_abs XReal XR.sub XR.add XR.neg
         XR.abs].
    rewrite !half_finite, Q2R_two. cbn [XR.ltb].
    rewrite !Rplus_opp_r, Rabs_R0.
    rewrite (proj2 (Rltb_true 0 (w / 2))) by lra.
    rewrite (proj2 (Rltb_true 0 (d / 2))) by lra.
    reflexivity. }
  unfold select_at.
  change (photos updated) with (photos floorPlan).
  change (models3D updated) with (models3D floorPlan).
  rewrite Hp, Hm, Hcabinets, find_app_first, Hc.
  cbn [find]. now rewrite Hhit.
Qed.

Lemma added_cabinet_is_selectable_witness :
  exists cabinet : Cabinet xreal,
    cabinet_type cabinet = island
    /\ select_at
         (addCabinet (dragging tool_select (pt 0 0) (pt 0 0))
            (plan_with [] [] [] []) (XFin 800) (XFin 600) "7-0.5" island)
         (real_point (800 / 2 - 0) (600 / 2 - 0))
       = Some (cabinet_id cabinet).
Proof.
  destruct (added_cabinet_is_selectable
              (dragging tool_select (pt 0 0) (pt 0 0))
              (plan_with [] [] [] []) 800 600 0 0 "7-0.5" island)
    as (cabinet & _ & _ & Ht & _ & _ & Hs).
  - cbn. unfold pt, real_point. cbn [lit XReal]. now rewrite Q2R_zero.
  - exists cabinet. split; [exact Ht|].
    apply Hs; constructor.
Defined.

(** ** Calibration on real numbers *)

Lemma calibration_accepted (st : EditorState (num := xreal))
    (floorPlan : FloorPlan xreal) (a b : Point xreal) (v : R) :
  dragStart st = Some a -> currentPoint st = Some b ->
  parseFloat (scaleDistance st) = XFin v -> (0 < v)%R ->
  exists updated md,
    changed (handleSetScale st floorPlan) = Some updated
    /\ toast (handleSetScale st floorPlan)
       = Some (toast_scale_set (XFin v) (scaleUnit st))
    /\ metadata updated = Some md
    /\ scale md = div (distance a b) (declared_meters (XFin v) (scaleUnit st))
    /\ unit md = scaleUnit st.
Proof.
  intros Ha Hb Hv Hpos. unfold handleSetScale. rewrite Ha, Hb.
  destruct (scaleDistance st) as [|c text] eqn:Htext.
  - cbn in Hv. discriminate.
  - rewrite Hv. cbn [isNaN leb lit XReal XR.isNaN XR.leb orb].
    rewrite Q2R_zero, Rleb_negb_Rltb, (proj2 (Rltb_true 0 v) Hpos).
    cbn [negb changed toast metadata].
    eexists _, _. split; [reflexivity|]. split; [reflexivity|].
    split; [reflexivity|].
    rewrite (proj1 (with_scale_fields _ _ _)).
    rewrite (proj2 (with_scale_fields _ _ _)).
    unfold declared_meters. split; [destruct (scaleUnit st)|]; reflexivity.
Qed.

Lemma declared_meters_real (v : R) (u : Unit_) :
  (0 < v)%R ->
  exists m : R, declared_meters (XFin v) u = XFin m /\ (0 < m)%R
                /\ convertPixelsToRealWorld (XFin m) (XFin 1) u = XFin v.
Proof.
  intros Hv.
  pose proof feet_factor_nonzero as Hf.
  pose proof inches_factor_nonzero as Hi.
  assert (Hf0 : (0 < Q2R 3.28084)%R) by (unfold Q2R; cbn; lra).
  assert (Hi0 : (0 < Q2R 39.3701)%R) by (unfold Q2R; cbn; lra).
  assert (H1 : XR.Reqb 1 0 = false) by (apply Reqb_false; lra).
  destruct u; unfold declared_meters, convertPixelsToRealWorld;
    cbn [div mul lit XReal XR.div XR.mul]; rewrite ?H1.
  - exists v. split; [reflexivity|]. split; [exact Hv|]. f_equal. field.
  - rewrite (proj2 (Reqb_false _ _) Hf). eexists. split; [reflexivity|].
    split; [now apply Rdiv_lt_0_compat|].
    cbn [XR.mul]. f_equal. now field.
  - rewrite (proj2 (Reqb_false _ _) Hi). eexists. split; [reflexivity|].
    split; [now apply Rdiv_lt_0_compat|].
    cbn [XR.mul]. f_equal. now field.
Qed.

Lemma dist_euc_zero_iff (ax ay bx by_ : R) :
  (0 <= dist_euc bx by_ ax ay)%R
  /\ (dist_euc bx by_ ax ay = 0%R <-> ax = bx /\ ay = by_).
Proof.
  unfold dist_euc. split; [apply sqrt_pos|]. split.
  - intros E.
    apply sqrt_eq_0 in E; [|apply Rplus_le_le_0_compat; apply Rle_0_sqr].
    apply Rplus_sqr_eq_0 in E. destruct E. split; lra.
  - intros [-> ->]. unfold Rsqr.
    replace ((bx - bx) * (bx - bx) + (by_ - by_) * (by_ - by_))%R with 0%R
      by ring.
    apply sqrt_0.
Qed.

(** X20.  On real coordinates, after a calibration with a line between
    two different points and a declared length [v > 0], the plan measures
    that line as [v] in the declared unit: its scale and unit turn the
    pixel length of the line into exactly the declared length. *)
Theorem calibrated_line_measures_as_declared :
  forall (st : EditorState (num := xreal)) (floorPlan : FloorPlan xreal)
         (ax ay bx by_ v : R),
    dragStart st = Some (real_point ax ay) ->
    currentPoint st = Some (real_point bx by_) ->
    (ax, ay) <> (bx, by_) ->
    parseFloat (scaleDistance st) = XFin v -> (0 < v)%R ->
    exists updated,
      changed (handleSetScale st floorPlan) = Some updated
      /\ plan_unit updated = scaleUnit st
      /\ convertPixelsToRealWorld
           (distance (real_point ax ay) (real_point bx by_))
           (plan_scale updated) (plan_unit updated)
         = XFin v.
Proof.
  intros st floorPlan ax ay bx by_ v Ha Hb Hne Hv Hpos.
  destruct (calibration_accepted st floorPlan _ _ v Ha Hb Hv Hpos)
    as (updated & md & Hc & _ & Hmd & Hscale & Hunit).
  exists updated. split; [exact Hc|].
  assert (Hu : plan_unit updated = scaleUnit st).
  { unfold plan_unit. now rewrite Hmd. }
  split; [exact Hu|]. rewrite Hu.
  destruct (declared_meters_real v (scaleUnit st) Hpos)
    as (m & Em & Hm & Hback).
  rewrite Em, distance_real in Hscale. rewrite distance_real.
  set (d := dist_euc bx by_ ax ay) in *.
  assert (Hd : (0 < d)%R).
  { destruct (dist_euc_zero_iff ax ay bx by_) as [Hge Hzero]. fold d in Hge, Hzero.
    destruct (Rle_lt_or_eq_dec 0 d Hge) as [Hlt|Heq]; [exact Hlt|].
    exfalso. apply Hne. symmetry in Heq.
    apply Hzero in Heq. destruct Heq. now subst. }
  assert (Hm0 : XR.Reqb m 0 = false) by (apply Reqb_false; lra).
  cbn [div XReal XR.div] in Hscale. rewrite Hm0 in Hscale.
  assert (Hs : (d / m <> 0)%R).
  { apply Rgt_not_eq. now apply Rdiv_lt_0_compat. }
  rewrite (plan_scale_of_metadata updated md (d / m) Hmd Hscale Hs).
  rewrite <- Hback.
  unfold convertPixelsToRealWorld. cbn [div XReal XR.div].
  rewrite (proj2 (Reqb_false _ _) Hs).
  rewrite (proj2 (Reqb_false 1 0)) by lra.
  replace (d / (d / m))%R with (m / 1)%R by (field; lra).
  reflexivity.
Qed.

Lemma calibrated_line_measures_as_declared_witness :
  exists updated,
    changed (handleSetScale
               (calibrating (num := xreal) (pt 0 0) (pt 200 0) "10" feet)
               (plan_with [] [] [] []))
    = Some updated
    /\ convertPixelsToRealWorld
         (distance (num := xreal) (pt 0 0) (pt 200 0))
         (plan_scale updated) (plan_unit updated)
       = XFin (Q2R 10).
Proof.
  destruct (calibrated_line_measures_as_declared
              (calibrating (pt 0 0) (pt 200 0) "10" feet)
              (plan_with [] [] [] [])
              (Q2R 0) (Q2R 0) (Q2R 200) (Q2R 0) (Q2R 10))
    as (updated & Hc & _ & Hm).
  - reflexivity.
  - reflexivity.
  - intros E. injection E as E. revert E. unfold Q2R; cbn; lra.
  - reflexivity.
  - unfold Q2R; cbn; lra.
  - exists updated. split; [exact Hc | exact Hm].
Defined.

(** X21.  On real coordinates, a calibration line of no length is not
    refused: with a declared length [v > 0] the calibration reports
    success and stores the scale 0, which every reader of the scale
    replaces by the default of 20 pixels per meter. *)
Theorem zero_length_calibration_is_accepted :
  forall (st : EditorState (num := xreal)) (floorPlan : FloorPlan xreal)
         (ax ay v : R),
    dragStart st = Some (real_point ax ay) ->
    currentPoint st = Some (real_point ax ay) ->
    parseFloat (scaleDistance st) = XFin v -> (0 < v)%R ->
    exists updated md,
      changed (handleSetScale st floorPlan) = Some updated
      /\ toast (handleSetScale st floorPlan)
         = Some (toast_scale_set (XFin v) (scaleUnit st))
      /\ metadata updated = Some md
      /\ scale md = XFin 0
      /\ plan_scale updated = XFin (Q2R 20).
Proof.
  intros st floorPlan ax ay v Ha Hb Hv Hpos.
  destruct (calibration_accepted st floorPlan _ _ v Ha Hb Hv Hpos)
    as (updated & md & Hc & Ht & Hmd & Hscale & _).
  exists updated, md. split; [exact Hc|]. split; [exact Ht|].
  split; [exact Hmd|].
  destruct (declared_meters_real v (scaleUnit st) Hpos) as (m & Em & Hm & _).
  rewrite Em, distance_real in Hscale.
  replace (dist_euc ax ay ax ay) with 0%R in Hscale
    by (symmetry; apply dist_euc_zero_iff; split; reflexivity).
  cbn [div XReal XR.div] in Hscale.
  rewrite (proj2 (Reqb_false m 0)) in Hscale by lra.
  replace (0 / m)%R with 0%R in Hscale by (field; lra).
  split; [exact Hscale|].
  unfold plan_scale, or_else, truthy. rewrite Hmd, Hscale.
  cbn [eqb isNaN lit XReal XR.eqb XR.isNaN].
  rewrite Q2R_zero, (proj2 (Reqb_true 0 0) eq_refl). reflexivity.
Qed.

Lemma zero_length_calibration_is_accepted_witness :
  exists updated,
    changed (handleSetScale
               (calibrating (num := xreal) (pt 40 40) (pt 40 40) "10" meters)
               (plan_with [] [] [] []))
    = Some updated
    /\ plan_scale updated = XFin (Q2R 20).
Proof.
  destruct (zero_length_calibration_is_accepted
              (calibrating (pt 40 40) (pt 40 40) "10" meters)
              (plan_with [] [] [] []) (Q2R 40) (Q2R 40) (Q2R 10))
    as (updated & md & Hc & _ & _ & _ & Hs).
  - reflexivity.
  - reflexivity.
  - reflexivity.
  - unfold Q2R; cbn; lra.
  - exists updated. split; [exact Hc | exact Hs].
Defined.

(** ** Panning *)









(** ** Deletion and selection among numbers *)

Lemma F64_not_nan (a : float) :
  PrimFloat.is_nan a = false -> Prim2SF a <> S754_nan.
Proof.
  unfold PrimFloat.is_nan. rewrite eqb_spec. intros E Hnan.
  rewrite Hnan in E. discriminate.
Qed.

Lemma SFcompare_numbers (a b : spec_float) :
  a <> S754_nan -> b <> S754_nan -> SFcompare a b <> None.
Proof.
  destruct a as [s|s| |s m e], b as [t|t| |t n f]; cbn; try congruence;
    try (destruct s; congruence); try (destruct t; congruence);
    try (destruct s, t; congruence).
Qed.

Lemma F64_ordered_numbers : ordered_numbers (num := float).
Proof.
  intros a b Ha Hb. cbn [leb ltb isNaN Float64] in *.
  rewrite leb_spec, ltb_spec. unfold SFleb, SFltb.
  rewrite (SFcompare_antisym (Prim2SF a) (Prim2SF b)).
  pose proof (SFcompare_numbers _ _ (F64_not_nan a Ha) (F64_not_nan b Hb)).
  destruct (SFcompare (Prim2SF a) (Prim2SF b)) as [[| |]|]; cbn; congruence.
Qed.

(** X24.  In every number structure where [a >= b] is the negation of
    [a < b] among numbers (binary64 is one), deletion at a point removes
    exactly the entities the tests of selection match there, in every
    collection, provided no distance, offset or half extent the tests
    compare is [NaN]. *)
Theorem deletion_matches_selection_among_numbers :
  forall (num : Type) (N : JSNumber num),
    ordered_numbers (num := num) ->
    isNaN (lit (num := num) 10) = false ->
    isNaN (lit (num := num) 20) = false ->
    forall (floorPlan : FloorPlan num) (p : Point num),
      tests_are_numbers floorPlan p ->
      delete_at floorPlan p = remove_hits floorPlan p
      /\ entities_by_priority (delete_at floorPlan p)
         = filter (fun e => negb (proximity p e))
                  (entities_by_priority floorPlan).
Proof.
  intros num N Hord H10 H20 floorPlan p [Hm Hc Hw Hd Hwin].
  rewrite Forall_forall in Hm, Hc, Hw, Hd, Hwin.
  assert (E : delete_at floorPlan p = remove_hits floorPlan p).
  { unfold delete_at, remove_hits. f_equal.
    - apply filter_ext_in. intros w Hin.
      unfold wall_keep, proximity. apply Hord; auto.
    - apply filter_ext_in. intros d Hin.
      unfold door_keep, proximity. apply Hord; auto.
    - apply filter_ext_in. intros w Hin.
      unfold window_keep, proximity. apply Hord; auto.
    - apply filter_ext_in. intros c Hin.
      destruct (Hc c Hin) as (Hx & Hy & Hwd & Hdp).
      unfold cabinet_keep, proximity, in_centered_box.
      rewrite negb_andb. f_equal; apply Hord; assumption.
    - apply filter_ext_in. intros m Hin.
      destruct (Hm m Hin) as (Hx & Hy & Hs).
      unfold model_keep, proximity, in_centered_box.
      rewrite negb_andb. f_equal; apply Hord; assumption. }
  split; [exact E|]. now rewrite E, entities_remove_hits.
Qed.

Lemma deletion_matches_selection_among_numbers_witness :
  delete_at (room_and_wall (num := float)) (pt 50 5)
  = remove_hits room_and_wall (pt 50 5).
Proof.
  apply (deletion_matches_selection_among_numbers float Float64
           F64_ordered_numbers eq_refl eq_refl room_and_wall (pt 50 5)).
  constructor; cbn [models3D cabinets walls doors windows room_and_wall
                    plan_with createDefaultFloorPlan];
    repeat constructor.
Defined.
